(** * go6502: the serial controller, the debugger and the run loop

    A shallow embedding of the Go sources
      - [go6502.go] (packages [main] and [acia6551]),
      - [debugger/debugger.go] (package [debugger]),
      - [machine/machine.go], [machine/ram.go] (package [machine]),
    followed by the properties proved about them.

    Conventions.  A Go [byte], [uint16] or [int] is a [Z]; the conversions
    [uint8], [uint16] and [uint64] write the wrap-around out.  A Go [string]
    is a [string] of bytes.  A Go [error] is an [option string] ([None] is
    [nil]).  A function that can panic returns an [outcome]. *)

From Stdlib Require Import ZArith List String Ascii Bool Lia.
Import ListNotations.
Open Scope string_scope.
Open Scope list_scope.
Open Scope Z_scope.

(** ** Go values *)

Definition error := option string.

Definition uint8 (z : Z) : Z := z mod 256.
Definition uint16 (z : Z) : Z := z mod 65536.
Definition uint64 (z : Z) : Z := z mod 18446744073709551616.

(** A call either returns a value or panics with a message. *)
Inductive outcome (A : Type) : Type :=
| Returned (a : A)
| Panicked (msg : string).
Arguments Returned {A} a.
Arguments Panicked {A} msg.

Definition bind {A B : Type} (m : outcome A) (k : A -> outcome B) : outcome B :=
  match m with
  | Returned a => k a
  | Panicked msg => Panicked msg
  end.

Notation "x <- m ;; k" := (bind m (fun x => k))
  (at level 61, m at next level, right associativity).
Notation "' p <- m ;; k" := (bind m (fun x => let p := x in k))
  (at level 61, p pattern, m at next level, right associativity).

Definition nilDereference : string :=
  "runtime error: invalid memory address or nil pointer dereference".

(** ** Package acia6551 *)

Module acia6551.

(** [os.File], as far as [Terminal] uses it: a source of bytes still to be
    read, the bytes written so far, and whether the file was closed (every
    call on a closed file fails). *)
Record File : Type := mkFile {
  unread : list Z;
  written : list Z;
  closed : bool
}.

(** [f.Read(b)] with [len(b) = 1]: the count, the byte stored in [b[0]]
    (the buffer starts zeroed) and the error. *)
Definition File_Read (f : File) : (Z * Z * error) * File :=
  if closed f then ((0, 0, Some "file already closed"), f)
  else match unread f with
       | [] => ((0, 0, Some "EOF"), f)
       | b :: rest => ((1, b, None), mkFile rest (written f) (closed f))
       end.

(** [f.Write([]byte{b})]. *)
Definition File_Write (f : File) (b : Z) : (Z * error) * File :=
  if closed f then ((0, Some "file already closed"), f)
  else ((1, None), mkFile (unread f) (written f ++ [b]) (closed f)).

Definition File_Close (f : File) : File :=
  mkFile (unread f) (written f) true.

(** const ( Nop = 0; Read = 1 << 0; Write = 1 << 1; BiDirectional = Read | Write ) *)
Definition Nop : Z := 0.
Definition Read : Z := Z.shiftl 1 0.
Definition Write : Z := Z.shiftl 1 1.
Definition BiDirectional : Z := Z.lor Read Write.

(** type SerialPeripheral interface: a device of type [P] whose calls may
    change it.  [sp_Read] gives (bool, byte, error), [sp_Write] (bool, error). *)
Class SerialPeripheral (P : Type) : Type := {
  sp_Capabilities : P -> Z;
  sp_Read : P -> (bool * Z * error) * P;
  sp_Write : P -> Z -> (bool * error) * P;
  sp_Shutdown : P -> P
}.

(** type Terminal struct: [in] and [out] are [*os.File], [None] is [nil]. *)
Record Terminal : Type := mkTerminal {
  console : bool;
  in_ : option File;
  out : option File
}.

Definition Terminal_Capabilities (t : Terminal) : Z :=
  match in_ t, out t with
  | Some _, Some _ => BiDirectional
  | Some _, None => Read
  | None, Some _ => Write
  | None, None => Nop
  end.

Definition Terminal_Read (t : Terminal) : (bool * Z * error) * Terminal :=
  match in_ t with
  | None => ((false, 0, None), t)
  | Some f =>
      let '((n, b0, err), f') := File_Read f in
      let t' := mkTerminal (console t) (Some f') (out t) in
      match err with
      | Some e => ((false, 0, Some e), t')
      | None => ((n =? 1, b0, None), t')
      end
  end.

Definition Terminal_Write (t : Terminal) (b : Z) : (bool * error) * Terminal :=
  match out t with
  | None => ((false, None), t)
  | Some f =>
      let '((n, err), f') := File_Write f b in
      ((n =? 1, err), mkTerminal (console t) (in_ t) (Some f'))
  end.

Definition Terminal_Shutdown (t : Terminal) : Terminal :=
  if negb (console t)
  then mkTerminal (console t) (option_map File_Close (in_ t))
                  (option_map File_Close (out t))
  else t.

#[export] Instance Terminal_SerialPeripheral : SerialPeripheral Terminal := {
  sp_Capabilities := Terminal_Capabilities;
  sp_Read := Terminal_Read;
  sp_Write := Terminal_Write;
  sp_Shutdown := Terminal_Shutdown
}.

(** NewConsole, with the standard streams given, and NewTerminal. *)
Definition NewConsole (stdin stdout : File) : Terminal :=
  mkTerminal true (Some stdin) (Some stdout).

Definition NewTerminal (i o : option File) : Terminal :=
  mkTerminal false i o.

(** const ( aciaData = iota; aciaStatus; aciaCommand; aciaControl ) *)
Definition aciaData : Z := 0.
Definition aciaStatus : Z := 1.
Definition aciaCommand : Z := 2.
Definition aciaControl : Z := 3.

Section Acia.

Context {P : Type} `{SerialPeripheral P}.

(** type Acia6551 struct *)
Record Acia6551 : Type := mkAcia {
  rx : Z;
  tx : Z;
  commandData : Z;
  controlData : Z;
  rxFull : bool;
  txEmpty : bool;
  rxIrqEnabled : bool;
  txIrqEnabled : bool;
  overrun : bool;
  peripheral : option P;
  capabilities : Z
}.

(** type Options struct *)
Record Options : Type := mkOptions { Peripheral : option P }.

Definition NewAcia6551 (o : Options) : Acia6551 :=
  mkAcia 0 0 0 0 false false false false false (Peripheral o)
         (match Peripheral o with
          | Some p => sp_Capabilities p
          | None => 0
          end).

Definition Size (a : Acia6551) : Z := 4.

Definition Shutdown (a : Acia6551) : Acia6551 :=
  mkAcia (rx a) (tx a) (commandData a) (controlData a) (rxFull a) (txEmpty a)
         (rxIrqEnabled a) (txIrqEnabled a) (overrun a)
         (option_map sp_Shutdown (peripheral a)) (capabilities a).

Definition setControl (a : Acia6551) (data : Z) : Acia6551 :=
  mkAcia (rx a) (tx a) (commandData a) data (rxFull a) (txEmpty a)
         (rxIrqEnabled a) (txIrqEnabled a) (overrun a)
         (peripheral a) (capabilities a).

Definition setCommand (a : Acia6551) (data : Z) : Acia6551 :=
  mkAcia (rx a) (tx a) data (controlData a) (rxFull a) (txEmpty a)
         (negb (Z.land data 2 =? 0))
         (negb (Z.land data 4 =? 0) && negb (Z.land data 8 =? 1))
         (overrun a) (peripheral a) (capabilities a).

(** Emulates a hardware reset. *)
Definition Reset (a : Acia6551) : Acia6551 :=
  let a := mkAcia 0 0 (commandData a) (controlData a) false true
                  false false false (peripheral a) (capabilities a) in
  let a := setControl a 0 in
  setCommand a 0.

Definition statusRegister (a : Acia6551) : Z :=
  let status := 0 in
  let status := if rxFull a then Z.lor status 8 else status in
  let status := if txEmpty a then Z.lor status 16 else status in
  let status := if overrun a then Z.lor status 4 else status in
  status.

Definition rxRead (a : Acia6551) : outcome (Z * Acia6551) :=
  a <- (if negb (rxFull a) && (Z.land (capabilities a) Read =? Read)
        then match peripheral a with
             | None => Panicked nilDereference
             | Some p =>
                 let '((read, data, err), p') := sp_Read p in
                 Returned
                   (mkAcia (if read then data else rx a) (tx a) (commandData a)
                           (controlData a) (rxFull a) (txEmpty a)
                           (rxIrqEnabled a) (txIrqEnabled a) (overrun a)
                           (Some p') (capabilities a))
             end
        else Returned a) ;;
  let a := mkAcia (rx a) (tx a) (commandData a) (controlData a) false
                  (txEmpty a) (rxIrqEnabled a) (txIrqEnabled a) false
                  (peripheral a) (capabilities a) in
  Returned (rx a, a).

Definition txWrite (a : Acia6551) (data : Z) : outcome Acia6551 :=
  if Z.land (capabilities a) Write =? Write
  then match peripheral a with
       | None => Panicked nilDereference
       | Some p =>
           let '((written, err), p') := sp_Write p data in
           Returned
             (mkAcia (rx a) data (commandData a) (controlData a) (rxFull a)
                     (written || match err with Some _ => true | None => false end)
                     (rxIrqEnabled a) (txIrqEnabled a) (overrun a)
                     (Some p') (capabilities a))
       end
  else Returned a.

Definition Acia6551_Read (a : Acia6551) (address : Z) : outcome (Z * Acia6551) :=
  if address =? aciaData then rxRead a
  else if address =? aciaStatus then Returned (statusRegister a, a)
  else if address =? aciaCommand then Returned (commandData a, a)
  else if address =? aciaControl then Returned (controlData a, a)
  else Panicked "read from 0x%X not handled by Acia6551".

Definition Acia6551_Write (a : Acia6551) (address data : Z) : outcome Acia6551 :=
  if address =? aciaData then txWrite a data
  else if address =? aciaStatus then Returned (Reset a)
  else if address =? aciaCommand then Returned (setCommand a data)
  else if address =? aciaControl then Returned (setControl a data)
  else Returned a.

(** What [NewAcia6551] establishes and no method changes: capabilities are
    only declared for a peripheral that is there. *)
Definition attached (a : Acia6551) : Prop :=
  peripheral a = None -> capabilities a = Nop.

(** What reaches the controller over the bus: a read or a write at an
    offset of its range, or a hardware reset. *)
Inductive access : Type :=
| BusRead (address : Z)
| BusWrite (address data : Z)
| HardReset.

(** The accesses one after the other: the bytes read, in order, and the
    controller afterwards.  A panic ends them. *)
Fixpoint accesses (a : Acia6551) (l : list access)
  : outcome (list Z * Acia6551) :=
  match l with
  | [] => Returned ([], a)
  | BusRead address :: rest =>
      r <- Acia6551_Read a address ;;
      r' <- accesses (snd r) rest ;;
      Returned (fst r :: fst r', snd r')
  | BusWrite address data :: rest =>
      a <- Acia6551_Write a address data ;;
      accesses a rest
  | HardReset :: rest => accesses (Reset a) rest
  end.

(** An access within the four registers ([Size] is 4). *)
Definition inRange (e : access) : bool :=
  match e with
  | BusRead address => (0 <=? address) && (address <? 4)
  | BusWrite address _ => (0 <=? address) && (address <? 4)
  | HardReset => true
  end.

End Acia.

Arguments Acia6551 P : clear implicits.
Arguments Options P : clear implicits.

(** The bytes a controller's terminal has written to its output file, and
    those still unread in its input file. *)
Definition terminalOutput (a : Acia6551 Terminal) : option (list Z) :=
  match peripheral a with
  | Some t => option_map written (out t)
  | None => None
  end.

Definition terminalInput (a : Acia6551 Terminal) : option (list Z) :=
  match peripheral a with
  | Some t => option_map unread (in_ t)
  | None => None
  end.

End acia6551.

(** ** Go's standard library, as far as the debugger calls it

    ASCII input is modelled byte for byte; bytes above 127 are left alone by
    the case conversions and never count as white space. *)

Definition byte (c : ascii) : Z := Z.of_N (N_of_ascii c).
Definition char (z : Z) : ascii := ascii_of_N (Z.to_N z).

Module strings.

Fixpoint mapBytes (f : Z -> Z) (s : string) : string :=
  match s with
  | EmptyString => EmptyString
  | String c rest => String (char (f (byte c))) (mapBytes f rest)
  end.

Definition ToLower (s : string) : string :=
  mapBytes (fun c => if (65 <=? c) && (c <=? 90) then c + 32 else c) s.

Definition ToUpper (s : string) : string :=
  mapBytes (fun c => if (97 <=? c) && (c <=? 122) then c - 32 else c) s.

(** White space as [strings.Fields] sees it: tab, newline, vertical tab,
    form feed, carriage return and space. *)
Definition isSpace (c : ascii) : bool :=
  let b := byte c in
  (b =? 9) || (b =? 10) || (b =? 11) || (b =? 12) || (b =? 13) || (b =? 32).

Fixpoint fieldsFrom (s field : string) : list string :=
  match s with
  | EmptyString => if String.eqb field "" then [] else [field]
  | String c rest =>
      if isSpace c
      then (if String.eqb field "" then fieldsFrom rest ""
            else field :: fieldsFrom rest "")
      else fieldsFrom rest (field ++ String c "")%string
  end.

Definition Fields (s : string) : list string := fieldsFrom s "".

Fixpoint Join (elems : list string) (sep : string) : string :=
  match elems with
  | [] => ""
  | [e] => e
  | e :: rest => (e ++ sep ++ Join rest sep)%string
  end.

(** [strings.Replace(s, old, new, 1)] for a one-byte [old]: the first
    occurrence is replaced, the rest of [s] is kept. *)
Fixpoint ReplaceFirst (s : string) (old : ascii) (new : string) : string :=
  match s with
  | EmptyString => EmptyString
  | String c rest =>
      if Ascii.eqb c old then (new ++ rest)%string
      else String c (ReplaceFirst rest old new)
  end.

End strings.

Module strconv.

Definition syntaxError : error := Some "strconv.ParseUint: invalid syntax".
Definition rangeError : error := Some "strconv.ParseUint: value out of range".
Definition baseError : error := Some "strconv.ParseUint: invalid base".
Definition bitSizeError : error := Some "strconv.ParseUint: invalid bit size".

Definition maxUint64 : Z := 18446744073709551615.

(** lower(c) is c | ('x' - 'X') *)
Definition lower (c : Z) : Z := Z.lor c 32.

(** The value of one digit byte, when it is a digit or a letter. *)
Definition digit (c : Z) : option Z :=
  if (48 <=? c) && (c <=? 57) then Some (c - 48)
  else if (97 <=? lower c) && (lower c <=? 122) then Some (lower c - 97 + 10)
  else None.

(** The loop of [ParseUint] over the bytes of [s]: [inl] is an early
    return, [inr] the number read and whether an underscore was skipped. *)
Fixpoint digits (base0 : bool) (base cutoff maxVal : Z) (s : string)
                (n : Z) (underscores : bool) : (Z * error) + (Z * bool) :=
  match s with
  | EmptyString => inr (n, underscores)
  | String ch rest =>
      let c := byte ch in
      if (c =? 95) && base0
      then digits base0 base cutoff maxVal rest n true
      else match digit c with
           | None => inl (0, syntaxError)
           | Some d =>
               if d >=? base then inl (0, syntaxError)
               else if n >=? cutoff then inl (maxVal, rangeError)
               else
                 let n := uint64 (n * base) in
                 let n1 := uint64 (n + d) in
                 if (n1 <? n) || (n1 >? maxVal) then inl (maxVal, rangeError)
                 else digits base0 base cutoff maxVal rest n1 underscores
           end
  end.

(** What [underscoreOK] remembers of the byte before: the beginning, a
    digit, an underscore, or anything else. *)
Inductive saw : Type := SawStart | SawDigit | SawUnderscore | SawOther.

Fixpoint underscoreScan (hex : bool) (s : string) (seen : saw) : bool :=
  match s with
  | EmptyString => match seen with SawUnderscore => false | _ => true end
  | String ch rest =>
      let c := byte ch in
      if ((48 <=? c) && (c <=? 57))
         || (hex && (97 <=? lower c) && (lower c <=? 102))
      then underscoreScan hex rest SawDigit
      else if c =? 95
      then match seen with
           | SawDigit => underscoreScan hex rest SawUnderscore
           | _ => false
           end
      else match seen with
           | SawUnderscore => false
           | _ => underscoreScan hex rest SawOther
           end
  end.

Definition underscoreOK (s : string) : bool :=
  let s := match s with
           | String c rest => if (byte c =? 45) || (byte c =? 43) then rest else s
           | EmptyString => s
           end in
  match s with
  | String c0 (String c1 rest) =>
      if (byte c0 =? 48)
         && ((lower (byte c1) =? 98) || (lower (byte c1) =? 111)
             || (lower (byte c1) =? 120))
      then underscoreScan (lower (byte c1) =? 120) rest SawDigit
      else underscoreScan false s SawStart
  | _ => underscoreScan false s SawStart
  end.

(** The base and the digits left once a prefix has been read, for base 0. *)
Definition basePrefix (s : string) : Z * string :=
  match s with
  | String c0 t =>
      if byte c0 =? 48
      then match t with
           | String c1 (String _ _ as t2) =>
               if lower (byte c1) =? 98 then (2, t2)
               else if lower (byte c1) =? 111 then (8, t2)
               else if lower (byte c1) =? 120 then (16, t2)
               else (8, t)
           | _ => (8, t)
           end
      else (10, s)
  | EmptyString => (10, s)
  end.

(** [strconv.ParseUint(s, base, bitSize)]: the value and the error. *)
Definition ParseUint (s : string) (base bitSize : Z) : Z * error :=
  if String.eqb s "" then (0, syntaxError)
  else
    let base0 := base =? 0 in
    let s0 := s in
    match (if (2 <=? base) && (base <=? 36) then Some (base, s)
           else if base =? 0 then Some (basePrefix s)
           else None) with
    | None => (0, baseError)
    | Some (base, s) =>
        if (bitSize <? 0) || (bitSize >? 64) then (0, bitSizeError)
        else
          let bitSize := if bitSize =? 0 then 64 else bitSize in
          let cutoff := maxUint64 / base + 1 in
          let maxVal := uint64 (Z.shiftl 1 bitSize - 1) in
          match digits base0 base cutoff maxVal s 0 false with
          | inl r => r
          | inr (n, underscores) =>
              if underscores && negb (underscoreOK s0) then (0, syntaxError)
              else (n, None)
          end
    end.

End strconv.

(** ** Numerals

    The number a string of digits denotes, read from the left: what the
    statements about parsing compare [strconv.ParseUint] with. *)

Module numeral.

Definition isDecimal (c : ascii) : bool :=
  (48 <=? byte c) && (byte c <=? 57).

Definition isHex (c : ascii) : bool :=
  isDecimal c || ((65 <=? byte c) && (byte c <=? 70))
  || ((97 <=? byte c) && (byte c <=? 102)).

Definition digitValue (c : ascii) : Z :=
  if isDecimal c then byte c - 48
  else if byte c <=? 70 then byte c - 65 + 10
  else byte c - 97 + 10.

Fixpoint allChars (ok : ascii -> bool) (s : string) : bool :=
  match s with
  | EmptyString => true
  | String c rest => ok c && allChars ok rest
  end.

Fixpoint value (base : Z) (s : string) (acc : Z) : Z :=
  match s with
  | EmptyString => acc
  | String c rest => value base rest (acc * base + digitValue c)
  end.

End numeral.

(** ** Package cpu *)

Module cpu.

(** Modelled from the spec: package cpu (the processor, its registers and
    the decoded instruction) is not among the sources.  The spec's data
    model gives the registers; the debugger reads [Name()], [IsAbsolute()],
    [Op16] and [Bytes] of an instruction, reads memory through [Bus.Read]
    (an unmapped address is fatal) and sends on [ExitChan]. *)
Record Instruction : Type := mkInstruction {
  Name : string;
  Bytes : Z;
  IsAbsolute : bool;
  Op16 : Z
}.

Record Cpu : Type := mkCpu {
  PC : Z;
  AC : Z;
  X : Z;
  Y : Z;
  SP : Z;
  SR : Z;
  Bus : Z -> option Z;
  ExitChan : list Z
}.

(** [c.Bus.Read(addr)] *)
Definition Bus_Read (c : Cpu) (addr : Z) : outcome Z :=
  match Bus c addr with
  | Some v => Returned v
  | None => Panicked "unmapped address"
  end.

(** [c.ExitChan <- status]: the value is handed to the receiver. *)
Definition send_ExitChan (c : Cpu) (status : Z) : Cpu :=
  mkCpu (PC c) (AC c) (X c) (Y c) (SP c) (SR c) (Bus c) (ExitChan c ++ [status]).

End cpu.

(** ** Package debugger *)

Module debugger.

(** const ( debugCmdNone = iota; ... ) *)
Definition debugCmdNone : Z := 0.
Definition debugCmdBreakAddress : Z := 1.
Definition debugCmdBreakInstruction : Z := 2.
Definition debugCmdBreakRegister : Z := 3.
Definition debugCmdContinue : Z := 4.
Definition debugCmdExit : Z := 5.
Definition debugCmdHelp : Z := 6.
Definition debugCmdInvalid : Z := 7.
Definition debugCmdNext : Z := 8.
Definition debugCmdRead : Z := 9.
Definition debugCmdRead16 : Z := 10.
Definition debugCmdRead32 : Z := 11.
Definition debugCmdStep : Z := 12.

(** Modelled from the spec: the symbol table (type debugSymbols with
    addressesFor and labelsFor) is declared in a file that is not among the
    sources.  The spec has it map an address to one or more labels and a
    label to one or more addresses: a list of entries, searched in order. *)
Definition debugSymbols : Type := list (Z * string).

Definition addressesFor (s : debugSymbols) (label : string) : list Z :=
  map fst (filter (fun e => String.eqb (snd e) label) s).

Definition labelsFor (s : debugSymbols) (addr : Z) : list string :=
  map snd (filter (fun e => fst e =? addr) s).

(** The line editor (github.com/peterh/liner), seen from the debugger: the
    lines the user is still to type, the history, and the prompts shown.
    Prompt fails once the input has ended. *)
Record Liner : Type := mkLiner {
  pending : list string;
  history : list string;
  prompts : list string
}.

Definition Liner_Prompt (l : Liner) (p : string) : (string * error) * Liner :=
  match pending l with
  | [] => (("", Some "EOF"), mkLiner [] (history l) (prompts l ++ [p]))
  | line :: rest => ((line, None), mkLiner rest (history l) (prompts l ++ [p]))
  end.

Definition Liner_AppendHistory (l : Liner) (item : string) : Liner :=
  mkLiner (pending l) (history l ++ [item]) (prompts l).

(** What the debugger prints: the format and its arguments, one entry per
    call of fmt.Printf or fmt.Println. *)
Inductive arg : Type :=
| ArgString (s : string)
| ArgInt (z : Z)
| ArgCpu (c : cpu.Cpu)
| ArgInstruction (i : cpu.Instruction).

Inductive printed : Type :=
| Printf (format : string) (args : list arg)
| Println (args : list arg).

(** type cmd struct *)
Record cmd : Type := mkCmd {
  id : Z;
  input : string;
  arguments : list string
}.

(** type Debugger struct, with what it has printed. *)
Record Debugger : Type := mkDebugger {
  symbols : debugSymbols;
  inputQueue : list string;
  cpu : cpu.Cpu;
  liner : Liner;
  lastCmd : option cmd;
  run : bool;
  breakAddress : bool;
  breakAddressValue : Z;
  breakInstruction : string;
  breakRegA : bool;
  breakRegAValue : Z;
  breakRegX : bool;
  breakRegXValue : Z;
  breakRegY : bool;
  breakRegYValue : Z;
  stdout : list printed
}.

(** Assignments to one field. *)
Definition set_inputQueue (d : Debugger) (q : list string) : Debugger :=
  mkDebugger (symbols d) q (cpu d) (liner d) (lastCmd d) (run d)
    (breakAddress d) (breakAddressValue d) (breakInstruction d)
    (breakRegA d) (breakRegAValue d) (breakRegX d) (breakRegXValue d)
    (breakRegY d) (breakRegYValue d) (stdout d).

Definition set_cpu (d : Debugger) (c : cpu.Cpu) : Debugger :=
  mkDebugger (symbols d) (inputQueue d) c (liner d) (lastCmd d) (run d)
    (breakAddress d) (breakAddressValue d) (breakInstruction d)
    (breakRegA d) (breakRegAValue d) (breakRegX d) (breakRegXValue d)
    (breakRegY d) (breakRegYValue d) (stdout d).

Definition set_liner (d : Debugger) (l : Liner) : Debugger :=
  mkDebugger (symbols d) (inputQueue d) (cpu d) l (lastCmd d) (run d)
    (breakAddress d) (breakAddressValue d) (breakInstruction d)
    (breakRegA d) (breakRegAValue d) (breakRegX d) (breakRegXValue d)
    (breakRegY d) (breakRegYValue d) (stdout d).

Definition set_lastCmd (d : Debugger) (c : option cmd) : Debugger :=
  mkDebugger (symbols d) (inputQueue d) (cpu d) (liner d) c (run d)
    (breakAddress d) (breakAddressValue d) (breakInstruction d)
    (breakRegA d) (breakRegAValue d) (breakRegX d) (breakRegXValue d)
    (breakRegY d) (breakRegYValue d) (stdout d).

Definition set_run (d : Debugger) (b : bool) : Debugger :=
  mkDebugger (symbols d) (inputQueue d) (cpu d) (liner d) (lastCmd d) b
    (breakAddress d) (breakAddressValue d) (breakInstruction d)
    (breakRegA d) (breakRegAValue d) (breakRegX d) (breakRegXValue d)
    (breakRegY d) (breakRegYValue d) (stdout d).

Definition set_breakAddress (d : Debugger) (b : bool) : Debugger :=
  mkDebugger (symbols d) (inputQueue d) (cpu d) (liner d) (lastCmd d) (run d)
    b (breakAddressValue d) (breakInstruction d)
    (breakRegA d) (breakRegAValue d) (breakRegX d) (breakRegXValue d)
    (breakRegY d) (breakRegYValue d) (stdout d).

Definition set_breakAddressValue (d : Debugger) (v : Z) : Debugger :=
  mkDebugger (symbols d) (inputQueue d) (cpu d) (liner d) (lastCmd d) (run d)
    (breakAddress d) v (breakInstruction d)
    (breakRegA d) (breakRegAValue d) (breakRegX d) (breakRegXValue d)
    (breakRegY d) (breakRegYValue d) (stdout d).

Definition set_breakInstruction (d : Debugger) (s : string) : Debugger :=
  mkDebugger (symbols d) (inputQueue d) (cpu d) (liner d) (lastCmd d) (run d)
    (breakAddress d) (breakAddressValue d) s
    (breakRegA d) (breakRegAValue d) (breakRegX d) (breakRegXValue d)
    (breakRegY d) (breakRegYValue d) (stdout d).

Definition set_breakRegA (d : Debugger) (b : bool) : Debugger :=
  mkDebugger (symbols d) (inputQueue d) (cpu d) (liner d) (lastCmd d) (run d)
    (breakAddress d) (breakAddressValue d) (breakInstruction d)
    b (breakRegAValue d) (breakRegX d) (breakRegXValue d)
    (breakRegY d) (breakRegYValue d) (stdout d).

Definition set_breakRegAValue (d : Debugger) (v : Z) : Debugger :=
  mkDebugger (symbols d) (inputQueue d) (cpu d) (liner d) (lastCmd d) (run d)
    (breakAddress d) (breakAddressValue d) (breakInstruction d)
    (breakRegA d) v (breakRegX d) (breakRegXValue d)
    (breakRegY d) (breakRegYValue d) (stdout d).

Definition set_breakRegX (d : Debugger) (b : bool) : Debugger :=
  mkDebugger (symbols d) (inputQueue d) (cpu d) (liner d) (lastCmd d) (run d)
    (breakAddress d) (breakAddressValue d) (breakInstruction d)
    (breakRegA d) (breakRegAValue d) b (breakRegXValue d)
    (breakRegY d) (breakRegYValue d) (stdout d).

Definition set_breakRegXValue (d : Debugger) (v : Z) : Debugger :=
  mkDebugger (symbols d) (inputQueue d) (cpu d) (liner d) (lastCmd d) (run d)
    (breakAddress d) (breakAddressValue d) (breakInstruction d)
    (breakRegA d) (breakRegAValue d) (breakRegX d) v
    (breakRegY d) (breakRegYValue d) (stdout d).

Definition set_breakRegY (d : Debugger) (b : bool) : Debugger :=
  mkDebugger (symbols d) (inputQueue d) (cpu d) (liner d) (lastCmd d) (run d)
    (breakAddress d) (breakAddressValue d) (breakInstruction d)
    (breakRegA d) (breakRegAValue d) (breakRegX d) (breakRegXValue d)
    b (breakRegYValue d) (stdout d).

Definition set_breakRegYValue (d : Debugger) (v : Z) : Debugger :=
  mkDebugger (symbols d) (inputQueue d) (cpu d) (liner d) (lastCmd d) (run d)
    (breakAddress d) (breakAddressValue d) (breakInstruction d)
    (breakRegA d) (breakRegAValue d) (breakRegX d) (breakRegXValue d)
    (breakRegY d) v (stdout d).

Definition print (d : Debugger) (p : printed) : Debugger :=
  mkDebugger (symbols d) (inputQueue d) (cpu d) (liner d) (lastCmd d) (run d)
    (breakAddress d) (breakAddressValue d) (breakInstruction d)
    (breakRegA d) (breakRegAValue d) (breakRegX d) (breakRegXValue d)
    (breakRegY d) (breakRegYValue d) (stdout d ++ [p]).

(** NewDebugger, with the symbols read from the debug file and the lines
    the user will type given. *)
Definition NewDebugger (c : cpu.Cpu) (syms : debugSymbols) (typed : list string)
  : Debugger :=
  mkDebugger syms [] c (mkLiner typed [] []) None false
    false 0 "" false 0 false 0 false 0 [].

Definition QueueCommands (d : Debugger) (cmds : list string) : Debugger :=
  set_inputQueue d (inputQueue d ++ cmds).

(** [%04X] of a 16-bit value. *)
Definition hexDigit (n : Z) : ascii :=
  char (if n <? 10 then 48 + n else 55 + n).

Definition format_04X (v : Z) : string :=
  String (hexDigit (v / 4096 mod 16))
    (String (hexDigit (v / 256 mod 16))
       (String (hexDigit (v / 16 mod 16))
          (String (hexDigit (v mod 16)) ""))).

(** [s[i]] of a slice of strings: out of range panics. *)
Definition index (s : list string) (i : nat) : outcome string :=
  match nth_error s i with
  | Some x => Returned x
  | None => Panicked "runtime error: index out of range"
  end.

Definition checkRegBreakpoint (d : Debugger) (regStr : string) (on : bool)
                              (expect actual : Z) : Debugger :=
  if on && (actual =? expect)
  then
    let d := print d (Printf "Breakpoint for %s = $%02X (%d)\n"
                             [ArgString regStr; ArgInt expect; ArgInt expect]) in
    set_run d false
  else d.

Definition doBreakpoints (d : Debugger) (in_ : cpu.Instruction) : Debugger :=
  let inName := cpu.Name in_ in
  let d := if String.eqb inName (breakInstruction d)
           then
             let d := print d (Printf "Breakpoint for instruction %s\n"
                                      [ArgString inName]) in
             set_run d false
           else d in
  let d := if breakAddress d && (cpu.PC (cpu d) =? breakAddressValue d)
           then
             let d := print d (Printf "Breakpoint for PC address = $%04X\n"
                                      [ArgInt (breakAddressValue d)]) in
             set_run d false
           else d in
  let d := checkRegBreakpoint d "A" (breakRegA d) (breakRegAValue d) (cpu.AC (cpu d)) in
  let d := checkRegBreakpoint d "X" (breakRegX d) (breakRegXValue d) (cpu.X (cpu d)) in
  checkRegBreakpoint d "Y" (breakRegY d) (breakRegYValue d) (cpu.Y (cpu d)).

Definition prompt (d : Debugger) : string :=
  let symbols := strings.Join (labelsFor (symbols d) (cpu.PC (cpu d))) "," in
  ("$" ++ format_04X (cpu.PC (cpu d)) ++ " " ++ symbols ++ "> ")%string.

Definition readInput (d : Debugger) : (string * error) * Debugger :=
  let '((input, err), l) := Liner_Prompt (liner d) (prompt d) in
  let d := set_liner d l in
  match err with
  | Some e => (("", Some e), d)
  | None => ((input, None), set_liner d (Liner_AppendHistory (liner d) input))
  end.

Definition parseUint8 (d : Debugger) (s : string) : Z * error :=
  let s := strings.ReplaceFirst s "$" "0x" in
  let '(result, err) := strconv.ParseUint s 0 8 in
  (uint8 result, err).

Definition parseUint16 (d : Debugger) (s : string) : Z * error :=
  if String.eqb s "." then (cpu.PC (cpu d), None)
  else
    let addresses := addressesFor (symbols d) s in
    match addresses with
    | [a] => (a, None)
    | _ :: _ :: _ => (0, Some "Multiple addresses for %s: %v")
    | [] =>
        let s := strings.ReplaceFirst s "$" "0x" in
        let '(result, err) := strconv.ParseUint s 0 16 in
        (uint16 result, err)
    end.

(** Set a breakpoint for the address after the current instruction, then
    continue execution. *)
Definition commandNext (d : Debugger) (in_ : cpu.Instruction) : Debugger :=
  let addr := uint16 (cpu.PC (cpu d) + uint16 (cpu.Bytes in_)) in
  let d := set_breakAddress d true in
  let d := set_breakAddressValue d addr in
  set_run d true.

Definition commandRead (d : Debugger) (c : cmd) : outcome Debugger :=
  a0 <- index (arguments c) 0 ;;
  let '(addr, err) := parseUint16 d a0 in
  match err with
  | Some e => Panicked e
  | None =>
      v <- cpu.Bus_Read (cpu d) addr ;;
      Returned (print d (Printf "$%04X => $%02X 0b%08b %d %q\n"
                           [ArgInt addr; ArgInt v; ArgInt v; ArgInt v; ArgInt v]))
  end.

Definition commandRead16 (d : Debugger) (c : cmd) : outcome Debugger :=
  a0 <- index (arguments c) 0 ;;
  let '(addr, err) := parseUint16 d a0 in
  match err with
  | Some e => Panicked e
  | None =>
      let addrLo := addr in
      let addrHi := uint16 (addr + 1) in
      vLo <- cpu.Bus_Read (cpu d) addrLo ;;
      vHi <- cpu.Bus_Read (cpu d) addrHi ;;
      let v := Z.lor (uint16 (Z.shiftl vHi 8)) vLo in
      Returned (print d (Printf "$%04X,%04X => $%04X 0b%016b %d\n"
                           [ArgInt addrLo; ArgInt addrHi; ArgInt v; ArgInt v; ArgInt v]))
  end.

Definition commandRead32 (d : Debugger) (c : cmd) : outcome Debugger :=
  a0 <- index (arguments c) 0 ;;
  let '(addr, err) := parseUint16 d a0 in
  match err with
  | Some e => Panicked e
  | None =>
      let addr0 := addr in
      let addr1 := uint16 (addr + 1) in
      let addr2 := uint16 (addr + 2) in
      let addr3 := uint16 (addr + 3) in
      v0 <- cpu.Bus_Read (cpu d) addr0 ;;
      v1 <- cpu.Bus_Read (cpu d) addr1 ;;
      v2 <- cpu.Bus_Read (cpu d) addr2 ;;
      v3 <- cpu.Bus_Read (cpu d) addr3 ;;
      let v := Z.lor (Z.lor (Z.lor (Z.shiftl v3 24 mod 4294967296)
                                   (Z.shiftl v2 16 mod 4294967296))
                            (Z.shiftl v1 8 mod 4294967296)) v0 in
      Returned (print d (Printf "$%04X..%04X => $%08X 0b%032b %d\n"
                           [ArgInt addr0; ArgInt addr3; ArgInt v; ArgInt v; ArgInt v]))
  end.

Definition helpText : list string :=
  [ ""; "pda6502 debuger"; "---------------";
    "break-address <addr> (alias: ba) e.g. ba 0x1000";
    "break-instruction <mnemonic> (alias: bi) e.g. bi NOP";
    "break-register <x|y|a> <value> (alias: br) e.g. br x 128";
    "continue (alias: c) Run continuously until breakpoint.";
    "exit (alias: quit, q) Shut down the emulator.";
    "help (alias: h, ?) This help.";
    "next (alias: n) Next instruction; step over subroutines.";
    "read <address> - Read and display 8-bit integer at address.";
    "read16 <address> - Read and display 16-bit integer at address.";
    "read32 <address> - Read and display 32-bit integer at address.";
    "step (alias: s) Run only the current instruction.";
    "(blank) Repeat the previous command.";
    "";
    "Hex input formats: 0x1234 $1234";
    "Commands expecting uint16 treat . as current address (PC)." ].

Definition commandHelp (d : Debugger) (c : cmd) : Debugger :=
  fold_left (fun d line => print d (Println [ArgString line])) helpText d.

Definition commandBreakAddress (d : Debugger) (c : cmd) : outcome Debugger :=
  a0 <- index (arguments c) 0 ;;
  let '(addr, err) := parseUint16 d a0 in
  match err with
  | Some e => Panicked e
  | None =>
      let d := set_breakAddress d true in
      let d := set_breakAddressValue d addr in
      Returned (print d (Printf "break-address set to $%04X\n" [ArgInt addr]))
  end.

(** The [*byte] that commandBreakRegister stores through. *)
Inductive regPtr : Type := PtrA | PtrX | PtrY.

Definition store (d : Debugger) (ptr : regPtr) (value : Z) : Debugger :=
  match ptr with
  | PtrA => set_breakRegAValue d value
  | PtrX => set_breakRegXValue d value
  | PtrY => set_breakRegYValue d value
  end.

Definition commandBreakRegister (d : Debugger) (c : cmd) : outcome Debugger :=
  regStr <- index (arguments c) 0 ;;
  valueStr <- index (arguments c) 1 ;;
  '(d, ptr) <-
     (if String.eqb regStr "A" || String.eqb regStr "a"
         || String.eqb regStr "AC" || String.eqb regStr "ac"
      then Returned (set_breakRegA d true, PtrA)
      else if String.eqb regStr "X" || String.eqb regStr "x"
      then Returned (set_breakRegX d true, PtrX)
      else if String.eqb regStr "Y" || String.eqb regStr "y"
      then Returned (set_breakRegY d true, PtrY)
      else Panicked "Invalid register for break-register") ;;
  let '(value, err) := parseUint8 d valueStr in
  match err with
  | Some e => Panicked e
  | None =>
      let d := print d (Printf "Breakpoint set: %s = $%02X (%d)\n"
                               [ArgString regStr; ArgInt value; ArgInt value]) in
      Returned (store d ptr value)
  end.

(** The switch of getCommand on the lower-cased first field. *)
Definition commandId (cmdString : string) : Z :=
  let case := String.eqb cmdString in
  if case "" then debugCmdNone
  else if case "break-address" || case "break-addr" || case "ba" then debugCmdBreakAddress
  else if case "break-instruction" || case "bi" then debugCmdBreakInstruction
  else if case "break-register" || case "break-reg" || case "br" then debugCmdBreakRegister
  else if case "continue" || case "c" then debugCmdContinue
  else if case "exit" || case "quit" || case "q" then debugCmdExit
  else if case "help" || case "h" || case "?" then debugCmdHelp
  else if case "next" || case "n" then debugCmdNext
  else if case "read" then debugCmdRead
  else if case "read16" then debugCmdRead16
  else if case "read32" then debugCmdRead32
  else if case "step" || case "st" || case "s" then debugCmdStep
  else debugCmdInvalid.

(** getCommand returns a command with a nil error, or nil with an error. *)
Definition getCommand (d : Debugger) : (string + cmd) * Debugger :=
  let '((input, err), d) :=
    match inputQueue d with
    | input :: rest =>
        let d := set_inputQueue d rest in
        ((input, None),
         print d (Printf "%s%s\n" [ArgString (prompt d); ArgString input]))
    | [] => readInput d
    end in
  match err with
  | Some e => (inl e, d)
  | None =>
      let fields := strings.Fields input in
      let cmdString := match fields with
                       | f :: _ => strings.ToLower f
                       | [] => ""
                       end in
      let arguments := match fields with
                       | _ :: (_ :: _) as rest => rest
                       | _ => []
                       end in
      let id := commandId cmdString in
      match lastCmd d with
      | Some c => if id =? debugCmdNone then (inr c, d)
                  else let c := mkCmd id input arguments in
                       (inr c, set_lastCmd d (Some c))
      | None => let c := mkCmd id input arguments in
                (inr c, set_lastCmd d (Some c))
      end
  end.

(** Returns true when control is to be released.  The loop around
    getCommand runs once: getCommand never returns nil for both results. *)
Definition commandLoop (d : Debugger) (in_ : cpu.Instruction)
  : outcome (bool * Debugger) :=
  let '(r, d) := getCommand d in
  match r with
  | inl err => Panicked err
  | inr c =>
      let id := id c in
      if id =? debugCmdBreakAddress then
        d <- commandBreakAddress d c ;; Returned (false, d)
      else if id =? debugCmdBreakInstruction then
        a0 <- index (arguments c) 0 ;;
        Returned (false, set_breakInstruction d (strings.ToUpper a0))
      else if id =? debugCmdBreakRegister then
        d <- commandBreakRegister d c ;; Returned (false, d)
      else if id =? debugCmdContinue then
        Returned (true, set_run d true)
      else if id =? debugCmdExit then
        Returned (false, set_cpu d (cpu.send_ExitChan (cpu d) 0))
      else if id =? debugCmdHelp then
        Returned (false, commandHelp d c)
      else if id =? debugCmdNext then
        Returned (true, commandNext d in_)
      else if id =? debugCmdNone then
        Returned (false, d)
      else if id =? debugCmdRead then
        d <- commandRead d c ;; Returned (false, d)
      else if id =? debugCmdRead16 then
        d <- commandRead16 d c ;; Returned (false, d)
      else if id =? debugCmdRead32 then
        d <- commandRead32 d c ;; Returned (false, d)
      else if id =? debugCmdStep then
        Returned (true, d)
      else if id =? debugCmdInvalid then
        Returned (false, print d (Println [ArgString "Invalid command."]))
      else Panicked "Unknown command code."
  end.

(** [for !d.commandLoop(in) {}], at most [fuel] times round. *)
Fixpoint commandLoops (fuel : nat) (d : Debugger) (in_ : cpu.Instruction)
  : option (outcome Debugger) :=
  match fuel with
  | O => None
  | S fuel =>
      match commandLoop d in_ with
      | Panicked msg => Some (Panicked msg)
      | Returned (true, d) => Some (Returned d)
      | Returned (false, d) => commandLoops fuel d in_
      end
  end.

(** The lines still to be consumed: every commandLoop takes one, and
    panics when there is none. *)
Definition inputLeft (d : Debugger) : nat :=
  (List.length (inputQueue d) + List.length (pending (liner d)))%nat.

(** BeforeExecute receives each cpu.Instruction just before the program
    counter is incremented and the instruction executed.  [None] would be
    a loop that outlives the input (there is none, see
    [BeforeExecute_returns]). *)
Definition BeforeExecute (d : Debugger) (in_ : cpu.Instruction)
  : option (outcome Debugger) :=
  let d := doBreakpoints d in_ in
  if run d then Some (Returned d)
  else
    let d := print d (Println [ArgCpu (cpu d)]) in
    let symbols := if cpu.IsAbsolute in_
                   then labelsFor (symbols d) (cpu.Op16 in_) else [] in
    let d := match symbols with
             | _ :: _ => print d (Printf "Next: %v (%s)\n"
                                    [ArgInstruction in_;
                                     ArgString (strings.Join symbols ",")])
             | [] => print d (Println [ArgString "Next:"; ArgInstruction in_])
             end in
    commandLoops (S (inputLeft d)) d in_.

(** The breakpoints the debugger holds: the mnemonic, the address and the
    three registers, each with its switch. *)
Definition breakpoints (d : Debugger)
  : string * (bool * Z) * (bool * Z) * (bool * Z) * (bool * Z) :=
  (breakInstruction d, (breakAddress d, breakAddressValue d),
   (breakRegA d, breakRegAValue d), (breakRegX d, breakRegXValue d),
   (breakRegY d, breakRegYValue d)).

(** [d.cpu] points to the processor, which runs between two calls of
    BeforeExecute: the debugger then finds the program counter moved. *)
Definition atPC (d : Debugger) (pc : Z) : Debugger :=
  let c := cpu d in
  set_cpu d (cpu.mkCpu pc (cpu.AC c) (cpu.X c) (cpu.Y c) (cpu.SP c) (cpu.SR c)
                       (cpu.Bus c) (cpu.ExitChan c)).

(** How a breakpoint check may change the debugger: it keeps the
    breakpoints and the processor, never sets the free-run flag, and only
    adds to what was printed. *)
Definition checked (d d' : Debugger) : Prop :=
  breakpoints d' = breakpoints d /\
  cpu d' = cpu d /\
  (run d = false -> run d' = false) /\
  (forall p, In p (stdout d) -> In p (stdout d')).

(** The hook called at one instruction after the other, the processor
    having moved the program counter in between: each visit gives the
    counter and the instruction found there.  A panic ends the visits. *)
Fixpoint visits (d : Debugger) (path : list (Z * cpu.Instruction))
  : option (outcome Debugger) :=
  match path with
  | [] => Some (Returned d)
  | (pc, in_) :: rest =>
      match BeforeExecute (atPC d pc) in_ with
      | Some (Returned d') => visits d' rest
      | r => r
      end
  end.

(** The lines printed with a given format. *)
Definition printedWith (format : string) (d : Debugger) : list printed :=
  filter (fun p => match p with
                   | Printf f _ => String.eqb f format
                   | Println _ => false
                   end) (stdout d).

(** The address breakpoint, the free-run flag and the address-breakpoint
    notices printed so far, when the hook has returned. *)
Definition addressBreakpoint (r : option (outcome Debugger))
  : option (bool * Z * bool * list printed) :=
  match r with
  | Some (Returned d) =>
      Some (breakAddress d, breakAddressValue d, run d,
            printedWith "Breakpoint for PC address = $%04X\n" d)
  | _ => None
  end.

(** Whether one of the breakpoints matches at the instruction about to
    run: the tests of doBreakpoints and checkRegBreakpoint. *)
Definition breakpointHit (d : Debugger) (in_ : cpu.Instruction) : bool :=
  String.eqb (cpu.Name in_) (breakInstruction d)
  || (breakAddress d && (cpu.PC (cpu d) =? breakAddressValue d))
  || (breakRegA d && (cpu.AC (cpu d) =? breakRegAValue d))
  || (breakRegX d && (cpu.X (cpu d) =? breakRegXValue d))
  || (breakRegY d && (cpu.Y (cpu d) =? breakRegYValue d)).



End debugger.

(** ** Package encoding/hex

    [hex.DecodeString] of the Go library: two hexadecimal digits a byte,
    the bytes decoded before an error, and the error. *)

Module hex.

Definition ErrLength : error := Some "encoding/hex: odd length hex string".
Definition InvalidByteError : error := Some "encoding/hex: invalid byte: %#U".

Definition fromHexChar (c : Z) : option Z :=
  if (48 <=? c) && (c <=? 57) then Some (c - 48)
  else if (97 <=? c) && (c <=? 102) then Some (c - 97 + 10)
  else if (65 <=? c) && (c <=? 70) then Some (c - 65 + 10)
  else None.

Fixpoint DecodeString (s : string) : list Z * error :=
  match s with
  | EmptyString => ([], None)
  | String p EmptyString =>
      (* an invalid character is reported before the odd length *)
      match fromHexChar (byte p) with
      | None => ([], InvalidByteError)
      | Some _ => ([], ErrLength)
      end
  | String p (String q rest) =>
      match fromHexChar (byte p) with
      | None => ([], InvalidByteError)
      | Some a =>
          match fromHexChar (byte q) with
          | None => ([], InvalidByteError)
          | Some b =>
              let '(bs, err) := DecodeString rest in
              (uint8 (Z.lor (Z.shiftl a 4) b) :: bs, err)
          end
      end
  end.

End hex.

(** ** Package machine *)

Module machine.

(** type RamChip struct { Size uint16 } *)
Record RamChip : Type := mkRamChip { Size : Z }.

Section Ram.

(** [memory.Ram] is declared in package memory, which is not among the
    sources: the type and the value of [&memory.Ram{}] are parameters. *)
Variable Ram : Type.
Variable newRam : Ram.

Definition RamChip_Configure (c : RamChip) : option Ram * error :=
  (* Min 1K chip *)
  if Size c <? 1024 then (None, Some "Invalid ram size %d")
  else (Some newRam, None).

End Ram.

(** *** Machine.Run

    Two goroutines share [running] and the unbuffered [exitChan]: the one
    that called Run loops over [m.cpu.Step()], the other waits for an exit
    status.  Their statements interleave; an [event] names the statement
    that runs next.  What a Step does to the processor is left out: only
    its sends on ExitChan (the debugger's exit command) are of interest. *)

(** Where the goroutine of Run stands. *)
Inductive loopAt : Type :=
| AtTest                   (* for running {            *)
| InStep                   (*   m.cpu.Step()           *)
| Sending (status : Z)     (*   ... ExitChan <- status *)
| AfterLoop.               (* return nil               *)

(** Where the goroutine started by Run stands. *)
Inductive watcherAt : Type :=
| Receiving                (* exitStatus := <-m.exitChan             *)
| Logging (exitStatus : Z) (* log.Println("Exit status", exitStatus) *)
| Clearing                 (* running = false                        *)
| Finished.

Inductive event : Type :=
| TestRunning              (* the loop condition is evaluated          *)
| StepSends (status : Z)   (* a monitor inside Step starts a send      *)
| Rendezvous               (* the send meets the receive               *)
| StepReturns              (* Step returns to the loop                 *)
| WatcherLogs
| WatcherClears.

(** The two goroutines, with three observations: the Steps called, the
    status delivered, and the Steps called after the delivery. *)
Record world : Type := mkWorld {
  running : bool;
  loop : loopAt;
  watcher : watcherAt;
  steps : nat;
  delivered : option Z;
  stepsAfterDelivery : nat
}.

(** [running := true; go func() { ... }()] *)
Definition start : world := mkWorld true AtTest Receiving 0 None 0.

Definition next (e : event) (w : world) : option world :=
  match e, loop w, watcher w with
  | TestRunning, AtTest, _ =>
      if running w
      then Some (mkWorld (running w) InStep (watcher w) (S (steps w)) (delivered w)
                         (match delivered w with
                          | Some _ => S (stepsAfterDelivery w)
                          | None => stepsAfterDelivery w
                          end))
      else Some (mkWorld (running w) AfterLoop (watcher w) (steps w) (delivered w)
                         (stepsAfterDelivery w))
  | StepSends status, InStep, _ =>
      Some (mkWorld (running w) (Sending status) (watcher w) (steps w)
                    (delivered w) (stepsAfterDelivery w))
  | Rendezvous, Sending status, Receiving =>
      Some (mkWorld (running w) InStep (Logging status) (steps w)
                    (Some status) (stepsAfterDelivery w))
  | StepReturns, InStep, _ =>
      Some (mkWorld (running w) AtTest (watcher w) (steps w) (delivered w)
                    (stepsAfterDelivery w))
  | WatcherLogs, _, Logging _ =>
      Some (mkWorld (running w) (loop w) Clearing (steps w) (delivered w)
                    (stepsAfterDelivery w))
  | WatcherClears, _, Clearing =>
      Some (mkWorld false (loop w) Finished (steps w) (delivered w)
                    (stepsAfterDelivery w))
  | _, _, _ => None
  end.

(** A schedule, run from a world: [None] when an event is not enabled. *)
Fixpoint exec (schedule : list event) (w : world) : option world :=
  match schedule with
  | [] => Some w
  | e :: rest =>
      match next e w with
      | Some w' => exec rest w'
      | None => None
      end
  end.

(** What holds of the two goroutines in every world they reach: the
    watcher has received exactly when a status was delivered, [running]
    is false exactly when the watcher has finished, and the loop is left
    only with [running] false. *)
Definition consistent (w : world) : Prop :=
  (watcher w = Receiving <-> delivered w = None) /\
  (running w = false <-> watcher w = Finished) /\
  (loop w = AfterLoop -> running w = false).

(** The schedule in which the loop goroutine alone runs [n] more Steps. *)
Fixpoint moreSteps (n : nat) : list event :=
  match n with
  | O => []
  | S n => StepReturns :: TestRunning :: moreSteps n
  end.

(** type Acia6551Chip struct { Peripheral string } *)
Record Acia6551Chip : Type := mkAcia6551Chip { Peripheral : string }.

(** Acia6551Chip.Configure, with the standard streams of the process
    given: only "console" names a peripheral. *)
Definition Acia6551Chip_Configure (stdin stdout : acia6551.File)
                                  (c : Acia6551Chip)
  : option (acia6551.Acia6551 acia6551.Terminal) * error :=
  let peripheral :=
    if String.eqb (Peripheral c) "console"
    then Some (acia6551.NewConsole stdin stdout)
    else None in
  (Some (acia6551.NewAcia6551 (H := acia6551.Terminal_SerialPeripheral)
           (acia6551.mkOptions peripheral)),
   None).

(** *** Config.Start

    The packages memory, bus and via6522 are not among the sources: what
    Start takes from them is gathered in one class.  A value of the
    interface memory.Memory is [option memory_Memory], [None] for nil;
    [bus_Bus] are the states of an address bus, and Attach returns the
    state it leaves behind with its error. *)

Class Packages : Type := {
  memory_Memory : Type;
  memory_Ram : Type;
  memory_newRam : memory_Ram;                        (* &memory.Ram{} *)
  memory_Rom : Type;
  memory_RomFromFile : string -> memory_Rom * error;
  via6522_Via6522 : Type;
  via6522_NewVia6522 : bool -> bool -> via6522_Via6522;
  bus_Bus : Type;
  bus_CreateBus : bus_Bus * error;
  bus_Attach : bus_Bus -> option memory_Memory -> string -> Z -> bus_Bus * error;
  (* the conversions to the interface memory.Memory *)
  Memory_of_Ram : memory_Ram -> memory_Memory;
  Memory_of_Rom : memory_Rom -> memory_Memory;
  Memory_of_Via6522 : via6522_Via6522 -> memory_Memory;
  Memory_of_Acia6551 : acia6551.Acia6551 acia6551.Terminal -> memory_Memory;
  os_Stdin : acia6551.File;
  os_Stdout : acia6551.File
}.

(** type RomChip struct { Filename string } *)
Record RomChip : Type := mkRomChip { Filename : string }.

(** type Via6522Chip struct { DumpAscii bool; DumpBinary bool } *)
Record Via6522Chip : Type := mkVia6522Chip { DumpAscii : bool; DumpBinary : bool }.

(** type Hardware struct: a nil chip pointer is [None]. *)
Record Hardware : Type := mkHardware {
  Name : string;
  Address : string;
  Ram : option RamChip;
  Rom : option RomChip;
  Acia6551 : option Acia6551Chip;
  Via6522 : option Via6522Chip
}.

Section Config.

Context {P : Packages}.

(** type Chip interface { Configure() (memory.Memory, error) } *)
Class Chip (C : Type) : Type := Configure : C -> option memory_Memory * error.

#[export] Instance RamChip_Chip : Chip RamChip := fun c =>
  let '(ram, err) := RamChip_Configure memory_Ram memory_newRam c in
  (option_map Memory_of_Ram ram, err).

(** RomChip.Configure returns the pointer of RomFromFile as it is: the
    interface value is not nil even when the pointer is. *)
#[export] Instance RomChip_Chip : Chip RomChip := fun c =>
  let '(rom, err) := memory_RomFromFile (Filename c) in
  (Some (Memory_of_Rom rom), err).

#[export] Instance Acia6551Chip_Chip : Chip Acia6551Chip := fun c =>
  let '(acia, err) := Acia6551Chip_Configure os_Stdin os_Stdout c in
  (option_map Memory_of_Acia6551 acia, err).

#[export] Instance Via6522Chip_Chip : Chip Via6522Chip := fun c =>
  (Some (Memory_of_Via6522 (via6522_NewVia6522 (DumpAscii c) (DumpBinary c))),
   None).

(** The fields of Config that Start reads and writes; [addressBus] is
    the state of the bus the pointer leads to. *)
Record Config : Type := mkConfig {
  Config_Hardware : list Hardware;
  addressBus : bus_Bus;
  memory : list (option memory_Memory)
}.

Definition attach {C : Type} `{Chip C} (c : Config) (name : string)
                  (address : Z) (chip : C) : Config * error :=
  let '(m, err) := Configure chip in
  match err with
  | Some e => (c, Some e)
  | None =>
      let '(b, err) := bus_Attach (addressBus c) m name address in
      let c := mkConfig (Config_Hardware c) b (memory c) in
      match err with
      | Some e => (c, Some e)
      | None =>
          (mkConfig (Config_Hardware c) (addressBus c) (memory c ++ [m]), None)
      end
  end.

(** The loop of Start over the hardware entries still to come. *)
Fixpoint StartLoop (hs : list Hardware) (c : Config) : Config * error :=
  match hs with
  | [] => (c, None)
  | h :: rest =>
      if String.eqb (Address h) ""
      then (c, Some "Invalid Hardware entry, name %s")
      else
        let '(b, err) := hex.DecodeString (Address h) in
        match err with
        | Some e => (c, Some e)
        | None =>
            if negb (Z.of_nat (List.length b) =? 2)
            then (c, Some "Invalid Address, name %s, got %s")
            else
              let address :=
                Z.lor (uint16 (Z.shiftl (nth 0 b 0) 8)) (nth 1 b 0) in
              let '(c, err) :=
                match Ram h, Rom h, Acia6551 h, Via6522 h with
                | Some chip, _, _, _ => attach c (Name h) address chip
                | None, Some chip, _, _ => attach c (Name h) address chip
                | None, None, Some chip, _ => attach c (Name h) address chip
                | None, None, None, Some chip => attach c (Name h) address chip
                | None, None, None, None => (c, Some "No chip defined")
                end in
              match err with
              | Some e => (c, Some e)
              | None => StartLoop rest c
              end
        end
  end.

Definition Start (c : Config) : Config * error :=
  let '(addressBus, err) := bus_CreateBus in
  match err with
  | Some e => (c, Some e)
  | None =>
      let c := mkConfig (Config_Hardware c) addressBus (memory c) in
      StartLoop (Config_Hardware c) c
  end.

End Config.

End machine.

(** ** Package main: mainReturningStatus

    The processor runs in a goroutine of its own, [for { cpu.Step() }];
    the main goroutine waits for an exit status or a signal, prints the
    processor, dumps the RAM and exits the process. *)

Module main.

Inductive cpuAt : Type :=
| BeforeStep               (* for {                    *)
| InStep                   (*   cpu.Step()             *)
| Sending (status : Z).    (*   ... ExitChan <- status *)

Inductive mainAt : Type :=
| Selecting                (* select { case exitStatus = <-exitChan: ... } *)
| Printing (exitStatus : Z)(* fmt.Println(cpu) ...                         *)
| Dumping (exitStatus : Z) (* ram.Dump("core")                             *)
| Exiting (exitStatus : Z) (* os.Exit(exitStatus)                          *)
| Exited (exitStatus : Z).

Inductive event : Type :=
| CallStep
| StepSends (status : Z)
| Rendezvous
| StepReturns
| Signal                   (* case sig = <-sigChan: exitStatus = 1 *)
| MainPrints
| MainDumps
| MainExits.

Record world : Type := mkWorld {
  cpuLoop : cpuAt;
  mainGoroutine : mainAt;
  steps : nat;
  delivered : option Z;
  stepsAfterDelivery : nat
}.

Definition start : world := mkWorld BeforeStep Selecting 0 None 0.

(** Nothing runs once the process has exited. *)
Definition next (e : event) (w : world) : option world :=
  match mainGoroutine w with
  | Exited _ => None
  | _ =>
      match e, cpuLoop w, mainGoroutine w with
      | CallStep, BeforeStep, _ =>
          Some (mkWorld InStep (mainGoroutine w) (S (steps w)) (delivered w)
                        (match delivered w with
                         | Some _ => S (stepsAfterDelivery w)
                         | None => stepsAfterDelivery w
                         end))
      | StepSends status, InStep, _ =>
          Some (mkWorld (Sending status) (mainGoroutine w) (steps w)
                        (delivered w) (stepsAfterDelivery w))
      | Rendezvous, Sending status, Selecting =>
          Some (mkWorld InStep (Printing status) (steps w) (Some status)
                        (stepsAfterDelivery w))
      | StepReturns, InStep, _ =>
          Some (mkWorld BeforeStep (mainGoroutine w) (steps w) (delivered w)
                        (stepsAfterDelivery w))
      | Signal, _, Selecting =>
          Some (mkWorld (cpuLoop w) (Printing 1) (steps w) (delivered w)
                        (stepsAfterDelivery w))
      | MainPrints, _, Printing s =>
          Some (mkWorld (cpuLoop w) (Dumping s) (steps w) (delivered w)
                        (stepsAfterDelivery w))
      | MainDumps, _, Dumping s =>
          Some (mkWorld (cpuLoop w) (Exiting s) (steps w) (delivered w)
                        (stepsAfterDelivery w))
      | MainExits, _, Exiting s =>
          Some (mkWorld (cpuLoop w) (Exited s) (steps w) (delivered w)
                        (stepsAfterDelivery w))
      | _, _, _ => None
      end
  end.

Fixpoint exec (schedule : list event) (w : world) : option world :=
  match schedule with
  | [] => Some w
  | e :: rest =>
      match next e w with
      | Some w' => exec rest w'
      | None => None
      end
  end.

(** The exit status the main goroutine holds: the one delivered, or 1
    after a signal when none was; before the select, none is delivered. *)
Definition holdsStatus (w : world) : Prop :=
  match mainGoroutine w with
  | Selecting => delivered w = None
  | Printing s | Dumping s | Exiting s | Exited s =>
      delivered w = Some s \/ (delivered w = None /\ s = 1)
  end.

End main.

(** ** Sample machines, for the examples *)

Module sample.

Import acia6551 cpu debugger.

(** A console whose user has typed "Hi", and the controller it is
    attached to; a terminal that can only be read; a terminal whose output
    file was closed. *)
Definition console0 : Terminal :=
  NewConsole (mkFile [72; 105] [] false) (mkFile [] [] false).

Definition acia0 : Acia6551 Terminal :=
  NewAcia6551 (mkOptions (Some console0)).

Definition readOnly : Acia6551 Terminal :=
  NewAcia6551 (mkOptions (Some (NewTerminal (Some (mkFile [] [] false)) None))).

Definition closedOut : Terminal :=
  NewTerminal None (Some (mkFile [] [] true)).

Definition aciaClosed : Acia6551 Terminal :=
  NewAcia6551 (mkOptions (Some closedOut)).

(** A processor at $1000 with 32 KiB of zeroed memory from $0000. *)
Definition cpu0 : Cpu :=
  mkCpu 4096 0 0 0 255 0
        (fun a => if (0 <=? a) && (a <? 32768) then Some 0 else None) [].

Definition jsr : Instruction := mkInstruction "JSR" 3 true 8192.
Definition nop : Instruction := mkInstruction "NOP" 1 false 0.

(** Stand-ins for the packages memory, bus and via6522: a memory is known
    by its kind, a bus by the names and addresses attached to it, and a
    ROM file exists unless its name is empty. *)
Definition packages0 : machine.Packages := {|
  machine.memory_Memory := string;
  machine.memory_Ram := unit;
  machine.memory_newRam := tt;
  machine.memory_Rom := string;
  machine.memory_RomFromFile := fun filename =>
    (filename, if String.eqb filename "" then Some "open : no such file or directory"
               else None);
  machine.via6522_Via6522 := bool * bool;
  machine.via6522_NewVia6522 := fun dumpAscii dumpBinary => (dumpAscii, dumpBinary);
  machine.bus_Bus := list (string * Z);
  machine.bus_CreateBus := ([], None);
  machine.bus_Attach := fun b _ name address => (b ++ [(name, address)], None);
  machine.Memory_of_Ram := fun _ => "ram";
  machine.Memory_of_Rom := fun filename => ("rom " ++ filename)%string;
  machine.Memory_of_Via6522 := fun _ => "via";
  machine.Memory_of_Acia6551 := fun _ => "acia";
  machine.os_Stdin := mkFile [] [] false;
  machine.os_Stdout := mkFile [] [] false
|}.

(** 32 KiB of RAM at $0000, a serial chip at $9010 and a ROM at $F000. *)
Definition hardware0 : list machine.Hardware :=
  [ machine.mkHardware "ram" "0000" (Some (machine.mkRamChip 32768)) None None None;
    machine.mkHardware "console" "9010" None None
                       (Some (machine.mkAcia6551Chip "console")) None;
    machine.mkHardware "kernel" "F000" None (Some (machine.mkRomChip "kernel.rom"))
                       None None ].

End sample.

(** ** Numerals of the debugger's commands

    The ways a command writes a number, and the number each denotes: "$"
    or "0x" before hexadecimal digits, or decimal digits not starting
    with "0". *)

Inductive denotes : string -> Z -> Prop :=
| denotes_dollar (h : string) :
    h <> "" -> numeral.allChars numeral.isHex h = true ->
    denotes ("$" ++ h) (numeral.value 16 h 0)
| denotes_0x (h : string) :
    h <> "" -> numeral.allChars numeral.isHex h = true ->
    denotes ("0x" ++ h) (numeral.value 16 h 0)
| denotes_decimal (c : ascii) (r : string) :
    numeral.allChars numeral.isDecimal (String c r) = true ->
    c <> "0"%char ->
    denotes (String c r) (numeral.value 10 (String c r) 0).

(** ** Proof automation *)

Ltac break_match_in H :=
  match type of H with
  | context [match ?x with _ => _ end] => destruct x eqn:?
  end.

(** Closes [f d c = Returned d' -> P d'] for a command [f] that only
    prints or stores into breakpoint fields. *)
Ltac command_frame H :=
  cbv beta delta [debugger.commandBreakAddress debugger.commandBreakRegister
                  debugger.commandRead debugger.commandRead16
                  debugger.commandRead32 debugger.index debugger.store
                  cpu.Bus_Read bind] in H;
  repeat (break_match_in H; cbv beta iota zeta in H); try discriminate H;
  cbv beta iota zeta in H;
  injection H as <-; try reflexivity.

(** * Properties *)

(** ** The serial controller *)

Section AciaProperties.

Import acia6551.

Context {P : Type} `{SerialPeripheral P}.

Lemma land_pow2 (d k : Z) :
  0 <= k -> Z.land d (2 ^ k) = if Z.testbit d k then 2 ^ k else 0.
Proof.
  intros Hk. apply Z.bits_inj'. intros n Hn.
  rewrite Z.land_spec, Z.pow2_bits_eqb by assumption.
  destruct (Z.eqb_spec k n) as [->|Hne].
  - destruct (Z.testbit d n); simpl.
    + rewrite Z.pow2_bits_eqb, Z.eqb_refl by assumption. reflexivity.
    + now rewrite Z.bits_0.
  - rewrite andb_false_r.
    destruct (Z.testbit d k).
    + rewrite Z.pow2_bits_eqb by assumption.
      symmetry. now apply Z.eqb_neq.
    + now rewrite Z.bits_0.
Qed.

Lemma land_8_not_1 (data : Z) : (Z.land data 8 =? 1) = false.
Proof.
  change 8 with (2 ^ 3). rewrite land_pow2 by lia.
  now destruct (Z.testbit data 3).
Qed.

Lemma land_lxor_8 (data m : Z) :
  Z.testbit m 3 = false -> Z.land (Z.lxor data 8) m = Z.land data m.
Proof.
  intros Hm. apply Z.bits_inj'. intros n Hn.
  rewrite !Z.land_spec, Z.lxor_spec.
  change 8 with (2 ^ 3). rewrite Z.pow2_bits_eqb by lia.
  destruct (Z.eqb_spec 3 n) as [<-|_].
  - now rewrite Hm, !andb_false_r.
  - now rewrite xorb_false_r.
Qed.

Lemma Reset_fields (a : Acia6551 P) :
  Reset a = mkAcia 0 0 0 0 false true false false false
                   (peripheral a) (capabilities a).
Proof. reflexivity. Qed.

(** NewAcia6551 declares capabilities only for a peripheral that is there,
    and no method changes that. *)
Lemma NewAcia6551_attached (o : Options P) : attached (NewAcia6551 o).
Proof. unfold attached, NewAcia6551; simpl. now destruct (Peripheral o). Qed.

Lemma rxRead_returns (a : Acia6551 P) :
  attached a -> exists b a', rxRead a = Returned (b, a').
Proof.
  intros Ha. unfold rxRead.
  destruct (negb (rxFull a) && (Z.land (capabilities a) Read =? Read)) eqn:E.
  - destruct (peripheral a) as [p|] eqn:Ep.
    + destruct (sp_Read p) as [[[read data] err] p']. simpl. eauto.
    + rewrite (Ha Ep) in E. now rewrite andb_false_r in E.
  - simpl. eauto.
Qed.

Lemma txWrite_returns (a : Acia6551 P) (data : Z) :
  attached a -> exists a', txWrite a data = Returned a' /\ attached a'.
Proof.
  intros Ha. unfold txWrite.
  destruct (Z.land (capabilities a) Write =? Write) eqn:E.
  - destruct (peripheral a) as [p|] eqn:Ep.
    + destruct (sp_Write p data) as [[written err] p'].
      eexists; split; [reflexivity|]. unfold attached; simpl. discriminate.
    + now rewrite (Ha Ep) in E.
  - eauto.
Qed.

(** C5: a write to the status offset resets the controller, whatever the
    byte written: it returns [Reset a], in which rxFull, overrun and both
    IRQ enables are false, txEmpty is true, and the rx and tx bytes and the
    command and control registers are zero. *)
Theorem status_write_resets (a : Acia6551 P) (data : Z) :
  Acia6551_Write a aciaStatus data = Returned (Reset a) /\
  rxFull (Reset a) = false /\
  txEmpty (Reset a) = true /\
  overrun (Reset a) = false /\
  rxIrqEnabled (Reset a) = false /\
  txIrqEnabled (Reset a) = false /\
  rx (Reset a) = 0 /\
  tx (Reset a) = 0 /\
  commandData (Reset a) = 0 /\
  controlData (Reset a) = 0.
Proof.
  rewrite Reset_fields. unfold Acia6551_Write. simpl.
  repeat split; reflexivity.
Qed.

(** C6: a read of the data register of a controller built by NewAcia6551
    returns, and afterwards overrun and rxFull are false, in every case;
    when the peripheral was asked and supplied a byte, that byte is the
    value returned; otherwise the byte held in rx is. *)
Theorem data_read_clears_flags (a : Acia6551 P) :
  attached a ->
  exists b a',
    Acia6551_Read a aciaData = Returned (b, a') /\
    overrun a' = false /\
    rxFull a' = false /\
    (forall p read data err p',
        rxFull a = false ->
        Z.land (capabilities a) Read = Read ->
        peripheral a = Some p ->
        sp_Read p = ((read, data, err), p') ->
        b = if read then data else rx a) /\
    (rxFull a = true \/ Z.land (capabilities a) Read <> Read -> b = rx a).
Proof.
  intros Ha. change (Acia6551_Read a aciaData) with (rxRead a).
  unfold rxRead.
  destruct (negb (rxFull a) && (Z.land (capabilities a) Read =? Read)) eqn:E.
  - apply andb_true_iff in E as [Ef Ec].
    apply negb_true_iff in Ef. apply Z.eqb_eq in Ec.
    destruct (peripheral a) as [p|] eqn:Ep.
    + destruct (sp_Read p) as [[[read data] err] p'] eqn:Er. simpl.
      do 2 eexists. split; [reflexivity|]. simpl.
      refine (conj eq_refl (conj eq_refl (conj _ _))).
      * intros q read' data' err' q' _ _ Hq Hr.
        injection Hq as <-. rewrite Er in Hr.
        now injection Hr as <- <- _ _.
      * intros [Hf|Hc]; congruence.
    + rewrite (Ha Ep) in Ec. discriminate.
  - simpl. do 2 eexists. split; [reflexivity|]. simpl.
    refine (conj eq_refl (conj eq_refl (conj _ _))).
    + intros p read data err p' Hf Hc _ _.
      rewrite Hf, Hc, Z.eqb_refl in E. discriminate.
    + reflexivity.
Qed.

(** C7: a write to the data register, when the peripheral declares write
    capability, hands the byte to the peripheral's Write, stores it in tx,
    and leaves txEmpty true exactly when Write accepted the byte or
    returned an error; without write capability the controller is left as
    it was. *)
Theorem data_write_forwards (a : Acia6551 P) (data : Z) :
  (forall p,
      peripheral a = Some p ->
      Z.land (capabilities a) Write = Write ->
      exists a',
        Acia6551_Write a aciaData data = Returned a' /\
        peripheral a' = Some (snd (sp_Write p data)) /\
        tx a' = data /\
        (txEmpty a' = true <->
         fst (fst (sp_Write p data)) = true \/
         snd (fst (sp_Write p data)) <> None)) /\
  (Z.land (capabilities a) Write <> Write ->
   Acia6551_Write a aciaData data = Returned a).
Proof.
  change (Acia6551_Write a aciaData data) with (txWrite a data).
  unfold txWrite. split.
  - intros p Hp Hc. rewrite Hc, Z.eqb_refl, Hp.
    destruct (sp_Write p data) as [[written err] p']. simpl.
    eexists. split; [reflexivity|]. simpl. repeat split.
    + intros Ht. apply orb_true_iff in Ht as [Hw|He]; [now left|right].
      destruct err; [discriminate|discriminate].
    + intros [Hw|He]; apply orb_true_iff; [now left|right].
      destruct err; [reflexivity|congruence].
  - intros Hc. apply Z.eqb_neq in Hc. now rewrite Hc.
Qed.

(** C9: a write to the command register sets rxIrqEnabled to
    (byte & 0x02) != 0 and txIrqEnabled to (byte & 0x04) != 0; the guard
    (byte & 0x08) != 1 holds for every byte, and flipping bit 3 of the
    byte changes neither flag. *)
Theorem command_write_irq_flags (a : Acia6551 P) (data : Z) :
  Acia6551_Write a aciaCommand data = Returned (setCommand a data) /\
  negb (Z.land data 8 =? 1) = true /\
  rxIrqEnabled (setCommand a data) = negb (Z.land data 2 =? 0) /\
  txIrqEnabled (setCommand a data) = negb (Z.land data 4 =? 0) /\
  rxIrqEnabled (setCommand a (Z.lxor data 8)) = rxIrqEnabled (setCommand a data) /\
  txIrqEnabled (setCommand a (Z.lxor data 8)) = txIrqEnabled (setCommand a data).
Proof.
  split; [reflexivity|].
  unfold setCommand; simpl.
  rewrite !land_8_not_1, !andb_true_r.
  rewrite !land_lxor_8 by reflexivity.
  repeat split; reflexivity.
Qed.

End AciaProperties.

Section AciaWitnesses.

Import acia6551 sample.

Lemma data_read_clears_flags_witness :
  attached acia0 /\
  exists b a',
    Acia6551_Read acia0 aciaData = Returned (b, a') /\
    overrun a' = false /\ rxFull a' = false /\ b = 72.
Proof.
  split; [apply NewAcia6551_attached|].
  destruct (data_read_clears_flags acia0 (NewAcia6551_attached _))
    as (b & a' & Hr & Ho & Hf & Hp & _).
  exists b, a'. repeat split; try assumption.
  exact (Hp console0 true 72 None _ eq_refl eq_refl eq_refl eq_refl).
Defined.

Lemma data_write_forwards_witness :
  (exists a',
      Acia6551_Write acia0 aciaData 65 = Returned a' /\
      tx a' = 65 /\ txEmpty a' = true /\
      option_map (fun t => option_map written (out t))
                 (peripheral a') = Some (Some [65])) /\
  (exists a',
      Acia6551_Write aciaClosed aciaData 65 = Returned a' /\
      tx a' = 65 /\ txEmpty a' = true) /\
  Acia6551_Write readOnly aciaData 65
  = Returned readOnly.
Proof.
  split; [|split].
  - destruct (data_write_forwards acia0 65) as (Hw & _).
    destruct (Hw console0 eq_refl eq_refl) as (a' & Hr & Hp & Ht & He).
    exists a'. repeat split; try assumption.
    + apply He. left. reflexivity.
    + rewrite Hp. reflexivity.
  - destruct (data_write_forwards aciaClosed 65) as (Hw & _).
    destruct (Hw closedOut eq_refl eq_refl) as (a' & Hr & _ & Ht & He).
    exists a'. repeat split; try assumption.
    apply He. right. discriminate.
  - destruct (data_write_forwards readOnly 65) as (_ & Hn).
    apply Hn. discriminate.
Defined.

End AciaWitnesses.

(** ** Parsing numbers *)

Section ParseProperties.

Import strconv numeral.

Lemma hex_digit (c : ascii) :
  isHex c = true ->
  digit (byte c) = Some (digitValue c) /\ 0 <= digitValue c < 16 /\
  (byte c =? 95) = false /\ Ascii.eqb c "$" = false.
Proof.
  destruct c as [[] [] [] [] [] [] [] []]; intros E; vm_compute in E;
    try discriminate E; vm_compute; intuition congruence.
Qed.

Lemma decimal_digit (c : ascii) :
  isDecimal c = true ->
  digit (byte c) = Some (digitValue c) /\ 0 <= digitValue c < 10 /\
  (byte c =? 95) = false /\ Ascii.eqb c "$" = false.
Proof.
  destruct c as [[] [] [] [] [] [] [] []]; intros E; vm_compute in E;
    try discriminate E; vm_compute; intuition congruence.
Qed.

Section Digits.

Variable ok : ascii -> bool.
Variable base : Z.
Hypothesis base_ge_2 : 2 <= base.
Hypothesis ok_digit :
  forall c, ok c = true ->
    digit (byte c) = Some (digitValue c) /\ 0 <= digitValue c < base /\
    (byte c =? 95) = false /\ Ascii.eqb c "$" = false.

Lemma value_ge (s : string) (n : Z) :
  allChars ok s = true -> 0 <= n -> n <= value base s n.
Proof using All.
  revert n. induction s as [|c s IH]; intros n Hs Hn; simpl in *; [lia|].
  apply andb_true_iff in Hs as [Hc Hs].
  destruct (ok_digit c Hc) as (_ & Hd & _).
  specialize (IH (n * base + digitValue c) Hs). nia.
Qed.

(** The loop of ParseUint reads a string of digits of the base as the
    number it denotes, as long as that number is within bounds. *)
Lemma digits_value (base0 : bool) (cutoff maxVal : Z) (s : string) (n : Z)
                   (underscores : bool) :
  allChars ok s = true ->
  0 <= n ->
  value base s n <= maxVal ->
  maxVal < cutoff ->
  maxVal * base + base <= 18446744073709551616 ->
  digits base0 base cutoff maxVal s n underscores
  = inr (value base s n, underscores).
Proof using All.
  revert n. induction s as [|c s IH]; intros n Hs Hn Hv Hcut Hmax;
    simpl in *; [reflexivity|].
  apply andb_true_iff in Hs as [Hc Hs].
  destruct (ok_digit c Hc) as (-> & Hd & -> & _). simpl.
  pose proof (value_ge s (n * base + digitValue c) Hs ltac:(nia)) as Hge.
  assert (Hn' : n <= maxVal) by nia.
  replace (digitValue c >=? base) with false by (symmetry; rewrite Z.geb_leb; apply Z.leb_gt; lia).
  replace (n >=? cutoff) with false by (symmetry; rewrite Z.geb_leb; apply Z.leb_gt; lia).
  unfold uint64.
  rewrite (Z.mod_small (n * base)) by nia.
  rewrite (Z.mod_small (n * base + digitValue c)) by nia.
  replace (n * base + digitValue c <? n * base) with false
    by (symmetry; apply Z.ltb_ge; lia).
  replace (n * base + digitValue c >? maxVal) with false
    by (symmetry; rewrite Z.gtb_ltb; apply Z.ltb_ge; lia).
  simpl. apply IH; try assumption. nia.
Qed.

Lemma ReplaceFirst_digits (s : string) :
  allChars ok s = true -> strings.ReplaceFirst s "$" "0x" = s.
Proof using All.
  induction s as [|c s IH]; intros Hs; simpl in *; [reflexivity|].
  apply andb_true_iff in Hs as [Hc Hs].
  destruct (ok_digit c Hc) as (_ & _ & _ & ->). now rewrite IH.
Qed.

End Digits.

Lemma ParseUint_hex (h : string) :
  h <> "" ->
  allChars isHex h = true ->
  value 16 h 0 < 65536 ->
  ParseUint ("0x" ++ h) 0 16 = (value 16 h 0, None).
Proof.
  intros Hne Hh Hv. destruct h as [|c h]; [contradiction|].
  change (ParseUint ("0x" ++ String c h) 0 16)
    with (match digits true 16 1152921504606846976 65535 (String c h) 0 false with
          | inl r => r
          | inr (n, underscores) =>
              if underscores && negb (underscoreOK ("0x" ++ String c h))
              then (0, syntaxError) else (n, None)
          end).
  rewrite (digits_value isHex 16 ltac:(lia) hex_digit) by (assumption || lia).
  reflexivity.
Qed.

Lemma ParseUint_decimal (c : ascii) (r : string) :
  allChars isDecimal (String c r) = true ->
  c <> "0"%char ->
  value 10 (String c r) 0 < 65536 ->
  ParseUint (String c r) 0 16 = (value 10 (String c r) 0, None).
Proof.
  intros Hs Hc Hv.
  assert (H48 : (byte c =? 48) = false).
  { apply Z.eqb_neq. intros E. apply Hc.
    rewrite <- (ascii_N_embedding c), <- (ascii_N_embedding "0").
    f_equal. unfold byte in E. apply N2Z.inj. exact E. }
  unfold ParseUint, basePrefix.
  change (String.eqb (String c r) "") with false. cbv iota.
  change ((2 <=? 0) && (0 <=? 36)) with false.
  change (0 =? 0) with true. cbv iota. rewrite H48.
  change ((16 <? 0) || (16 >? 64)) with false. cbv iota.
  change (16 =? 0) with false. cbv iota zeta.
  change (maxUint64 / 10 + 1) with 1844674407370955162.
  change (uint64 (Z.shiftl 1 16 - 1)) with 65535.
  rewrite (digits_value isDecimal 10 ltac:(lia) decimal_digit) by (assumption || lia).
  reflexivity.
Qed.

End ParseProperties.

(** The Go functions on a few inputs. *)
Example ParseUint_examples :
  strconv.ParseUint "0x1000" 0 16 = (4096, None) /\
  strconv.ParseUint "4096" 0 16 = (4096, None) /\
  strconv.ParseUint "010" 0 16 = (8, None) /\
  strconv.ParseUint "0" 0 16 = (0, None) /\
  strconv.ParseUint "65536" 0 16 = (65535, strconv.rangeError) /\
  strconv.ParseUint "1_000" 0 16 = (1000, None) /\
  strconv.ParseUint "_1" 0 16 = (0, strconv.syntaxError) /\
  strconv.ParseUint "0x_ff" 0 8 = (255, None) /\
  strconv.ParseUint "zz" 0 16 = (0, strconv.syntaxError) /\
  strconv.ParseUint "0b101" 0 8 = (5, None) /\
  strings.Fields "  br  x $ff " = ["br"; "x"; "$ff"] /\
  strings.ReplaceFirst "$ff$" "$" "0x" = "0xff$" /\
  strings.ToLower "Break-ADDR" = "break-addr".
Proof. vm_compute. repeat split. Qed.

(** ** The debugger *)

Section DebuggerProperties.

Import cpu debugger sample.

(** What the debugger's own bookkeeping leaves alone: the processor, the
    free-run flag, the breakpoints and the symbols. *)
Lemma getCommand_frame (d d1 : Debugger) (r : string + cmd) :
  getCommand d = (r, d1) ->
  cpu d1 = cpu d /\ run d1 = run d /\ breakpoints d1 = breakpoints d /\
  symbols d1 = symbols d.
Proof.
  unfold getCommand, readInput, Liner_Prompt.
  destruct (inputQueue d) as [|line q];
    [destruct (pending (liner d)) as [|typed rest]|]; simpl;
    try destruct (lastCmd d); try destruct (commandId _ =? debugCmdNone);
    intros E; injection E as <- <-; repeat split.
Qed.

(** Every call of getCommand takes one line, from the queue first. *)
Lemma getCommand_consumes (d d1 : Debugger) (c : cmd) :
  getCommand d = (inr c, d1) -> S (inputLeft d1) = inputLeft d.
Proof.
  unfold getCommand, readInput, Liner_Prompt, inputLeft.
  destruct (inputQueue d) as [|line q] eqn:Eq;
    [destruct (pending (liner d)) as [|typed rest]|]; simpl;
    try destruct (lastCmd d); try destruct (commandId _ =? debugCmdNone);
    intros E; try discriminate E; injection E as _ <-; simpl;
    rewrite ?Eq; simpl; lia.
Qed.

Lemma uint16_small (z : Z) : 0 <= z < 65536 -> uint16 z = z.
Proof. intros Hz. unfold uint16. now apply Z.mod_small. Qed.

(** C4: when the command read is [next], whatever the instruction, the
    command loop releases control with the address breakpoint enabled at
    uint16(PC + uint16(in.Bytes)), PC being the program counter before the
    instruction runs, and with the free-run flag set; the processor is not
    touched.  While PC + Bytes stays below 65536 that address is
    PC + Bytes. *)
Theorem next_installs_breakpoint (d d1 : Debugger) (in_ : Instruction) (c : cmd) :
  getCommand d = (inr c, d1) ->
  id c = debugCmdNext ->
  exists d',
    commandLoop d in_ = Returned (true, d') /\
    d' = commandNext d1 in_ /\
    breakAddress d' = true /\
    breakAddressValue d' = uint16 (PC (cpu d) + uint16 (Bytes in_)) /\
    run d' = true /\
    cpu d' = cpu d /\
    (0 <= PC (cpu d) -> 0 <= Bytes in_ -> PC (cpu d) + Bytes in_ < 65536 ->
     breakAddressValue d' = PC (cpu d) + Bytes in_).
Proof.
  intros Hg Hid. destruct (getCommand_frame _ _ _ Hg) as (Hc & _).
  exists (commandNext d1 in_). unfold commandLoop. rewrite Hg, Hid. simpl.
  rewrite Hc. repeat split.
  intros Hpc Hb Hlt.
  rewrite (uint16_small (Bytes in_)) by lia. apply uint16_small. lia.
Qed.

Lemma next_installs_breakpoint_witness :
  let d := QueueCommands (NewDebugger cpu0 [] []) ["next"] in
  exists d',
    commandLoop d jsr = Returned (true, d') /\
    breakAddress d' = true /\
    breakAddressValue d' = 4099 /\
    run d' = true.
Proof.
  intros d.
  destruct (next_installs_breakpoint d
              (set_lastCmd
                 (print (set_inputQueue d [])
                        (Printf "%s%s\n" [ArgString "$1000 > "; ArgString "next"]))
                 (Some (mkCmd debugCmdNext "next" [])))
              jsr (mkCmd debugCmdNext "next" []) eq_refl eq_refl)
    as (d' & Hl & _ & Hb & Hv & Hr & _ & _).
  exists d'. repeat split; assumption.
Defined.

Lemma commandBreakAddress_frame (d d' : Debugger) (c : cmd) :
  commandBreakAddress d c = Returned d' ->
  inputQueue d' = inputQueue d /\ liner d' = liner d /\ breakAddress d' = true.
Proof. intros H. command_frame H; repeat split. Qed.

Lemma commandBreakRegister_frame (d d' : Debugger) (c : cmd) :
  commandBreakRegister d c = Returned d' ->
  inputQueue d' = inputQueue d /\ liner d' = liner d /\
  breakAddress d' = breakAddress d.
Proof.
  intros H. command_frame H;
    repeat match goal with
           | E : (if ?b then _ else _) = Returned _ |- _ => destruct b
           | E : Returned _ = Returned _ |- _ => inversion E; subst; clear E
           | E : Panicked _ = Returned _ |- _ => discriminate E
           end; repeat split.
Qed.

Lemma commandRead_frame (d d' : Debugger) (c : cmd) :
  commandRead d c = Returned d' ->
  inputQueue d' = inputQueue d /\ liner d' = liner d /\
  breakAddress d' = breakAddress d.
Proof. intros H. command_frame H; repeat split. Qed.

Lemma commandRead16_frame (d d' : Debugger) (c : cmd) :
  commandRead16 d c = Returned d' ->
  inputQueue d' = inputQueue d /\ liner d' = liner d /\
  breakAddress d' = breakAddress d.
Proof. intros H. command_frame H; repeat split. Qed.

Lemma commandRead32_frame (d d' : Debugger) (c : cmd) :
  commandRead32 d c = Returned d' ->
  inputQueue d' = inputQueue d /\ liner d' = liner d /\
  breakAddress d' = breakAddress d.
Proof. intros H. command_frame H; repeat split. Qed.

(** A command that returns has read one line, leaves the rest of the
    input alone, and never switches the address breakpoint off. *)
Lemma commandLoop_inv (d d' : Debugger) (in_ : Instruction) (release : bool) :
  commandLoop d in_ = Returned (release, d') ->
  exists c d1,
    getCommand d = (inr c, d1) /\
    inputQueue d' = inputQueue d1 /\ liner d' = liner d1 /\
    (breakAddress d = true -> breakAddress d' = true).
Proof.
  unfold commandLoop. destruct (getCommand d) as [[e|c] d1] eqn:Hg;
    [discriminate|].
  destruct (getCommand_frame _ _ _ Hg) as (_ & _ & Hb & _).
  assert (Hba : breakAddress d1 = breakAddress d) by (now injection Hb).
  intros H. exists c, d1. split; [reflexivity|]. rewrite <- Hba.
  repeat match type of H with
         | (if ?b then _ else _) = _ => destruct b
         end.
  - destruct (commandBreakAddress d1 c) as [d2|] eqn:E; [|discriminate].
    injection H as _ <-. apply commandBreakAddress_frame in E. tauto.
  - unfold bind, index in H. destruct (nth_error _ _); [|discriminate].
    injection H as _ <-. auto.
  - destruct (commandBreakRegister d1 c) as [d2|] eqn:E; [|discriminate].
    injection H as _ <-. apply commandBreakRegister_frame in E.
    destruct E as (-> & -> & ->). auto.
  - injection H as _ <-. auto.
  - injection H as _ <-. auto.
  - injection H as _ <-. auto.
  - injection H as _ <-. auto.
  - injection H as _ <-. auto.
  - destruct (commandRead d1 c) as [d2|] eqn:E; [|discriminate].
    injection H as _ <-. apply commandRead_frame in E.
    destruct E as (-> & -> & ->). auto.
  - destruct (commandRead16 d1 c) as [d2|] eqn:E; [|discriminate].
    injection H as _ <-. apply commandRead16_frame in E.
    destruct E as (-> & -> & ->). auto.
  - destruct (commandRead32 d1 c) as [d2|] eqn:E; [|discriminate].
    injection H as _ <-. apply commandRead32_frame in E.
    destruct E as (-> & -> & ->). auto.
  - injection H as _ <-. auto.
  - injection H as _ <-. auto.
  - discriminate.
Qed.

Lemma commandLoops_returns (fuel : nat) (d : Debugger) (in_ : Instruction) :
  (inputLeft d < fuel)%nat -> exists r, commandLoops fuel d in_ = Some r.
Proof.
  revert d. induction fuel as [|fuel IH]; intros d Hlt; [lia|].
  simpl. destruct (commandLoop d in_) as [[[|] d']|msg] eqn:E; eauto.
  apply IH. apply commandLoop_inv in E as (c & d1 & Hg & Hq & Hl & _).
  apply getCommand_consumes in Hg. unfold inputLeft in *.
  rewrite Hq, Hl. lia.
Qed.

(** The hook always comes back: it returns or panics, and its loop never
    outlives the input. *)
Lemma BeforeExecute_returns (d : Debugger) (in_ : Instruction) :
  exists r, BeforeExecute d in_ = Some r.
Proof.
  unfold BeforeExecute. destruct (run (doBreakpoints d in_)); eauto.
  apply commandLoops_returns. lia.
Qed.

Lemma commandLoops_keep_breakAddress (fuel : nat) (d d' : Debugger) (in_ : Instruction) :
  breakAddress d = true ->
  commandLoops fuel d in_ = Some (Returned d') ->
  breakAddress d' = true.
Proof.
  revert d. induction fuel as [|fuel IH]; intros d Hb; [discriminate|].
  simpl. destruct (commandLoop d in_) as [[[|] d2]|msg] eqn:E.
  - intros H. injection H as <-.
    apply commandLoop_inv in E as (c & d1 & _ & _ & _ & Hk). auto.
  - apply IH. apply commandLoop_inv in E as (c & d1 & _ & _ & _ & Hk). auto.
  - discriminate.
Qed.

Lemma checked_refl (d : Debugger) : checked d d.
Proof. unfold checked. auto. Qed.

Lemma checked_trans (d1 d2 d3 : Debugger) :
  checked d1 d2 -> checked d2 d3 -> checked d1 d3.
Proof.
  unfold checked. intros (Hb & Hc & Hr & Hp) (Hb' & Hc' & Hr' & Hp').
  rewrite Hb', Hc'. repeat split; auto.
Qed.

Lemma checked_stop (d : Debugger) (p : printed) :
  checked d (set_run (print d p) false).
Proof.
  unfold checked; simpl. repeat split. intros q Hq. apply in_or_app. now left.
Qed.

Lemma checkRegBreakpoint_checked (d : Debugger) (regStr : string) (on : bool)
                                   (expect actual : Z) :
  checked d (checkRegBreakpoint d regStr on expect actual).
Proof.
  unfold checkRegBreakpoint. destruct (on && (actual =? expect)).
  - apply checked_stop.
  - apply checked_refl.
Qed.

(** doBreakpoints, one check after the other. *)
Lemma doBreakpoints_steps (d : Debugger) (in_ : Instruction) :
  exists d1 d2,
    d1 = (if String.eqb (Name in_) (breakInstruction d)
          then set_run (print d (Printf "Breakpoint for instruction %s\n"
                                        [ArgString (Name in_)])) false
          else d) /\
    d2 = (if breakAddress d1 && (PC (cpu d1) =? breakAddressValue d1)
          then set_run (print d1 (Printf "Breakpoint for PC address = $%04X\n"
                                         [ArgInt (breakAddressValue d1)])) false
          else d1) /\
    checked d d1 /\ checked d1 d2 /\ checked d2 (doBreakpoints d in_).
Proof.
  do 2 eexists. split; [reflexivity|]. split; [reflexivity|].
  split; [|split].
  - destruct (String.eqb _ _); [apply checked_stop|apply checked_refl].
  - destruct (_ && _); [apply checked_stop|apply checked_refl].
  - unfold doBreakpoints. cbv zeta.
    eapply checked_trans; [|apply checkRegBreakpoint_checked].
    eapply checked_trans; [|apply checkRegBreakpoint_checked].
    apply checkRegBreakpoint_checked.
Qed.

Lemma doBreakpoints_checked (d : Debugger) (in_ : Instruction) :
  checked d (doBreakpoints d in_).
Proof.
  destruct (doBreakpoints_steps d in_) as (d1 & d2 & _ & _ & H1 & H2 & H3).
  eapply checked_trans; [exact H1|]. eapply checked_trans; eassumption.
Qed.

Lemma doBreakpoints_frame (d : Debugger) (in_ : Instruction) :
  breakpoints (doBreakpoints d in_) = breakpoints d /\
  cpu (doBreakpoints d in_) = cpu d.
Proof. destruct (doBreakpoints_checked d in_) as (Hb & Hc & _). auto. Qed.

Lemma BeforeExecute_keeps_breakAddress (d d' : Debugger) (in_ : Instruction) :
  breakAddress d = true ->
  BeforeExecute d in_ = Some (Returned d') ->
  breakAddress d' = true.
Proof.
  intros Hb. unfold BeforeExecute.
  assert (Hb' : breakAddress (doBreakpoints d in_) = true).
  { destruct (doBreakpoints_frame d in_) as (Hf & _).
    injection Hf as _ -> _. assumption. }
  destruct (run (doBreakpoints d in_)).
  - intros H. now injection H as <-.
  - apply commandLoops_keep_breakAddress.
    now destruct (if IsAbsolute in_ then _ else _).
Qed.

Lemma doBreakpoints_fires (d : Debugger) (in_ : Instruction) :
  breakAddress d = true ->
  PC (cpu d) = breakAddressValue d ->
  run (doBreakpoints d in_) = false /\
  In (Printf "Breakpoint for PC address = $%04X\n" [ArgInt (breakAddressValue d)])
     (stdout (doBreakpoints d in_)).
Proof.
  intros Hb Hpc.
  destruct (doBreakpoints_steps d in_)
    as (d1 & d2 & _ & E2 & (Hb1 & Hc1 & _) & _ & (_ & _ & Hr3 & Hp3)).
  injection Hb1 as _ Hba Hbv _ _ _ _ _ _.
  rewrite Hba, Hbv, Hc1, Hb, Hpc, Z.eqb_refl in E2. simpl in E2. subst d2.
  split.
  - apply Hr3. reflexivity.
  - apply Hp3. simpl. apply in_or_app. right. now left.
Qed.

(** C3, amended: the address breakpoint that [next] installs stays.  It is
    enabled after [next]; no later call of the hook, whatever commands it
    reads, switches the address breakpoint off; and every time the hook
    checks the breakpoints with PC at the installed address, the first
    time and each later time alike, the breakpoint fires: the free-run
    flag is cleared and the notice is printed, with the breakpoint left
    enabled at the same address. *)
Theorem next_breakpoint_persists (d : Debugger) (in0 : Instruction) :
  breakAddress (commandNext d in0) = true /\
  (forall d1 d2 in_,
      breakAddress d1 = true ->
      BeforeExecute d1 in_ = Some (Returned d2) ->
      breakAddress d2 = true) /\
  (forall d1 in_,
      breakAddress d1 = true ->
      PC (cpu d1) = breakAddressValue d1 ->
      run (doBreakpoints d1 in_) = false /\
      In (Printf "Breakpoint for PC address = $%04X\n"
                 [ArgInt (breakAddressValue d1)])
         (stdout (doBreakpoints d1 in_)) /\
      breakAddress (doBreakpoints d1 in_) = true /\
      breakAddressValue (doBreakpoints d1 in_) = breakAddressValue d1) /\
  (forall in1 in2,
      let a := breakAddressValue (commandNext d in0) in
      let d2 := doBreakpoints (atPC (commandNext d in0) a) in1 in
      let d3 := doBreakpoints (atPC (set_run d2 true) a) in2 in
      run d2 = false /\ run d3 = false /\
      breakAddress d3 = true /\ breakAddressValue d3 = a).
Proof.
  split; [reflexivity|]. split; [|split].
  - intros d1 d2 in_. apply BeforeExecute_keeps_breakAddress.
  - intros d1 in_ Hb Hpc.
    destruct (doBreakpoints_fires d1 in_ Hb Hpc) as (Hr & Hin).
    destruct (doBreakpoints_frame d1 in_) as (Hf & _).
    injection Hf as _ Hba Hbv _ _ _ _ _ _.
    rewrite Hba, Hbv. auto.
  - intros in1 in2 a d2 d3.
    assert (H2 : run d2 = false /\ breakAddress d2 = true /\ breakAddressValue d2 = a).
    { destruct (doBreakpoints_fires (atPC (commandNext d in0) a) in1
                  eq_refl eq_refl) as (Hr & _).
      destruct (doBreakpoints_frame (atPC (commandNext d in0) a) in1) as (Hf & _).
      injection Hf as _ Hba Hbv _ _ _ _ _ _. auto. }
    destruct H2 as (Hr2 & Hb2 & Hv2).
    destruct (doBreakpoints_fires (atPC (set_run d2 true) a) in2 Hb2
                (eq_sym Hv2)) as (Hr3 & _).
    destruct (doBreakpoints_frame (atPC (set_run d2 true) a) in2) as (Hf & _).
    injection Hf as _ Hba Hbv _ _ _ _ _ _.
    repeat split; try assumption.
    + fold d3 in Hba. rewrite Hba. exact Hb2.
    + fold d3 in Hbv. rewrite Hbv. exact Hv2.
Qed.

Lemma next_breakpoint_persists_witness :
  let d1 := atPC (commandNext (NewDebugger cpu0 [] []) jsr) 4099 in
  breakAddress d1 = true /\
  PC (cpu d1) = breakAddressValue d1 /\
  run (doBreakpoints d1 nop) = false /\
  breakAddress (doBreakpoints d1 nop) = true.
Proof.
  intros d1.
  destruct (next_breakpoint_persists (NewDebugger cpu0 [] []) jsr)
    as (Hn & _ & Hfire & _).
  destruct (Hfire d1 nop Hn eq_refl) as (Hr & _ & Hb & _).
  repeat split; assumption.
Defined.

(** C3, as the spec words it, fails: after [next] at a JSR at $1000 the
    breakpoint at $1003 fires on the first pass over $1003 and is still
    enabled after it ([continue] then resumes the free run); on the second
    pass over $1003 it fires again, and the run stops there. *)
Lemma next_breakpoint_fires_again :
  let d0 := QueueCommands (NewDebugger cpu0 [] ["step"]) ["next"; "continue"] in
  let notice := Printf "Breakpoint for PC address = $%04X\n" [ArgInt 4099] in
  addressBreakpoint (visits d0 [(4096, jsr)])
  = Some (true, 4099, true, []) /\
  addressBreakpoint (visits d0 [(4096, jsr); (4099, nop)])
  = Some (true, 4099, true, [notice]) /\
  addressBreakpoint (visits d0 [(4096, jsr); (4099, nop); (4099, nop)])
  = Some (true, 4099, false, [notice; notice]).
Proof. intros d0 notice. repeat split; vm_compute; reflexivity. Qed.

Lemma invalid_id_cases (i : Z) :
  i = debugCmdInvalid ->
  (i =? debugCmdBreakAddress) = false /\ (i =? debugCmdBreakInstruction) = false /\
  (i =? debugCmdBreakRegister) = false /\ (i =? debugCmdContinue) = false /\
  (i =? debugCmdExit) = false /\ (i =? debugCmdHelp) = false /\
  (i =? debugCmdNext) = false /\ (i =? debugCmdNone) = false /\
  (i =? debugCmdRead) = false /\ (i =? debugCmdRead16) = false /\
  (i =? debugCmdRead32) = false /\ (i =? debugCmdStep) = false.
Proof. intros ->. repeat split. Qed.

(** C2, amended: of the debugger's input errors only the unknown command
    is recovered.  When the command read is unknown, the command loop
    prints "Invalid command.", does not release control (the hook's loop
    goes round again and reads the next line), and the processor, the
    free-run flag and the breakpoints are as before.  When the address
    argument of break-address, read, read16 or read32 does not parse
    (unparseable number or ambiguous symbol), or the value argument of
    break-register does not, the command panics with the parse error. *)
Theorem unknown_command_recovers (d d1 : Debugger) (in_ : Instruction) (c : cmd) :
  getCommand d = (inr c, d1) ->
  (id c = debugCmdInvalid ->
   let d' := print d1 (Println [ArgString "Invalid command."]) in
   commandLoop d in_ = Returned (false, d') /\
   cpu d' = cpu d /\ run d' = run d /\ breakpoints d' = breakpoints d /\
   forall fuel, commandLoops (S fuel) d in_ = commandLoops fuel d' in_) /\
  (forall a0 e,
      id c = debugCmdBreakAddress \/ id c = debugCmdRead \/
      id c = debugCmdRead16 \/ id c = debugCmdRead32 ->
      nth_error (arguments c) 0 = Some a0 ->
      snd (parseUint16 d1 a0) = Some e ->
      commandLoop d in_ = Panicked e) /\
  (forall regStr valueStr e,
      id c = debugCmdBreakRegister ->
      nth_error (arguments c) 0 = Some regStr ->
      nth_error (arguments c) 1 = Some valueStr ->
      In regStr ["A"; "a"; "AC"; "ac"; "X"; "x"; "Y"; "y"] ->
      snd (parseUint8 d1 valueStr) = Some e ->
      commandLoop d in_ = Panicked e).
Proof.
  intros Hg. destruct (getCommand_frame _ _ _ Hg) as (Hc & Hr & Hb & _).
  split; [|split].
  - intros Hid d'.
    assert (Hl : commandLoop d in_ = Returned (false, d')).
    { unfold commandLoop. rewrite Hg. cbv zeta.
      destruct (invalid_id_cases _ Hid)
        as (-> & -> & -> & -> & -> & -> & -> & -> & -> & -> & -> & ->).
      now rewrite Hid. }
    repeat split; try assumption.
    intros fuel. simpl. now rewrite Hl.
  - intros a0 e Hid Ha He. unfold commandLoop. rewrite Hg. cbv zeta.
    destruct (parseUint16 d1 a0) as [addr err] eqn:Ep. simpl in He. subst err.
    destruct Hid as [Hid|[Hid|[Hid|Hid]]]; rewrite Hid; simpl;
      unfold commandBreakAddress, commandRead, commandRead16, commandRead32,
        bind, index; now rewrite Ha, Ep.
  - intros regStr valueStr e Hid Ha Hv Hin He.
    unfold commandLoop. rewrite Hg. cbv zeta. rewrite Hid. simpl.
    unfold commandBreakRegister, bind, index. rewrite Ha, Hv.
    unfold parseUint8 in *.
    destruct (strconv.ParseUint _ 0 8) as [result err]. simpl in He. subst err.
    simpl in Hin.
    repeat (destruct Hin as [<-|Hin]; [reflexivity|]). contradiction.
Qed.

Lemma unknown_command_recovers_witness :
  let d := QueueCommands (NewDebugger cpu0 [(4096, "loop"); (8192, "loop")] [])
                         ["frobnicate"; "ba loop"] in
  exists d',
    commandLoop d nop = Returned (false, d') /\
    cpu d' = cpu d /\ run d' = run d /\ breakpoints d' = breakpoints d /\
    In (Println [ArgString "Invalid command."]) (stdout d') /\
    inputQueue d' = ["ba loop"] /\
    commandLoop d' nop = Panicked "Multiple addresses for %s: %v".
Proof.
  intros d.
  set (c1 := mkCmd debugCmdInvalid "frobnicate" []).
  set (d1 := set_lastCmd
               (print (set_inputQueue d ["ba loop"])
                      (Printf "%s%s\n" [ArgString "$1000 loop> ";
                                        ArgString "frobnicate"]))
               (Some c1)).
  assert (Hg : getCommand d = (inr c1, d1)) by reflexivity.
  destruct (unknown_command_recovers d d1 nop c1 Hg) as (Hu & _ & _).
  destruct (Hu eq_refl) as (Hl & Hc & Hr & Hb & _).
  set (d' := print d1 (Println [ArgString "Invalid command."])) in *.
  exists d'. split; [exact Hl|]. split; [exact Hc|]. split; [exact Hr|].
  split; [exact Hb|]. split; [apply in_or_app; right; now left|].
  split; [reflexivity|].
  set (c2 := mkCmd debugCmdBreakAddress "ba loop" ["loop"]).
  set (d2 := set_lastCmd
               (print (set_inputQueue d' [])
                      (Printf "%s%s\n" [ArgString "$1000 loop> ";
                                        ArgString "ba loop"]))
               (Some c2)).
  assert (Hg' : getCommand d' = (inr c2, d2)) by reflexivity.
  destruct (unknown_command_recovers d' d2 nop c2 Hg') as (_ & Hp & _).
  apply (Hp "loop"); [now left|reflexivity|reflexivity].
Defined.

(** C2, as the spec words it, fails: an argument that does not parse, an
    ambiguous symbol and a bad value for break-register each make the
    command panic, and the panic leaves the hook. *)
Lemma input_error_panics :
  let d := QueueCommands (NewDebugger cpu0 [(4096, "loop"); (8192, "loop")] ["step"]) in
  commandLoop (d ["break-address zz"]) nop =
    Panicked "strconv.ParseUint: invalid syntax" /\
  BeforeExecute (d ["break-address zz"; "step"]) nop =
    Some (Panicked "strconv.ParseUint: invalid syntax") /\
  commandLoop (d ["ba loop"]) nop = Panicked "Multiple addresses for %s: %v" /\
  commandLoop (d ["br x 256"]) nop =
    Panicked "strconv.ParseUint: value out of range" /\
  commandLoop (d ["read $10000"]) nop =
    Panicked "strconv.ParseUint: value out of range".
Proof. intros d. repeat split; vm_compute; reflexivity. Qed.

Lemma value_16_nonneg (h : string) :
  numeral.allChars numeral.isHex h = true -> 0 <= numeral.value 16 h 0.
Proof. intros Hh. apply (value_ge numeral.isHex 16 ltac:(lia) hex_digit); [assumption|lia]. Qed.

Lemma value_10_nonneg (s : string) :
  numeral.allChars numeral.isDecimal s = true -> 0 <= numeral.value 10 s 0.
Proof. intros Hs. apply (value_ge numeral.isDecimal 10 ltac:(lia) decimal_digit); [assumption|lia]. Qed.

(** C8: parseUint16 reads "." as the current PC; a symbol with exactly one
    address as that address; a symbol with two or more addresses as an
    error, with no address picked (the value returned is 0); and a string
    with no address as a number: the first "$" becomes "0x" and
    strconv.ParseUint reads the result in base 0 and 16 bits.  That
    reading accepts "$" and "0x" followed by hexadecimal digits, and
    decimal digits not starting with "0", as the number they denote, when
    it is below 65536. *)
Theorem parseUint16_forms (d : Debugger) :
  parseUint16 d "." = (PC (cpu d), None) /\
  (forall s a,
      s <> "." -> addressesFor (symbols d) s = [a] ->
      parseUint16 d s = (a, None)) /\
  (forall s,
      s <> "." -> (2 <= List.length (addressesFor (symbols d) s))%nat ->
      exists msg, parseUint16 d s = (0, Some msg)) /\
  (forall s,
      s <> "." -> addressesFor (symbols d) s = [] ->
      parseUint16 d s =
      (uint16 (fst (strconv.ParseUint (strings.ReplaceFirst s "$" "0x") 0 16)),
       snd (strconv.ParseUint (strings.ReplaceFirst s "$" "0x") 0 16))) /\
  (forall h,
      h <> "" -> numeral.allChars numeral.isHex h = true ->
      numeral.value 16 h 0 < 65536 ->
      (addressesFor (symbols d) ("$" ++ h) = [] ->
       parseUint16 d ("$" ++ h) = (numeral.value 16 h 0, None)) /\
      (addressesFor (symbols d) ("0x" ++ h) = [] ->
       parseUint16 d ("0x" ++ h) = (numeral.value 16 h 0, None))) /\
  (forall c r,
      numeral.allChars numeral.isDecimal (String c r) = true ->
      c <> "0"%char ->
      numeral.value 10 (String c r) 0 < 65536 ->
      addressesFor (symbols d) (String c r) = [] ->
      parseUint16 d (String c r) = (numeral.value 10 (String c r) 0, None)).
Proof.
  assert (Hnum : forall s,
             s <> "." -> addressesFor (symbols d) s = [] ->
             parseUint16 d s =
             (uint16 (fst (strconv.ParseUint (strings.ReplaceFirst s "$" "0x") 0 16)),
              snd (strconv.ParseUint (strings.ReplaceFirst s "$" "0x") 0 16))).
  { intros s Hs Ha. unfold parseUint16.
    apply String.eqb_neq in Hs. rewrite Hs, Ha.
    now destruct (strconv.ParseUint _ 0 16). }
  split; [reflexivity|]. split; [|split; [|split; [exact Hnum|split]]].
  - intros s a Hs Ha. unfold parseUint16.
    apply String.eqb_neq in Hs. now rewrite Hs, Ha.
  - intros s Hs Hl. unfold parseUint16.
    apply String.eqb_neq in Hs. rewrite Hs.
    destruct (addressesFor (symbols d) s) as [|a [|b l]]; simpl in Hl;
      [lia|lia|eauto].
  - intros h Hne Hh Hv. split; intros Ha.
    + rewrite Hnum by (assumption || discriminate).
      change (strings.ReplaceFirst ("$" ++ h) "$" "0x") with ("0x" ++ h)%string.
      rewrite ParseUint_hex by assumption. cbn [fst snd].
      rewrite uint16_small; [reflexivity|].
      split; [now apply value_16_nonneg|assumption].
    + rewrite Hnum by (assumption || discriminate).
      change (strings.ReplaceFirst ("0x" ++ h) "$" "0x")
        with ("0x" ++ strings.ReplaceFirst h "$" "0x")%string.
      rewrite (ReplaceFirst_digits numeral.isHex 16 ltac:(lia) hex_digit) by assumption.
      rewrite ParseUint_hex by assumption. cbn [fst snd].
      rewrite uint16_small; [reflexivity|].
      split; [now apply value_16_nonneg|assumption].
  - intros c r Hs Hc Hv Ha.
    assert (Hdot : String c r <> ".").
    { intros E. injection E as -> ->. discriminate Hs. }
    rewrite Hnum by assumption.
    rewrite (ReplaceFirst_digits numeral.isDecimal 10 ltac:(lia) decimal_digit) by assumption.
    rewrite ParseUint_decimal by assumption. cbn [fst snd].
    rewrite uint16_small; [reflexivity|].
    split; [now apply value_10_nonneg|assumption].
Qed.

Lemma parseUint16_forms_witness :
  let d := NewDebugger cpu0 [(61440, "reset"); (4096, "loop"); (8192, "loop")] [] in
  parseUint16 d "." = (4096, None) /\
  parseUint16 d "reset" = (61440, None) /\
  (exists msg, parseUint16 d "loop" = (0, Some msg)) /\
  parseUint16 d "$f0Ff" = (61695, None) /\
  parseUint16 d "0x1000" = (4096, None) /\
  parseUint16 d "4096" = (4096, None).
Proof.
  intros d.
  destruct (parseUint16_forms d) as (Hdot & Hone & Hmany & _ & Hhex & Hdec).
  split; [exact Hdot|].
  split; [apply Hone; [discriminate|reflexivity]|].
  split; [apply Hmany; [discriminate|simpl; lia]|].
  split; [apply (proj1 (Hhex "f0Ff" ltac:(discriminate) eq_refl eq_refl)); reflexivity|].
  split; [apply (proj2 (Hhex "1000" ltac:(discriminate) eq_refl eq_refl)); reflexivity|].
  apply (Hdec "4"%char "096"); [reflexivity|discriminate|reflexivity|reflexivity].
Defined.

(** The exit command hands 0 to ExitChan from inside the hook and does not
    release control: the Step that called the hook is still running when
    the status is delivered. *)
Lemma exit_command_sends (d d1 : Debugger) (in_ : Instruction) (c : cmd) :
  getCommand d = (inr c, d1) ->
  id c = debugCmdExit ->
  commandLoop d in_ = Returned (false, set_cpu d1 (send_ExitChan (cpu d1) 0)).
Proof.
  intros Hg Hid. unfold commandLoop. rewrite Hg. cbv zeta. now rewrite Hid.
Qed.

End DebuggerProperties.

(** ** RAM configuration *)

Section RamProperties.

Import machine.

Variable Ram : Type.
Variable newRam : Ram.

(** C10: configuring a RAM chip gives an error exactly when the size is
    below 1024 (and then no device); otherwise it gives [&memory.Ram{}]
    with no error, the same device for every size. *)
Theorem ram_configure_size (c : RamChip) :
  (snd (RamChip_Configure Ram newRam c) <> None <-> Size c < 1024) /\
  (Size c < 1024 -> fst (RamChip_Configure Ram newRam c) = None) /\
  (1024 <= Size c -> RamChip_Configure Ram newRam c = (Some newRam, None)) /\
  (forall c',
      1024 <= Size c -> 1024 <= Size c' ->
      RamChip_Configure Ram newRam c = RamChip_Configure Ram newRam c').
Proof.
  unfold RamChip_Configure.
  destruct (Z.ltb_spec (Size c) 1024) as [Hlt|Hge]; simpl.
  - repeat split; try lia; try discriminate.
  - repeat split; try lia; try congruence.
    intros c' _ Hc'. destruct (Z.ltb_spec (Size c') 1024); [lia|reflexivity].
Qed.

End RamProperties.

Lemma ram_configure_size_witness :
  let zeroed : Z -> Z := fun _ => 0 in
  machine.RamChip_Configure (Z -> Z) zeroed (machine.mkRamChip 4096)
  = (Some zeroed, None) /\
  machine.RamChip_Configure (Z -> Z) zeroed (machine.mkRamChip 4096)
  = machine.RamChip_Configure (Z -> Z) zeroed (machine.mkRamChip 32768) /\
  fst (machine.RamChip_Configure (Z -> Z) zeroed (machine.mkRamChip 1023)) = None.
Proof.
  intros zeroed.
  destruct (ram_configure_size (Z -> Z) zeroed (machine.mkRamChip 4096))
    as (_ & _ & Hok & Hsame).
  destruct (ram_configure_size (Z -> Z) zeroed (machine.mkRamChip 1023))
    as (_ & Hsmall & _).
  split; [apply Hok; simpl; lia|].
  split; [apply Hsame; simpl; lia|].
  apply Hsmall; simpl; lia.
Defined.

(** ** The run loop and the halt channel *)

Section RunProperties.

Import machine.

Lemma start_consistent : consistent start.
Proof. unfold consistent; simpl. intuition discriminate. Qed.

Lemma next_consistent (e : event) (w w' : world) :
  consistent w -> next e w = Some w' -> consistent w'.
Proof.
  unfold consistent, next. intros (Hr & Hf & Hl).
  destruct e, (loop w) eqn:El, (watcher w) eqn:Ew, (running w) eqn:Er;
    intros E; try discriminate E; injection E as <-; simpl;
    intuition (discriminate || congruence).
Qed.

Lemma exec_consistent (schedule : list event) (w w' : world) :
  consistent w -> exec schedule w = Some w' -> consistent w'.
Proof.
  revert w. induction schedule as [|e rest IH]; intros w Hw; simpl.
  - intros E. now injection E as <-.
  - destruct (next e w) as [w1|] eqn:E; [|discriminate].
    apply IH. eapply next_consistent; eassumption.
Qed.

(** Run returns only once a status has been delivered and the watcher has
    cleared [running]. *)
Lemma Run_returns_after_delivery (schedule : list event) (w : world) :
  exec schedule start = Some w ->
  loop w = AfterLoop ->
  running w = false /\ watcher w = Finished /\ delivered w <> None.
Proof.
  intros E Hl. destruct (exec_consistent _ _ _ start_consistent E) as (Hr & Hf & Ha).
  pose proof (Ha Hl) as Hrun. pose proof (proj1 Hf Hrun) as Hw.
  repeat split; try assumption.
  intros Hd. apply Hr in Hd. congruence.
Qed.

(** Once [running] is cleared the next test of the loop leaves it, with
    no further Step. *)
Lemma cleared_flag_stops_loop (w w' : world) :
  running w = false ->
  next TestRunning w = Some w' ->
  loop w' = AfterLoop /\ steps w' = steps w.
Proof.
  unfold next. intros Hr. destruct (loop w); try discriminate.
  rewrite Hr. intros E. now injection E as <-.
Qed.

Lemma exec_app (s1 s2 : list event) (w : world) :
  exec (s1 ++ s2) w =
  match exec s1 w with Some w1 => exec s2 w1 | None => None end.
Proof.
  revert w. induction s1 as [|e s1 IH]; intros w; simpl; [reflexivity|].
  destruct (next e w); [apply IH|reflexivity].
Qed.

Lemma moreSteps_exec (n : nat) (w : world) (status : Z) :
  loop w = InStep -> running w = true -> delivered w = Some status ->
  exists w',
    exec (moreSteps n) w = Some w' /\
    loop w' = InStep /\ running w' = true /\ delivered w' = Some status /\
    stepsAfterDelivery w' = (stepsAfterDelivery w + n)%nat.
Proof.
  revert w. induction n as [|n IH]; intros w Hl Hr Hd; simpl.
  - exists w. repeat split; try assumption. lia.
  - rewrite Hl. simpl. rewrite Hr, Hd.
    match goal with
    | |- context [exec (moreSteps n) ?w1] =>
        destruct (IH w1 eq_refl eq_refl eq_refl) as (w' & E & H1 & H2 & H3 & H4)
    end.
    exists w'. repeat split; try assumption.
    rewrite H4. simpl. lia.
Qed.

(** Between the delivery and the watcher's store the loop can call Step
    any number of times. *)
Lemma Run_steps_after_delivery_unbounded (n : nat) :
  exists schedule w,
    exec schedule start = Some w /\
    delivered w = Some 0 /\ stepsAfterDelivery w = n.
Proof.
  destruct (moreSteps_exec n (mkWorld true InStep (Logging 0) 1 (Some 0) 0) 0
              eq_refl eq_refl eq_refl) as (w & E & _ & _ & Hd & Hs).
  exists ([TestRunning; StepSends 0; Rendezvous] ++ moreSteps n), w.
  rewrite exec_app. simpl. repeat split; assumption.
Qed.

(** So it does not hold that no Step is called once a status has been
    delivered. *)
Lemma no_step_after_delivery_fails :
  ~ (forall schedule w,
        exec schedule start = Some w -> stepsAfterDelivery w = 0%nat).
Proof.
  intros H. destruct (Run_steps_after_delivery_unbounded 1) as (s & w & E & _ & Hs).
  specialize (H s w E). congruence.
Qed.

End RunProperties.

(** C1 fails on the code.  In Machine.Run: the debugger's exit command
    sends 0 inside a Step, the watcher receives it, the Step returns, and
    the loop tests [running] before the watcher has stored false: Step is
    called again after the delivery.  In mainReturningStatus the loop
    tests nothing: Step is called again while the main goroutine, which
    has the status, prints and dumps. *)
Theorem step_called_after_delivery :
  (exists w,
      machine.exec [machine.TestRunning; machine.StepSends 0; machine.Rendezvous;
                    machine.StepReturns; machine.TestRunning] machine.start
      = Some w /\
      machine.delivered w = Some 0 /\
      machine.loop w = machine.InStep /\
      machine.steps w = 2%nat /\
      machine.stepsAfterDelivery w = 1%nat) /\
  (exists w,
      main.exec [main.CallStep; main.StepSends 0; main.Rendezvous;
                 main.StepReturns; main.CallStep; main.MainPrints] main.start
      = Some w /\
      main.delivered w = Some 0 /\
      main.cpuLoop w = main.InStep /\
      main.steps w = 2%nat /\
      main.stepsAfterDelivery w = 1%nat).
Proof. split; eexists; repeat split. Qed.

(** * Further properties *)

(** ** The serial controller on the bus *)

Section AciaBusProperties.

Import acia6551.

Context {P : Type} `{SerialPeripheral P}.

Lemma Acia6551_Read_keeps (a : Acia6551 P) (address : Z) :
  attached a -> rxFull a = false -> overrun a = false ->
  0 <= address < 4 ->
  exists b a',
    Acia6551_Read a address = Returned (b, a') /\
    attached a' /\ rxFull a' = false /\ overrun a' = false.
Proof.
  intros Ha Hf Ho Hr. unfold Acia6551_Read.
  assert (address = 0 \/ address = 1 \/ address = 2 \/ address = 3)
    as [-> | [-> | [-> | ->]]] by lia; simpl; eauto 8.
  unfold rxRead.
  destruct (negb (rxFull a) && (Z.land (capabilities a) Read =? Read)) eqn:E.
  - destruct (peripheral a) as [p|] eqn:Ep.
    + destruct (sp_Read p) as [[[read data] err] p']. simpl.
      do 2 eexists. split; [reflexivity|]. unfold attached; simpl.
      repeat split. discriminate.
    + rewrite (Ha Ep) in E. now rewrite andb_false_r in E.
  - simpl. do 2 eexists. split; [reflexivity|]. unfold attached; simpl.
    repeat split. exact Ha.
Qed.

Lemma Acia6551_Write_keeps (a : Acia6551 P) (address data : Z) :
  attached a -> rxFull a = false -> overrun a = false ->
  exists a',
    Acia6551_Write a address data = Returned a' /\
    attached a' /\ rxFull a' = false /\ overrun a' = false.
Proof.
  intros Ha Hf Ho. unfold Acia6551_Write.
  destruct (address =? aciaData).
  - unfold txWrite. destruct (Z.land (capabilities a) Write =? Write) eqn:E.
    + destruct (peripheral a) as [p|] eqn:Ep.
      * destruct (sp_Write p data) as [[written err] p'].
        eexists. split; [reflexivity|]. unfold attached; simpl.
        repeat split; try assumption. discriminate.
      * now rewrite (Ha Ep) in E.
    + eauto.
  - destruct (address =? aciaStatus);
      [|destruct (address =? aciaCommand); [|destruct (address =? aciaControl)]];
      eexists; (split; [reflexivity|]); unfold attached; simpl;
      repeat split; assumption.
Qed.

Lemma accesses_keep (l : list access) (a : Acia6551 P) :
  forallb inRange l = true ->
  attached a -> rxFull a = false -> overrun a = false ->
  exists bs a',
    accesses a l = Returned (bs, a') /\
    attached a' /\ rxFull a' = false /\ overrun a' = false.
Proof.
  revert a. induction l as [|e l IH]; intros a Hl Ha Hf Ho; simpl in *.
  - eauto 8.
  - apply andb_true_iff in Hl as [He Hl]. destruct e as [address|address data|].
    + simpl in He. apply andb_true_iff in He as [H0 H4].
      apply Z.leb_le in H0. apply Z.ltb_lt in H4.
      destruct (Acia6551_Read_keeps a address Ha Hf Ho (conj H0 H4))
        as (b & a1 & -> & Ha1 & Hf1 & Ho1). simpl.
      destruct (IH a1 Hl Ha1 Hf1 Ho1) as (bs & a' & -> & Hr). simpl. eauto.
    + destruct (Acia6551_Write_keeps a address data Ha Hf Ho)
        as (a1 & -> & Ha1 & Hf1 & Ho1). simpl. now apply IH.
    + apply IH; [assumption|exact Ha|reflexivity|reflexivity].
Qed.

(** X1: whatever reads and writes within its four registers and whatever
    resets reach a controller built by NewAcia6551, none of them panics,
    and the controller never holds rxFull or overrun: its status register
    then reads 0x10 when tx is empty and 0 otherwise. *)
Theorem controller_never_full (o : Options P) (l : list access) :
  forallb inRange l = true ->
  exists bs a',
    accesses (NewAcia6551 o) l = Returned (bs, a') /\
    rxFull a' = false /\ overrun a' = false /\
    statusRegister a' = (if txEmpty a' then 16 else 0).
Proof.
  intros Hl.
  destruct (accesses_keep l (NewAcia6551 o) Hl (NewAcia6551_attached o)
              eq_refl eq_refl) as (bs & a' & E & _ & Hf & Ho).
  exists bs, a'. repeat split; try assumption.
  unfold statusRegister. rewrite Hf, Ho. now destruct (txEmpty a').
Qed.

(** X2: the command and control registers read back what was written to
    them; a write to the command register changes nothing else than that
    register and the two IRQ enables, a write to the control register
    nothing else than that register. *)
Theorem register_write_read (a : Acia6551 P) (data : Z) :
  accesses a [BusWrite aciaCommand data; BusRead aciaCommand]
  = Returned ([data], setCommand a data) /\
  accesses a [BusWrite aciaControl data; BusRead aciaControl]
  = Returned ([data], setControl a data) /\
  (let a' := setCommand a data in
   (rx a', tx a', controlData a', rxFull a', txEmpty a', overrun a',
    peripheral a', capabilities a')
   = (rx a, tx a, controlData a, rxFull a, txEmpty a, overrun a,
      peripheral a, capabilities a)) /\
  (let a' := setControl a data in
   (rx a', tx a', commandData a', rxFull a', txEmpty a', overrun a',
    rxIrqEnabled a', txIrqEnabled a', peripheral a', capabilities a')
   = (rx a, tx a, commandData a, rxFull a, txEmpty a, overrun a,
      rxIrqEnabled a, txIrqEnabled a, peripheral a, capabilities a)).
Proof. repeat split. Qed.

(** X3: outside the four registers a read panics, while a write is
    ignored and leaves the controller as it was. *)
Theorem access_out_of_range (a : Acia6551 P) (address data : Z) :
  address < 0 \/ 4 <= address ->
  (exists msg, Acia6551_Read a address = Panicked msg) /\
  Acia6551_Write a address data = Returned a.
Proof.
  intros Hr. unfold Acia6551_Read, Acia6551_Write,
    aciaData, aciaStatus, aciaCommand, aciaControl.
  destruct (Z.eqb_spec address 0); [lia|].
  destruct (Z.eqb_spec address 1); [lia|].
  destruct (Z.eqb_spec address 2); [lia|].
  destruct (Z.eqb_spec address 3); [lia|].
  eauto.
Qed.

End AciaBusProperties.

Section AciaBusWitnesses.

Import acia6551 sample.

Lemma controller_never_full_witness :
  exists bs a',
    accesses acia0 [BusWrite 0 65; BusRead 0; BusRead 1; HardReset;
                    BusWrite 2 6; BusRead 1]
    = Returned (bs, a') /\
    rxFull a' = false /\ overrun a' = false /\
    statusRegister a' = (if txEmpty a' then 16 else 0).
Proof.
  exact (controller_never_full (mkOptions (Some console0))
           [BusWrite 0 65; BusRead 0; BusRead 1; HardReset;
            BusWrite 2 6; BusRead 1] eq_refl).
Defined.

Lemma access_out_of_range_witness :
  (exists msg, Acia6551_Read acia0 4 = Panicked msg) /\
  Acia6551_Write acia0 4 255 = Returned acia0.
Proof. apply (access_out_of_range acia0 4 255). right. lia. Defined.

End AciaBusWitnesses.

(** ** The serial controller with a terminal *)

Section TerminalProperties.

Import acia6551.

Lemma accesses_app (P : Type) `{SerialPeripheral P} (l1 l2 : list access)
                   (a a1 a2 : Acia6551 P) (bs1 bs2 : list Z) :
  accesses a l1 = Returned (bs1, a1) ->
  accesses a1 l2 = Returned (bs2, a2) ->
  accesses a (l1 ++ l2) = Returned (bs1 ++ bs2, a2).
Proof.
  revert a bs1. induction l1 as [|e l1 IH]; intros a bs1 E1 E2; simpl in *.
  - injection E1 as <- <-. exact E2.
  - destruct e as [address|address data|].
    + destruct (Acia6551_Read a address) as [[b a0]|] eqn:Er; [|discriminate].
      simpl in *.
      destruct (accesses a0 l1) as [[bs a3]|] eqn:E; [|discriminate].
      simpl in E1. injection E1 as <- <-.
      now rewrite (IH _ _ E E2).
    + destruct (Acia6551_Write a address data) as [a0|]; [|discriminate].
      simpl in *. now apply IH.
    + now apply IH.
Qed.

Lemma Read_capability (t : Terminal) (f : File) :
  in_ t = Some f -> Z.land (Terminal_Capabilities t) Read = Read.
Proof.
  intros Hi. unfold Terminal_Capabilities. rewrite Hi. now destruct (out t).
Qed.

Lemma Write_capability (t : Terminal) (f : File) :
  out t = Some f -> Z.land (Terminal_Capabilities t) Write = Write.
Proof.
  intros Ho. unfold Terminal_Capabilities. rewrite Ho. now destruct (in_ t).
Qed.

Lemma last_cons_any (A : Type) (x : A) (l : list A) (d d' : A) :
  last (x :: l) d = last (x :: l) d'.
Proof.
  revert x. induction l as [|y l IH]; intros x; [reflexivity|].
  change (last (x :: y :: l) d) with (last (y :: l) d).
  change (last (x :: y :: l) d') with (last (y :: l) d'). apply IH.
Qed.

(** Reads of the data register take the unread bytes of the input file
    one by one. *)
Lemma reads_take_input (bs : list Z) (a : Acia6551 Terminal) (t : Terminal)
                       (f : File) :
  peripheral a = Some t -> in_ t = Some f -> closed f = false ->
  unread f = bs ->
  rxFull a = false -> Z.land (capabilities a) Read = Read ->
  exists a',
    accesses a (repeat (BusRead aciaData) (List.length bs)) = Returned (bs, a') /\
    rx a' = last bs (rx a) /\ rxFull a' = false /\
    capabilities a' = capabilities a /\
    terminalInput a' = Some [] /\ terminalOutput a' = terminalOutput a.
Proof.
  revert a t f. induction bs as [|b bs IH]; intros a t f Hp Hi Hc Hu Hf Hcap.
  - simpl. exists a. repeat split; try assumption.
    unfold terminalInput. rewrite Hp, Hi. cbn [option_map]. now rewrite Hu.
  - cbn [List.length repeat accesses].
    change (Acia6551_Read a aciaData) with (rxRead a). unfold rxRead.
    rewrite Hf, Hcap, Z.eqb_refl, Hp. cbn [negb andb sp_Read Terminal_SerialPeripheral].
    unfold Terminal_Read. rewrite Hi. cbv beta iota.
    unfold File_Read. rewrite Hc, Hu. cbv beta iota zeta. cbn [bind fst snd Z.eqb Pos.eqb].
    match goal with
    | |- context [accesses ?a1 _] =>
        destruct (IH a1 (mkTerminal (console t) (Some (mkFile bs (written f) false)) (out t))
                    (mkFile bs (written f) false)
                    eq_refl eq_refl eq_refl eq_refl eq_refl Hcap)
          as (a' & -> & Hrx & Hf' & Hcap' & Hin & Hout)
    end.
    cbn [bind fst snd]. exists a'. repeat split; try assumption.
    + rewrite Hrx. destruct bs as [|z bs]; [reflexivity|].
      exact (last_cons_any _ z bs _ _).
    + rewrite Hout. unfold terminalOutput. cbn [peripheral out]. now rewrite Hp.
Qed.

Lemma File_Read_nothing (f : File) :
  closed f = true \/ unread f = [] ->
  exists msg, File_Read f = ((0, 0, Some msg), f).
Proof.
  unfold File_Read. intros [-> | ->]; [eauto|]. destruct (closed f); eauto.
Qed.

(** When the peripheral has nothing to give, or is not asked, reads of the
    data register keep returning the byte held in rx. *)
Lemma reads_at_end (k : nat) (a : Acia6551 Terminal) (t : Terminal) (f : File) :
  peripheral a = Some t -> in_ t = Some f ->
  closed f = true \/ unread f = [] ->
  exists a',
    accesses a (repeat (BusRead aciaData) k) = Returned (repeat (rx a) k, a') /\
    terminalOutput a' = terminalOutput a.
Proof.
  revert a t. induction k as [|k IH]; intros a t Hp Hi He.
  - simpl. eauto.
  - cbn [repeat accesses].
    change (Acia6551_Read a aciaData) with (rxRead a). unfold rxRead.
    destruct (negb (rxFull a) && (Z.land (capabilities a) Read =? Read)).
    + rewrite Hp. cbn [sp_Read Terminal_SerialPeripheral].
      unfold Terminal_Read. rewrite Hi. cbv beta iota.
      destruct (File_Read_nothing f He) as (msg & ->).
      cbv beta iota zeta. cbn [bind fst snd].
      match goal with
      | |- context [accesses ?a1 _] =>
          destruct (IH a1 (mkTerminal (console t) (Some f) (out t)) eq_refl eq_refl He)
            as (a' & -> & Hout)
      end.
      cbn [bind fst snd rx]. exists a'. split; [reflexivity|].
      rewrite Hout. unfold terminalOutput. cbn [peripheral out]. now rewrite Hp.
    + cbn [bind fst snd].
      match goal with
      | |- context [accesses ?a1 _] =>
          destruct (IH a1 t Hp Hi He) as (a' & -> & Hout)
      end.
      cbn [bind fst snd rx]. exists a'. split; [reflexivity|].
      rewrite Hout. unfold terminalOutput. cbn [peripheral]. reflexivity.
Qed.

(** X4: a controller built on a terminal with an open input file delivers
    the bytes of the file in order, one per read of the data register;
    once the file is exhausted every further read returns the last byte
    delivered again (0 when there was none). *)
Theorem terminal_input_in_order (t : Terminal) (f : File) (k : nat) :
  in_ t = Some f ->
  closed f = false ->
  exists a',
    accesses (NewAcia6551 (mkOptions (Some t)))
             (repeat (BusRead aciaData) (List.length (unread f) + k))
    = Returned (unread f ++ repeat (last (unread f) 0) k, a').
Proof.
  intros Hi Hc.
  assert (Hcap : Z.land (capabilities (NewAcia6551 (mkOptions (Some t)))) Read = Read).
  { cbn. exact (Read_capability t f Hi). }
  destruct (reads_take_input (unread f) (NewAcia6551 (mkOptions (Some t))) t f
              eq_refl Hi Hc eq_refl eq_refl Hcap)
    as (a1 & E1 & Hrx & _ & _ & Hin & _).
  unfold terminalInput in Hin.
  destruct (peripheral a1) as [t1|] eqn:Hp1; [|discriminate].
  destruct (in_ t1) as [f1|] eqn:Hi1; [|discriminate].
  injection Hin as Hu1.
  destruct (reads_at_end k a1 t1 f1 Hp1 Hi1 (or_intror Hu1)) as (a' & E2 & _).
  exists a'. rewrite repeat_app. rewrite (accesses_app _ _ _ _ _ _ _ _ E1 E2).
  now rewrite Hrx.
Qed.

(** Writes of the data register append to the output file. *)
Lemma writes_append (bs : list Z) (a : Acia6551 Terminal) (t : Terminal)
                    (f : File) :
  peripheral a = Some t -> out t = Some f -> closed f = false ->
  Z.land (capabilities a) Write = Write ->
  exists a',
    accesses a (map (BusWrite aciaData) bs) = Returned ([], a') /\
    terminalOutput a' = Some (written f ++ bs) /\
    terminalInput a' = terminalInput a /\
    tx a' = last bs (tx a) /\
    txEmpty a' = (match bs with [] => txEmpty a | _ => true end) /\
    rx a' = rx a.
Proof.
  revert a t f. induction bs as [|b bs IH]; intros a t f Hp Ho Hc Hcap.
  - simpl. exists a. repeat split.
    unfold terminalOutput. rewrite Hp, Ho. cbn [option_map]. now rewrite app_nil_r.
  - cbn [map accesses].
    change (Acia6551_Write a aciaData b) with (txWrite a b). unfold txWrite.
    rewrite Hcap, Z.eqb_refl, Hp. cbn [sp_Write Terminal_SerialPeripheral].
    unfold Terminal_Write. rewrite Ho. cbv beta iota.
    unfold File_Write. rewrite Hc. cbv beta iota zeta. cbn [bind Z.eqb Pos.eqb].
    match goal with
    | |- context [accesses ?a1 _] =>
        destruct (IH a1 (mkTerminal (console t) (in_ t)
                           (Some (mkFile (unread f) (written f ++ [b]) false)))
                    (mkFile (unread f) (written f ++ [b]) false)
                    eq_refl eq_refl eq_refl Hcap)
          as (a' & -> & Hout & Hin & Htx & Hte & Hrx)
    end.
    exists a'. split; [reflexivity|]. repeat split.
    + rewrite Hout. cbn [written]. now rewrite <- app_assoc.
    + rewrite Hin. unfold terminalInput. cbn [peripheral in_]. now rewrite Hp.
    + rewrite Htx. destruct bs as [|z bs]; [reflexivity|].
      exact (last_cons_any _ z bs _ _).
    + rewrite Hte. cbn [txEmpty]. destruct bs; reflexivity.
    + rewrite Hrx. reflexivity.
Qed.

(** X5: on a controller whose terminal has an open output file and
    declares write capability, the bytes written to the data register are
    appended to the file in the order written; tx holds the last of them,
    txEmpty is set after the first, and the input side is not touched. *)
Theorem terminal_output_in_order (a : Acia6551 Terminal) (t : Terminal)
                                 (f : File) (bs : list Z) :
  peripheral a = Some t ->
  out t = Some f ->
  closed f = false ->
  Z.land (capabilities a) Write = Write ->
  exists a',
    accesses a (map (BusWrite aciaData) bs) = Returned ([], a') /\
    terminalOutput a' = Some (written f ++ bs) /\
    terminalInput a' = terminalInput a /\
    tx a' = last bs (tx a) /\
    (bs <> [] -> txEmpty a' = true) /\
    rx a' = rx a.
Proof.
  intros Hp Ho Hc Hcap.
  destruct (writes_append bs a t f Hp Ho Hc Hcap)
    as (a' & E & Hout & Hin & Htx & Hte & Hrx).
  exists a'. repeat split; try assumption.
  intros Hne. rewrite Hte. now destruct bs.
Qed.

(** X6: Shutdown closes the files of a terminal that is not the console
    and leaves the console's open.  After it, on a terminal that is not
    the console, a byte written to the data register does not reach the
    output file, yet txEmpty is set (the write's error counts as done);
    a read of the data register returns the byte held in rx and takes
    nothing from the input file. *)
Theorem shutdown_closes_terminal (a : Acia6551 Terminal) (t : Terminal)
                                 (fi fo : File) (data : Z) :
  peripheral a = Some t ->
  in_ t = Some fi ->
  out t = Some fo ->
  capabilities a = Terminal_Capabilities t ->
  (console t = true -> peripheral (Shutdown a) = Some t) /\
  (console t = false ->
   (exists a',
       Acia6551_Write (Shutdown a) aciaData data = Returned a' /\
       txEmpty a' = true /\ tx a' = data /\
       terminalOutput a' = Some (written fo)) /\
   (exists a',
       Acia6551_Read (Shutdown a) aciaData = Returned (rx a, a') /\
       terminalInput a' = Some (unread fi))).
Proof.
  intros Hp Hi Ho Hcap. split.
  - intros Hc. unfold Shutdown. cbn [peripheral]. rewrite Hp.
    cbn [option_map sp_Shutdown Terminal_SerialPeripheral].
    unfold Terminal_Shutdown. now rewrite Hc.
  - intros Hc. split.
    + change (Acia6551_Write (Shutdown a) aciaData data)
        with (txWrite (Shutdown a) data).
      unfold txWrite, Shutdown. cbn [capabilities peripheral].
      rewrite Hcap, (Write_capability t fo Ho), Z.eqb_refl, Hp.
      cbn [option_map sp_Shutdown sp_Write Terminal_SerialPeripheral].
      unfold Terminal_Shutdown, Terminal_Write, File_Write.
      rewrite Hc, Ho. cbn.
      eexists. split; [reflexivity|]. repeat split.
    + change (Acia6551_Read (Shutdown a) aciaData) with (rxRead (Shutdown a)).
      unfold rxRead, Shutdown. cbn [capabilities peripheral rxFull].
      rewrite Hcap, (Read_capability t fi Hi), Z.eqb_refl, Hp.
      cbn [option_map sp_Shutdown sp_Read Terminal_SerialPeripheral].
      unfold Terminal_Shutdown, Terminal_Read, File_Read.
      rewrite Hc, Hi.
      destruct (rxFull a); cbn; eexists; (split; [reflexivity|]);
        unfold terminalInput; cbn; try rewrite Hp; cbn; try rewrite Hi; reflexivity.
Qed.

(** X7: a serial chip is configured without error whatever peripheral it
    names.  Only "console" attaches one, with both capabilities; with any
    other name the controller has no peripheral, and then a write to its
    data register changes nothing and a read of it returns 0. *)
Theorem acia_chip_configure (stdin stdout : File) (c : machine.Acia6551Chip) :
  exists a,
    machine.Acia6551Chip_Configure stdin stdout c = (Some a, None) /\
    (machine.Peripheral c = "console" ->
     peripheral a = Some (NewConsole stdin stdout) /\
     capabilities a = BiDirectional) /\
    (machine.Peripheral c <> "console" ->
     peripheral a = None /\ capabilities a = Nop /\
     (forall data, Acia6551_Write a aciaData data = Returned a) /\
     exists a', Acia6551_Read a aciaData = Returned (0, a')).
Proof.
  unfold machine.Acia6551Chip_Configure. eexists. split; [reflexivity|]. split.
  - intros ->. split; reflexivity.
  - intros Hn. apply String.eqb_neq in Hn. rewrite Hn.
    repeat split. eexists. reflexivity.
Qed.

Lemma terminal_input_in_order_witness :
  exists a',
    accesses sample.acia0 (repeat (BusRead aciaData) 4)
    = Returned ([72; 105; 105; 105], a').
Proof.
  exact (terminal_input_in_order sample.console0 (mkFile [72; 105] [] false) 2
           eq_refl eq_refl).
Defined.

Lemma terminal_output_in_order_witness :
  exists a',
    accesses sample.acia0 (map (BusWrite aciaData) [79; 75])
    = Returned ([], a') /\
    terminalOutput a' = Some [79; 75] /\
    txEmpty a' = true.
Proof.
  destruct (terminal_output_in_order sample.acia0 sample.console0
              (mkFile [] [] false) [79; 75] eq_refl eq_refl eq_refl eq_refl)
    as (a' & E & Hout & _ & _ & Hte & _).
  exists a'. repeat split; try assumption. apply Hte. discriminate.
Defined.

Lemma shutdown_closes_terminal_witness :
  let t := NewTerminal (Some (mkFile [1; 2] [] false)) (Some (mkFile [] [9] false)) in
  let a := NewAcia6551 (mkOptions (Some t)) in
  (exists a',
      Acia6551_Write (Shutdown a) aciaData 65 = Returned a' /\
      txEmpty a' = true /\ tx a' = 65 /\ terminalOutput a' = Some [9]) /\
  (exists a',
      Acia6551_Read (Shutdown a) aciaData = Returned (0, a') /\
      terminalInput a' = Some [1; 2]).
Proof.
  intros t a.
  destruct (shutdown_closes_terminal a t (mkFile [1; 2] [] false)
              (mkFile [] [9] false) 65 eq_refl eq_refl eq_refl eq_refl)
    as (_ & Hs).
  exact (Hs eq_refl).
Defined.

Lemma acia_chip_configure_witness :
  exists a,
    machine.Acia6551Chip_Configure (mkFile [] [] false) (mkFile [] [] false)
                                   (machine.mkAcia6551Chip "tty")
    = (Some a, None) /\
    peripheral a = None /\
    Acia6551_Write a aciaData 65 = Returned a.
Proof.
  destruct (acia_chip_configure (mkFile [] [] false) (mkFile [] [] false)
              (machine.mkAcia6551Chip "tty")) as (a & E & _ & Hn).
  destruct (Hn ltac:(discriminate)) as (Hp & _ & Hw & _).
  exists a. repeat split; [exact E|exact Hp|apply Hw].
Defined.

End TerminalProperties.

(** ** The breakpoint check *)

Section BreakpointProperties.

Import cpu debugger sample.

(** One test of doBreakpoints: stop and print when it matches. *)
Lemma stop_if (c : bool) (d : Debugger) (p : printed) :
  let d' := if c then set_run (print d p) false else d in
  checked d d' /\ run d' = run d && negb c /\
  inputQueue d' = inputQueue d /\ liner d' = liner d /\
  lastCmd d' = lastCmd d /\ symbols d' = symbols d /\
  (c = true -> In p (stdout d')) /\
  (c = false -> d' = d).
Proof.
  destruct c; cbn zeta.
  - refine (conj (checked_stop d p)
              (conj _ (conj eq_refl (conj eq_refl (conj eq_refl
                 (conj eq_refl (conj _ _))))))).
    + cbn. now rewrite andb_false_r.
    + intros _. apply in_or_app. right. now left.
    + discriminate.
  - refine (conj (checked_refl d)
              (conj _ (conj eq_refl (conj eq_refl (conj eq_refl
                 (conj eq_refl (conj _ _))))))).
    + now rewrite andb_true_r.
    + discriminate.
    + reflexivity.
Qed.

Lemma checked_fields (d d' : Debugger) :
  checked d d' ->
  breakInstruction d' = breakInstruction d /\
  breakAddress d' = breakAddress d /\
  breakAddressValue d' = breakAddressValue d /\
  breakRegA d' = breakRegA d /\ breakRegAValue d' = breakRegAValue d /\
  breakRegX d' = breakRegX d /\ breakRegXValue d' = breakRegXValue d /\
  breakRegY d' = breakRegY d /\ breakRegYValue d' = breakRegYValue d /\
  cpu d' = cpu d.
Proof.
  intros (Hb & Hc & _). unfold breakpoints in Hb.
  injection Hb as H1 H2 H3 H4 H5 H6 H7 H8 H9. repeat split; assumption.
Qed.

(** doBreakpoints as its five tests, each on the state the one before
    left. *)
Lemma doBreakpoints_chain (d : Debugger) (in_ : Instruction) :
  exists d1 d2 d3 d4,
    d1 = (if String.eqb (Name in_) (breakInstruction d)
          then set_run (print d (Printf "Breakpoint for instruction %s\n"
                                        [ArgString (Name in_)])) false
          else d) /\
    d2 = (if breakAddress d1 && (PC (cpu d1) =? breakAddressValue d1)
          then set_run (print d1 (Printf "Breakpoint for PC address = $%04X\n"
                                         [ArgInt (breakAddressValue d1)])) false
          else d1) /\
    d3 = (if breakRegA d2 && (AC (cpu d2) =? breakRegAValue d2)
          then set_run (print d2 (Printf "Breakpoint for %s = $%02X (%d)\n"
                                         [ArgString "A"; ArgInt (breakRegAValue d2);
                                          ArgInt (breakRegAValue d2)])) false
          else d2) /\
    d4 = (if breakRegX d3 && (X (cpu d3) =? breakRegXValue d3)
          then set_run (print d3 (Printf "Breakpoint for %s = $%02X (%d)\n"
                                         [ArgString "X"; ArgInt (breakRegXValue d3);
                                          ArgInt (breakRegXValue d3)])) false
          else d3) /\
    doBreakpoints d in_
    = (if breakRegY d4 && (Y (cpu d4) =? breakRegYValue d4)
       then set_run (print d4 (Printf "Breakpoint for %s = $%02X (%d)\n"
                                      [ArgString "Y"; ArgInt (breakRegYValue d4);
                                       ArgInt (breakRegYValue d4)])) false
       else d4).
Proof.
  do 4 eexists. repeat (split; [reflexivity|]). reflexivity.
Qed.

(** What doBreakpoints does, test by test: the conditions are those of
    [breakpointHit] on the state before, and each test that matches
    prints its notice. *)
Lemma doBreakpoints_tests (d : Debugger) (in_ : Instruction) :
  let d' := doBreakpoints d in_ in
  run d' = run d && negb (breakpointHit d in_) /\
  inputQueue d' = inputQueue d /\ liner d' = liner d /\
  lastCmd d' = lastCmd d /\ symbols d' = symbols d /\
  (breakpointHit d in_ = false -> d' = d) /\
  (breakRegA d && (AC (cpu d) =? breakRegAValue d) = true ->
   In (Printf "Breakpoint for %s = $%02X (%d)\n"
              [ArgString "A"; ArgInt (breakRegAValue d); ArgInt (breakRegAValue d)])
      (stdout d')) /\
  (breakRegX d && (X (cpu d) =? breakRegXValue d) = true ->
   In (Printf "Breakpoint for %s = $%02X (%d)\n"
              [ArgString "X"; ArgInt (breakRegXValue d); ArgInt (breakRegXValue d)])
      (stdout d')) /\
  (breakRegY d && (Y (cpu d) =? breakRegYValue d) = true ->
   In (Printf "Breakpoint for %s = $%02X (%d)\n"
              [ArgString "Y"; ArgInt (breakRegYValue d); ArgInt (breakRegYValue d)])
      (stdout d')) /\
  (String.eqb (Name in_) (breakInstruction d) = true ->
   In (Printf "Breakpoint for instruction %s\n" [ArgString (Name in_)])
      (stdout d')).
Proof.
  intros d'. subst d'.
  destruct (doBreakpoints_chain d in_) as (d1 & d2 & d3 & d4 & E1 & E2 & E3 & E4 & ->).
  pose proof (stop_if (String.eqb (Name in_) (breakInstruction d)) d
                (Printf "Breakpoint for instruction %s\n" [ArgString (Name in_)])) as S1.
  cbv zeta in S1. rewrite <- E1 in S1.
  destruct S1 as (C1 & R1 & Q1 & L1 & K1 & Y1 & P1 & I1).
  destruct (checked_fields _ _ C1) as (_ & F12 & F13 & F14 & F15 & F16 & F17 & F18 & F19 & F1c).
  pose proof (stop_if (breakAddress d1 && (PC (cpu d1) =? breakAddressValue d1)) d1
                (Printf "Breakpoint for PC address = $%04X\n"
                        [ArgInt (breakAddressValue d1)])) as S2.
  cbv zeta in S2. rewrite <- E2 in S2. rewrite F12, F13, F1c in S2.
  destruct S2 as (C2 & R2 & Q2 & L2 & K2 & Y2 & P2 & I2).
  destruct (checked_fields _ _ C2) as (_ & _ & _ & F24 & F25 & F26 & F27 & F28 & F29 & F2c).
  pose proof (stop_if (breakRegA d2 && (AC (cpu d2) =? breakRegAValue d2)) d2
                (Printf "Breakpoint for %s = $%02X (%d)\n"
                        [ArgString "A"; ArgInt (breakRegAValue d2);
                         ArgInt (breakRegAValue d2)])) as S3.
  cbv zeta in S3. rewrite <- E3 in S3.
  rewrite F24, F25, F2c, F14, F15, F1c in S3.
  destruct S3 as (C3 & R3 & Q3 & L3 & K3 & Y3 & P3 & I3).
  destruct (checked_fields _ _ C3) as (_ & _ & _ & _ & _ & F36 & F37 & F38 & F39 & F3c).
  pose proof (stop_if (breakRegX d3 && (X (cpu d3) =? breakRegXValue d3)) d3
                (Printf "Breakpoint for %s = $%02X (%d)\n"
                        [ArgString "X"; ArgInt (breakRegXValue d3);
                         ArgInt (breakRegXValue d3)])) as S4.
  cbv zeta in S4. rewrite <- E4 in S4.
  rewrite F36, F37, F3c, F26, F27, F2c, F16, F17, F1c in S4.
  destruct S4 as (C4 & R4 & Q4 & L4 & K4 & Y4 & P4 & I4).
  destruct (checked_fields _ _ C4) as (_ & _ & _ & _ & _ & _ & _ & F48 & F49 & F4c).
  pose proof (stop_if (breakRegY d4 && (Y (cpu d4) =? breakRegYValue d4)) d4
                (Printf "Breakpoint for %s = $%02X (%d)\n"
                        [ArgString "Y"; ArgInt (breakRegYValue d4);
                         ArgInt (breakRegYValue d4)])) as S5.
  cbv zeta in S5.
  set (d5 := if breakRegY d4 && (Y (cpu d4) =? breakRegYValue d4) then _ else d4) in *.
  rewrite F48, F49, F4c, F38, F39, F3c, F28, F29, F2c, F18, F19, F1c in S5.
  destruct S5 as (C5 & R5 & Q5 & L5 & K5 & Y5 & P5 & I5).
  destruct C2 as (_ & _ & _ & O2). destruct C3 as (_ & _ & _ & O3).
  destruct C4 as (_ & _ & _ & O4). destruct C5 as (_ & _ & _ & O5).
  unfold breakpointHit.
  set (c1 := String.eqb (Name in_) (breakInstruction d)) in *.
  set (c2 := breakAddress d && (PC (cpu d) =? breakAddressValue d)) in *.
  set (c3 := breakRegA d && (AC (cpu d) =? breakRegAValue d)) in *.
  set (c4 := breakRegX d && (X (cpu d) =? breakRegXValue d)) in *.
  set (c5 := breakRegY d && (Y (cpu d) =? breakRegYValue d)) in *.
  split; [rewrite R5, R4, R3, R2, R1; destruct (run d), c1, c2, c3, c4, c5; reflexivity|].
  split; [congruence|]. split; [congruence|]. split; [congruence|].
  split; [congruence|].
  split.
  { intros Hh. destruct c1, c2, c3, c4, c5; try discriminate Hh.
    rewrite (I5 eq_refl), (I4 eq_refl), (I3 eq_refl), (I2 eq_refl). now apply I1. }
  split; [|split; [|split]]; intros Hc.
  - apply O5, O4. now apply P3.
  - apply O5. now apply P4.
  - now apply P5.
  - apply O5, O4, O3, O2. now apply P1.
Qed.

(** X8: after the breakpoint check the debugger free-runs exactly when it
    did before and no breakpoint matches (instruction name, PC, or one of
    A, X, Y against its target); when none matches the check changes
    nothing at all, and a free-running debugger returns from the hook at
    once, with no output and no input read. *)
Theorem breakpoint_check (d : Debugger) (in_ : Instruction) :
  run (doBreakpoints d in_) = run d && negb (breakpointHit d in_) /\
  (breakpointHit d in_ = false -> doBreakpoints d in_ = d) /\
  (breakpointHit d in_ = false -> run d = true ->
   BeforeExecute d in_ = Some (Returned d)).
Proof.
  destruct (doBreakpoints_tests d in_) as (Hr & _ & _ & _ & _ & Hd & _).
  split; [exact Hr|]. split; [exact Hd|].
  intros Hh Hrun. unfold BeforeExecute. now rewrite (Hd Hh), Hrun.
Qed.

(** X9: a register breakpoint fires whenever its register holds the
    target value, whatever the instruction and whether or not the
    debugger was free-running: the free-run flag is cleared and the
    notice names the register and the value. *)
Theorem register_breakpoint_fires (d : Debugger) (in_ : Instruction) :
  (breakRegA d = true -> AC (cpu d) = breakRegAValue d ->
   run (doBreakpoints d in_) = false /\
   In (Printf "Breakpoint for %s = $%02X (%d)\n"
              [ArgString "A"; ArgInt (AC (cpu d)); ArgInt (AC (cpu d))])
      (stdout (doBreakpoints d in_))) /\
  (breakRegX d = true -> X (cpu d) = breakRegXValue d ->
   run (doBreakpoints d in_) = false /\
   In (Printf "Breakpoint for %s = $%02X (%d)\n"
              [ArgString "X"; ArgInt (X (cpu d)); ArgInt (X (cpu d))])
      (stdout (doBreakpoints d in_))) /\
  (breakRegY d = true -> Y (cpu d) = breakRegYValue d ->
   run (doBreakpoints d in_) = false /\
   In (Printf "Breakpoint for %s = $%02X (%d)\n"
              [ArgString "Y"; ArgInt (Y (cpu d)); ArgInt (Y (cpu d))])
      (stdout (doBreakpoints d in_))).
Proof.
  destruct (doBreakpoints_tests d in_)
    as (Hr & _ & _ & _ & _ & _ & HA & HX & HY & _).
  unfold breakpointHit in Hr.
  split; [|split]; intros Hb Hv; (split; [rewrite Hr, Hb, <- Hv, Z.eqb_refl|]).
  - cbn [andb]. rewrite !orb_true_r. apply andb_false_r.
  - rewrite Hv. apply HA. now rewrite Hb, Hv, Z.eqb_refl.
  - cbn [andb]. rewrite !orb_true_r. apply andb_false_r.
  - rewrite Hv. apply HX. now rewrite Hb, Hv, Z.eqb_refl.
  - cbn [andb]. rewrite !orb_true_r. apply andb_false_r.
  - rewrite Hv. apply HY. now rewrite Hb, Hv, Z.eqb_refl.
Qed.

Lemma atPC_frame (d : Debugger) (pc : Z) :
  stdout (atPC d pc) = stdout d /\ inputQueue (atPC d pc) = inputQueue d /\
  liner (atPC d pc) = liner d /\ run (atPC d pc) = run d /\
  breakpoints (atPC d pc) = breakpoints d.
Proof. repeat split. Qed.

(** X10: while it free-runs, the debugger lets every instruction through
    at which no breakpoint matches: over any such path the hook returns
    each time, prints nothing, reads no input, and leaves the breakpoints
    and the free-run flag as they were. *)
Theorem free_run_passes (path : list (Z * Instruction)) (d : Debugger) :
  run d = true ->
  (forall pc in_, In (pc, in_) path -> breakpointHit (atPC d pc) in_ = false) ->
  exists d',
    visits d path = Some (Returned d') /\
    stdout d' = stdout d /\ inputQueue d' = inputQueue d /\
    liner d' = liner d /\ run d' = true /\ breakpoints d' = breakpoints d.
Proof.
  revert d. induction path as [|[pc in_] path IH]; intros d Hrun Hq.
  - exists d. repeat split. exact Hrun.
  - cbn [visits].
    destruct (doBreakpoints_tests (atPC d pc) in_) as (_ & _ & _ & _ & _ & Hd & _).
    unfold BeforeExecute.
    rewrite (Hd (Hq pc in_ (or_introl eq_refl))).
    replace (run (atPC d pc)) with true by (symmetry; exact Hrun).
    destruct (IH (atPC d pc) Hrun) as (d' & E & H1 & H2 & H3 & H4 & H5).
    { intros pc0 in0 Hin0. exact (Hq pc0 in0 (or_intror Hin0)). }
    exists d'. repeat split; assumption.
Qed.

Lemma breakpoint_check_witness :
  BeforeExecute (set_run (NewDebugger cpu0 [] []) true) nop
  = Some (Returned (set_run (NewDebugger cpu0 [] []) true)).
Proof.
  exact (proj2 (proj2 (breakpoint_check (set_run (NewDebugger cpu0 [] []) true) nop))
           eq_refl eq_refl).
Defined.

Lemma register_breakpoint_fires_witness :
  run (doBreakpoints (set_run (set_breakRegX (NewDebugger cpu0 [] []) true) true) jsr)
  = false.
Proof.
  exact (proj1 (proj1 (proj2 (register_breakpoint_fires
                                (set_run (set_breakRegX (NewDebugger cpu0 [] []) true) true)
                                jsr)) eq_refl eq_refl)).
Defined.

Lemma free_run_passes_witness :
  exists d',
    visits (set_run (NewDebugger cpu0 [] []) true) [(4096, nop); (4097, jsr)]
    = Some (Returned d') /\
    stdout d' = [] /\ run d' = true.
Proof.
  destruct (free_run_passes [(4096, nop); (4097, jsr)]
              (set_run (NewDebugger cpu0 [] []) true) eq_refl) as (d' & E & O & _ & _ & R & _).
  - intros pc in_ [E | [E | []]]; injection E as <- <-; reflexivity.
  - exists d'. split; [exact E|]. split; [exact O|exact R].
Defined.

End BreakpointProperties.

(** ** The commands *)

Section CommandProperties.

Import cpu debugger sample.












Lemma getCommand_eof (d : Debugger) :
  inputQueue d = [] -> pending (liner d) = [] ->
  fst (getCommand d) = inl "EOF".
Proof.
  intros Hq Hp. unfold getCommand, readInput, Liner_Prompt. now rewrite Hq, Hp.
Qed.

(** X12: when the hook stops (a breakpoint matched, or the debugger was
    not free-running) and no input is left, neither queued nor typed, it
    does not return: reading the command fails and the hook panics with
    the line editor's error. *)
Theorem hook_panics_without_input (d : Debugger) (in_ : Instruction) :
  run d && negb (breakpointHit d in_) = false ->
  inputQueue d = [] ->
  pending (liner d) = [] ->
  BeforeExecute d in_ = Some (Panicked "EOF").
Proof.
  intros Hr Hq Hp. unfold BeforeExecute.
  destruct (doBreakpoints_tests d in_) as (Hrun & Hq' & Hl' & _).
  rewrite Hrun, Hr.
  set (d2 := match (if IsAbsolute in_ then _ else _) with [] => _ | _ => _ end).
  assert (H2 : inputQueue d2 = [] /\ pending (liner d2) = []).
  { subst d2. destruct (if IsAbsolute in_ then _ else _); cbn;
      rewrite Hq', Hl'; now split. }
  destruct H2 as (Hq2 & Hp2).
  cbn [commandLoops]. unfold commandLoop.
  pose proof (getCommand_eof d2 Hq2 Hp2) as He.
  destruct (getCommand d2) as [r d3]. cbn in He. now rewrite He.
Qed.

Lemma hook_panics_without_input_witness :
  BeforeExecute (NewDebugger cpu0 [] []) nop = Some (Panicked "EOF").
Proof.
  apply hook_panics_without_input; reflexivity.
Defined.

Lemma fieldsFrom_blank (s : string) :
  numeral.allChars strings.isSpace s = true -> strings.fieldsFrom s "" = [].
Proof.
  induction s as [|c s IH]; intros Hs; simpl in *; [reflexivity|].
  apply andb_true_iff in Hs as [Hc Hs]. rewrite Hc. now apply IH.
Qed.

(** X13: a line that is empty or all white space, queued or typed,
    repeats the previous command as it was, arguments included, and
    leaves it the previous command; when there was no previous command
    the line does nothing: the command loop does not release control and
    the processor, the free-run flag and the breakpoints stay as they
    were. *)
Theorem blank_line_repeats (d : Debugger) (line : string) (rest : list string)
                           (in_ : Instruction) :
  numeral.allChars strings.isSpace line = true ->
  inputQueue d = line :: rest \/
  (inputQueue d = [] /\ pending (liner d) = line :: rest) ->
  (forall c0, lastCmd d = Some c0 ->
     exists d1, getCommand d = (inr c0, d1) /\ lastCmd d1 = Some c0) /\
  (lastCmd d = None ->
     exists d1, commandLoop d in_ = Returned (false, d1) /\
                lastCmd d1 = Some (mkCmd debugCmdNone line []) /\
                cpu d1 = cpu d /\ run d1 = run d /\
                breakpoints d1 = breakpoints d).
Proof.
  intros Hb Hin.
  assert (Hf : strings.Fields line = []) by (now apply fieldsFrom_blank).
  split.
  - intros c0 Hl. unfold getCommand, readInput, Liner_Prompt.
    destruct Hin as [Hq|[Hq Hp]]; rewrite Hq; [|rewrite Hp]; cbn;
      rewrite Hf; cbn; rewrite Hl; cbn; eexists; (split; [reflexivity|]);
      cbn; exact Hl.
  - intros Hl. unfold commandLoop, getCommand, readInput, Liner_Prompt.
    destruct Hin as [Hq|[Hq Hp]]; rewrite Hq; [|rewrite Hp]; cbn;
      rewrite Hf; cbn; rewrite Hl; cbn; eexists;
      (split; [reflexivity|]); repeat split.
Qed.

Lemma blank_line_repeats_witness :
  let d := QueueCommands (NewDebugger cpu0 [] []) ["read16 $10"; "  "] in
  exists d1 d2,
    getCommand d = (inr (mkCmd debugCmdRead16 "read16 $10" ["$10"]), d1) /\
    getCommand d1 = (inr (mkCmd debugCmdRead16 "read16 $10" ["$10"]), d2) /\
    inputQueue d2 = [].
Proof.
  intros d.
  set (c0 := mkCmd debugCmdRead16 "read16 $10" ["$10"]).
  set (d1 := snd (getCommand d)).
  destruct (blank_line_repeats d1 "  " [] nop eq_refl (or_introl eq_refl))
    as (Hrep & _).
  destruct (Hrep c0 eq_refl) as (d2 & E & _).
  exists d1, d2. split; [reflexivity|]. split; [exact E|].
  change d2 with (snd (@inr string cmd c0, d2)). now rewrite <- E.
Defined.

(** X14: a command that needs an argument and gets none panics on the
    index: break-address, break-instruction, break-register, read, read16
    and read32 without argument, and break-register with a register but
    no value. *)
Theorem missing_argument_panics (d d1 : Debugger) (in_ : Instruction) (c : cmd) :
  getCommand d = (inr c, d1) ->
  (arguments c = [] ->
   In (id c) [debugCmdBreakAddress; debugCmdBreakInstruction;
              debugCmdBreakRegister; debugCmdRead; debugCmdRead16;
              debugCmdRead32] ->
   commandLoop d in_ = Panicked "runtime error: index out of range") /\
  (forall regStr,
      arguments c = [regStr] -> id c = debugCmdBreakRegister ->
      commandLoop d in_ = Panicked "runtime error: index out of range").
Proof.
  intros Hg. split.
  - intros Ha Hin. unfold commandLoop. rewrite Hg. cbv zeta.
    simpl in Hin.
    destruct Hin as [<-|[<-|[<-|[<-|[<-|[<-|[]]]]]]]; simpl;
      unfold commandBreakAddress, commandBreakRegister, commandRead,
        commandRead16, commandRead32, bind, index; now rewrite Ha.
  - intros regStr Ha Hid. unfold commandLoop. rewrite Hg. cbv zeta.
    rewrite Hid. simpl. unfold commandBreakRegister, bind, index.
    now rewrite Ha.
Qed.

Lemma missing_argument_panics_witness :
  let d := QueueCommands (NewDebugger cpu0 [] []) in
  commandLoop (d ["ba"]) nop = Panicked "runtime error: index out of range" /\
  commandLoop (d ["br x"]) nop = Panicked "runtime error: index out of range".
Proof.
  intros d. split.
  - set (c := mkCmd debugCmdBreakAddress "ba" []).
    exact (proj1 (missing_argument_panics (d ["ba"]) (snd (getCommand (d ["ba"])))
                    nop c eq_refl) eq_refl (or_introl eq_refl)).
  - set (c := mkCmd debugCmdBreakRegister "br x" ["x"]).
    exact (proj2 (missing_argument_panics (d ["br x"]) (snd (getCommand (d ["br x"])))
                    nop c eq_refl) "x" eq_refl eq_refl).
Defined.

End CommandProperties.

(** ** Reading memory and numbers *)

Section ReadProperties.

Import cpu debugger sample strconv numeral.

Lemma lor_shiftl_add (a b k : Z) :
  0 <= k -> 0 <= b < 2 ^ k -> Z.lor (Z.shiftl a k) b = a * 2 ^ k + b.
Proof.
  intros Hk Hb. rewrite Z.shiftl_mul_pow2 by assumption.
  assert (Hl : Z.land (a * 2 ^ k) b = 0).
  { apply Z.bits_inj'. intros n Hn. rewrite Z.land_spec, Z.bits_0.
    destruct (Z.lt_ge_cases n k) as [Hlt|Hge].
    - now rewrite Z.mul_pow2_bits_low.
    - rewrite <- (Z.mod_small b (2 ^ k)) by assumption.
      rewrite Z.mod_pow2_bits_high by lia. apply andb_false_r. }
  rewrite <- Z.lxor_lor by assumption. symmetry. now apply Z.add_nocarry_lxor.
Qed.

Lemma lor_mul_add (a b m k : Z) :
  m = 2 ^ k -> 0 <= k -> 0 <= b < m -> Z.lor (a * m) b = a * m + b.
Proof.
  intros -> Hk Hb. rewrite <- Z.shiftl_mul_pow2 by assumption.
  rewrite lor_shiftl_add by assumption. now rewrite Z.shiftl_mul_pow2.
Qed.

(** X15: [read16] reads the byte at the address and the byte after it
    (the address after $FFFF is $0000), and prints them as one
    little-endian number, high * 256 + low; it does not release control. *)
Theorem read16_little_endian (d d1 : Debugger) (in_ : Instruction) (c : cmd)
                             (a0 : string) (addr lo hi : Z) :
  getCommand d = (inr c, d1) ->
  id c = debugCmdRead16 ->
  nth_error (arguments c) 0 = Some a0 ->
  parseUint16 d1 a0 = (addr, None) ->
  Bus (cpu d1) addr = Some lo ->
  Bus (cpu d1) (uint16 (addr + 1)) = Some hi ->
  0 <= lo < 256 -> 0 <= hi < 256 ->
  commandLoop d in_
  = Returned (false,
              print d1 (Printf "$%04X,%04X => $%04X 0b%016b %d\n"
                          [ArgInt addr; ArgInt (uint16 (addr + 1));
                           ArgInt (hi * 256 + lo); ArgInt (hi * 256 + lo);
                           ArgInt (hi * 256 + lo)])).
Proof.
  intros Hg Hid Ha Hp Hlo Hhi Rlo Rhi.
  unfold commandLoop. rewrite Hg. cbv zeta. rewrite Hid. simpl.
  unfold commandRead16, bind, index, Bus_Read. rewrite Ha, Hp, Hlo, Hhi.
  cbv zeta.
  assert (E : Z.lor (uint16 (Z.shiftl hi 8)) lo = hi * 256 + lo).
  { rewrite Z.shiftl_mul_pow2 by lia. rewrite uint16_small by lia.
    rewrite <- (Z.shiftl_mul_pow2 hi 8) by lia.
    now rewrite lor_shiftl_add by lia. }
  now rewrite E.
Qed.

(** X16: [read32] reads four bytes from the address on, wrapping after
    $FFFF, and prints them as one little-endian number. *)
Theorem read32_little_endian (d d1 : Debugger) (in_ : Instruction) (c : cmd)
                             (a0 : string) (addr v0 v1 v2 v3 : Z) :
  getCommand d = (inr c, d1) ->
  id c = debugCmdRead32 ->
  nth_error (arguments c) 0 = Some a0 ->
  parseUint16 d1 a0 = (addr, None) ->
  Bus (cpu d1) addr = Some v0 ->
  Bus (cpu d1) (uint16 (addr + 1)) = Some v1 ->
  Bus (cpu d1) (uint16 (addr + 2)) = Some v2 ->
  Bus (cpu d1) (uint16 (addr + 3)) = Some v3 ->
  0 <= v0 < 256 -> 0 <= v1 < 256 -> 0 <= v2 < 256 -> 0 <= v3 < 256 ->
  let v := v3 * 16777216 + v2 * 65536 + v1 * 256 + v0 in
  commandLoop d in_
  = Returned (false,
              print d1 (Printf "$%04X..%04X => $%08X 0b%032b %d\n"
                          [ArgInt addr; ArgInt (uint16 (addr + 3));
                           ArgInt v; ArgInt v; ArgInt v])).
Proof.
  intros Hg Hid Ha Hp H0 H1 H2 H3 R0 R1 R2 R3 v.
  unfold commandLoop. rewrite Hg. cbv zeta. rewrite Hid. simpl.
  unfold commandRead32, bind, index, Bus_Read. rewrite Ha, Hp, H0, H1, H2, H3.
  cbv zeta.
  assert (E : Z.lor (Z.lor (Z.lor (Z.shiftl v3 24 mod 4294967296)
                                  (Z.shiftl v2 16 mod 4294967296))
                           (Z.shiftl v1 8 mod 4294967296)) v0 = v).
  { rewrite !Z.shiftl_mul_pow2 by lia.
    change (2 ^ 24) with 16777216. change (2 ^ 16) with 65536.
    change (2 ^ 8) with 256. rewrite !Z.mod_small by lia.
    rewrite (lor_mul_add v3 (v2 * 65536) 16777216 24) by (reflexivity || lia).
    replace (v3 * 16777216 + v2 * 65536) with ((v3 * 256 + v2) * 65536) by lia.
    rewrite (lor_mul_add _ (v1 * 256) 65536 16) by (reflexivity || lia).
    replace ((v3 * 256 + v2) * 65536 + v1 * 256)
      with ((v3 * 65536 + v2 * 256 + v1) * 256) by lia.
    rewrite (lor_mul_add _ v0 256 8) by (reflexivity || lia).
    subst v. lia. }
  now rewrite E.
Qed.

Lemma read16_little_endian_witness :
  let c0 := mkCpu 4096 0 0 0 255 0
              (fun a => if a =? 4096 then Some 52
                        else if a =? 4097 then Some 18 else None) [] in
  let d := QueueCommands (NewDebugger c0 [] []) ["read16 4096"] in
  exists d',
    commandLoop d nop = Returned (false, d') /\
    In (Printf "$%04X,%04X => $%04X 0b%016b %d\n"
          [ArgInt 4096; ArgInt 4097; ArgInt 4660; ArgInt 4660; ArgInt 4660])
       (stdout d').
Proof.
  intros c0 d.
  set (c := mkCmd debugCmdRead16 "read16 4096" ["4096"]).
  pose proof (read16_little_endian d (snd (getCommand d)) nop c "4096"
                4096 52 18 eq_refl eq_refl eq_refl eq_refl eq_refl eq_refl
                ltac:(lia) ltac:(lia)) as E.
  eexists. split; [exact E|]. apply in_or_app. right. now left.
Defined.

Lemma read32_little_endian_witness :
  let c0 := mkCpu 65534 0 0 0 255 0
              (fun a => if a =? 65534 then Some 1
                        else if a =? 65535 then Some 2
                        else if a =? 0 then Some 3
                        else if a =? 1 then Some 4 else None) [] in
  let d := QueueCommands (NewDebugger c0 [] []) ["read32 ."] in
  exists d',
    commandLoop d nop = Returned (false, d') /\
    In (Printf "$%04X..%04X => $%08X 0b%032b %d\n"
          [ArgInt 65534; ArgInt 1; ArgInt 67305985; ArgInt 67305985;
           ArgInt 67305985])
       (stdout d').
Proof.
  intros c0 d.
  set (c := mkCmd debugCmdRead32 "read32 ." ["."]).
  pose proof (read32_little_endian d (snd (getCommand d)) nop c "."
                65534 1 2 3 4 eq_refl eq_refl eq_refl eq_refl eq_refl eq_refl
                eq_refl eq_refl
                ltac:(lia) ltac:(lia) ltac:(lia) ltac:(lia)) as E.
  eexists. split; [exact E|]. apply in_or_app. right. now left.
Defined.

Lemma hexDigit_value (n : Z) :
  0 <= n < 16 ->
  isHex (hexDigit n) = true /\ digitValue (hexDigit n) = n.
Proof.
  intros Hn. rewrite <- (Z2Nat.id n) by lia.
  assert (Hk : (Z.to_nat n < 16)%nat) by lia.
  revert Hk. generalize (Z.to_nat n). intros k Hk.
  do 16 (destruct k as [|k]; [now vm_compute|]). lia.
Qed.

Lemma format_04X_value (v : Z) :
  0 <= v < 65536 ->
  allChars isHex (format_04X v) = true /\ value 16 (format_04X v) 0 = v.
Proof.
  intros Hv. unfold format_04X.
  assert (H3 : 0 <= v / 4096 mod 16 < 16) by (apply Z.mod_pos_bound; lia).
  assert (H2 : 0 <= v / 256 mod 16 < 16) by (apply Z.mod_pos_bound; lia).
  assert (H1 : 0 <= v / 16 mod 16 < 16) by (apply Z.mod_pos_bound; lia).
  assert (H0 : 0 <= v mod 16 < 16) by (apply Z.mod_pos_bound; lia).
  destruct (hexDigit_value _ H3) as (A3 & B3).
  destruct (hexDigit_value _ H2) as (A2 & B2).
  destruct (hexDigit_value _ H1) as (A1 & B1).
  destruct (hexDigit_value _ H0) as (A0 & B0).
  cbn [allChars value]. rewrite A3, A2, A1, A0, B3, B2, B1, B0.
  split; [reflexivity|].
  clear -Hv. Z.to_euclidean_division_equations. lia.
Qed.

(** X17: the address the prompt shows can be typed back: for every 16-bit
    address, "$" followed by its four hexadecimal digits as the prompt
    prints them parses to that address (when no symbol has that very
    name); the prompt itself starts with that text for the current PC. *)
Theorem prompt_address_parses_back (d : Debugger) (v : Z) :
  0 <= v < 65536 ->
  addressesFor (symbols d) ("$" ++ format_04X v) = [] ->
  parseUint16 d ("$" ++ format_04X v) = (v, None) /\
  exists rest, prompt d = (("$" ++ format_04X (PC (cpu d))) ++ rest)%string.
Proof.
  intros Hv Ha. destruct (format_04X_value v Hv) as (Hh & Hval). split.
  - unfold parseUint16.
    change (String.eqb ("$" ++ format_04X v) ".") with false. cbv iota.
    rewrite Ha.
    change (strings.ReplaceFirst ("$" ++ format_04X v) "$" "0x")
      with ("0x" ++ format_04X v)%string.
    rewrite ParseUint_hex; [|discriminate|assumption|lia].
    rewrite Hval. now rewrite uint16_small.
  - unfold prompt. eexists. reflexivity.
Qed.

Lemma prompt_address_parses_back_witness :
  parseUint16 (NewDebugger cpu0 [(4096, "loop")] []) "$F00D" = (61453, None).
Proof.
  exact (proj1 (prompt_address_parses_back (NewDebugger cpu0 [(4096, "loop")] [])
                  61453 ltac:(lia) eq_refl)).
Defined.

End ReadProperties.

(** ** Numbers out of range and register breakpoints *)

Section RangeProperties.

Import cpu debugger sample strconv numeral.

Section Overflow.

Variable ok : ascii -> bool.
Variable base : Z.
Hypothesis base_ge_2 : 2 <= base.
Hypothesis ok_digit :
  forall c, ok c = true ->
    digit (byte c) = Some (digitValue c) /\ 0 <= digitValue c < base /\
    (byte c =? 95) = false /\ Ascii.eqb c "$" = false.

(** The loop of ParseUint stops with the range error at the first digit
    that takes the number above the bound. *)
Lemma digits_overflow (base0 : bool) (cutoff maxVal : Z) (s : string) (n : Z)
                      (underscores : bool) :
  allChars ok s = true ->
  0 <= n <= maxVal ->
  maxVal < value base s n ->
  maxVal < cutoff ->
  maxVal * base + base <= 18446744073709551616 ->
  digits base0 base cutoff maxVal s n underscores = inl (maxVal, rangeError).
Proof using All.
  revert n. induction s as [|c s IH]; intros n Hs Hn Hv Hcut Hmax;
    simpl in *; [lia|].
  apply andb_true_iff in Hs as [Hc Hs].
  destruct (ok_digit c Hc) as (-> & Hd & -> & _). simpl.
  replace (digitValue c >=? base) with false
    by (symmetry; rewrite Z.geb_leb; apply Z.leb_gt; lia).
  replace (n >=? cutoff) with false
    by (symmetry; rewrite Z.geb_leb; apply Z.leb_gt; lia).
  unfold uint64.
  rewrite (Z.mod_small (n * base)) by nia.
  rewrite (Z.mod_small (n * base + digitValue c)) by nia.
  replace (n * base + digitValue c <? n * base) with false
    by (symmetry; apply Z.ltb_ge; lia).
  destruct (Z.gtb_spec (n * base + digitValue c) maxVal) as [Hgt|Hle].
  - reflexivity.
  - simpl. apply IH; try assumption. nia.
Qed.

End Overflow.

Lemma value_nonneg (ok : ascii -> bool) (base : Z) (s : string) :
  (forall c, ok c = true -> 0 <= digitValue c < base) -> 2 <= base ->
  allChars ok s = true -> 0 <= value base s 0.
Proof.
  intros Hok Hb. assert (G : forall n, 0 <= n -> allChars ok s = true ->
                                       0 <= value base s n).
  { induction s as [|c s IH]; intros n Hn Hs; simpl in *; [assumption|].
    apply andb_true_iff in Hs as [Hc Hs]. specialize (Hok c Hc).
    apply IH; [nia|assumption]. }
  apply G. lia.
Qed.

Lemma ParseUint_hex_bits (bits : Z) (h : string) :
  bits = 8 \/ bits = 16 ->
  h <> "" ->
  allChars isHex h = true ->
  ParseUint ("0x" ++ h) 0 bits
  = if value 16 h 0 <? 2 ^ bits
    then (value 16 h 0, None) else (2 ^ bits - 1, rangeError).
Proof.
  intros Hb Hne Hh. destruct h as [|c h]; [contradiction|].
  destruct Hb as [-> | ->].
  - change (ParseUint ("0x" ++ String c h) 0 8)
      with (match digits true 16 1152921504606846976 255 (String c h) 0 false with
            | inl r => r
            | inr (n, underscores) =>
                if underscores && negb (underscoreOK ("0x" ++ String c h))
                then (0, syntaxError) else (n, None)
            end).
    change (2 ^ 8) with 256.
    destruct (Z.ltb_spec (value 16 (String c h) 0) 256) as [Hv|Hv].
    + rewrite (digits_value isHex 16 ltac:(lia) hex_digit) by (assumption || lia).
      reflexivity.
    + rewrite (digits_overflow isHex 16 ltac:(lia) hex_digit)
        by (assumption || lia).
      reflexivity.
  - change (ParseUint ("0x" ++ String c h) 0 16)
      with (match digits true 16 1152921504606846976 65535 (String c h) 0 false with
            | inl r => r
            | inr (n, underscores) =>
                if underscores && negb (underscoreOK ("0x" ++ String c h))
                then (0, syntaxError) else (n, None)
            end).
    change (2 ^ 16) with 65536.
    destruct (Z.ltb_spec (value 16 (String c h) 0) 65536) as [Hv|Hv].
    + rewrite (digits_value isHex 16 ltac:(lia) hex_digit) by (assumption || lia).
      reflexivity.
    + rewrite (digits_overflow isHex 16 ltac:(lia) hex_digit)
        by (assumption || lia).
      reflexivity.
Qed.

Lemma ParseUint_decimal_bits (bits : Z) (c : ascii) (r : string) :
  bits = 8 \/ bits = 16 ->
  allChars isDecimal (String c r) = true ->
  c <> "0"%char ->
  ParseUint (String c r) 0 bits
  = if value 10 (String c r) 0 <? 2 ^ bits
    then (value 10 (String c r) 0, None) else (2 ^ bits - 1, rangeError).
Proof.
  intros Hb Hs Hc.
  assert (H48 : (byte c =? 48) = false).
  { apply Z.eqb_neq. intros E. apply Hc.
    rewrite <- (ascii_N_embedding c), <- (ascii_N_embedding "0").
    f_equal. unfold byte in E. apply N2Z.inj. exact E. }
  unfold ParseUint, basePrefix.
  change (String.eqb (String c r) "") with false. cbv iota.
  change ((2 <=? 0) && (0 <=? 36)) with false.
  change (0 =? 0) with true. cbv iota. rewrite H48.
  change (maxUint64 / 10 + 1) with 1844674407370955162.
  destruct Hb as [-> | ->].
  - change ((8 <? 0) || (8 >? 64)) with false. cbv iota.
    change (8 =? 0) with false. cbv iota zeta.
    change (uint64 (Z.shiftl 1 8 - 1)) with 255. change (2 ^ 8) with 256.
    destruct (Z.ltb_spec (value 10 (String c r) 0) 256) as [Hv|Hv].
    + rewrite (digits_value isDecimal 10 ltac:(lia) decimal_digit)
        by (assumption || lia).
      reflexivity.
    + rewrite (digits_overflow isDecimal 10 ltac:(lia) decimal_digit)
        by (assumption || lia).
      reflexivity.
  - change ((16 <? 0) || (16 >? 64)) with false. cbv iota.
    change (16 =? 0) with false. cbv iota zeta.
    change (uint64 (Z.shiftl 1 16 - 1)) with 65535. change (2 ^ 16) with 65536.
    destruct (Z.ltb_spec (value 10 (String c r) 0) 65536) as [Hv|Hv].
    + rewrite (digits_value isDecimal 10 ltac:(lia) decimal_digit)
        by (assumption || lia).
      reflexivity.
    + rewrite (digits_overflow isDecimal 10 ltac:(lia) decimal_digit)
        by (assumption || lia).
      reflexivity.
Qed.

Lemma denotes_nonneg (s : string) (v : Z) : denotes s v -> 0 <= v.
Proof.
  intros [h _ Hh | h _ Hh | c r Hs _].
  - apply (value_nonneg isHex); [|lia|assumption].
    intros c Hc. now destruct (hex_digit c Hc) as (_ & ? & _).
  - apply (value_nonneg isHex); [|lia|assumption].
    intros c Hc. now destruct (hex_digit c Hc) as (_ & ? & _).
  - apply (value_nonneg isDecimal); [|lia|assumption].
    intros c' Hc. now destruct (decimal_digit c' Hc) as (_ & ? & _).
Qed.

Lemma denotes_not_dot (s : string) (v : Z) : denotes s v -> s <> ".".
Proof.
  intros [h _ _ | h _ _ | c r Hs _] E; cbn in E; try discriminate E.
  injection E as -> ->. vm_compute in Hs. discriminate Hs.
Qed.

(** What ParseUint answers, after the "$" has been replaced, for a numeral
    and a size of 8 or 16 bits. *)
Lemma ParseUint_denotes (bits : Z) (s : string) (v : Z) :
  bits = 8 \/ bits = 16 ->
  denotes s v ->
  ParseUint (strings.ReplaceFirst s "$" "0x") 0 bits
  = if v <? 2 ^ bits then (v, None) else (2 ^ bits - 1, rangeError).
Proof.
  intros Hb [h Hne Hh | h Hne Hh | c r Hs Hc].
  - change (strings.ReplaceFirst ("$" ++ h) "$" "0x") with ("0x" ++ h)%string.
    now apply ParseUint_hex_bits.
  - change (strings.ReplaceFirst ("0x" ++ h) "$" "0x")
      with ("0x" ++ strings.ReplaceFirst h "$" "0x")%string.
    rewrite (ReplaceFirst_digits isHex 16 ltac:(lia) hex_digit) by assumption.
    now apply ParseUint_hex_bits.
  - rewrite (ReplaceFirst_digits isDecimal 10 ltac:(lia) decimal_digit)
      by assumption.
    now apply ParseUint_decimal_bits.
Qed.

Lemma parseUint8_numerals_aux (d : Debugger) (s : string) (v : Z) :
  denotes s v ->
  parseUint8 d s = if v <? 256 then (v, None) else (255, rangeError).
Proof.
  intros Hs. pose proof (denotes_nonneg s v Hs) as Hv.
  unfold parseUint8. rewrite (ParseUint_denotes 8 s v (or_introl eq_refl) Hs).
  change (2 ^ 8) with 256.
  destruct (Z.ltb_spec v 256); [|reflexivity].
  unfold uint8. now rewrite Z.mod_small by lia.
Qed.

(** X18: parseUint8 reads "$" or "0x" and hexadecimal digits, and decimal
    digits not starting with "0", as the number they denote when it is
    below 256, and otherwise answers 255 with the range error.  Unlike
    parseUint16 it knows neither "." nor symbols. *)
Theorem parseUint8_numerals (d : Debugger) (s : string) (v : Z) :
  denotes s v ->
  parseUint8 d s = if v <? 256 then (v, None) else (255, rangeError).
Proof. exact (parseUint8_numerals_aux d s v). Qed.

Lemma parseUint8_numerals_witness :
  parseUint8 (NewDebugger cpu0 [] []) "$1F" = (31, None) /\
  parseUint8 (NewDebugger cpu0 [] []) "256" = (255, rangeError).
Proof.
  split.
  - exact (parseUint8_numerals (NewDebugger cpu0 [] []) "$1F" _
             (denotes_dollar "1F" ltac:(discriminate) eq_refl)).
  - exact (parseUint8_numerals (NewDebugger cpu0 [] []) "256" _
             (denotes_decimal "2" "56" eq_refl ltac:(discriminate))).
Defined.

(** X19: a numeral of 65536 or more is no address: parseUint16 answers
    65535 with the range error, and each of [read], [read16] and [read32]
    given such an address panics with that error instead of reading
    memory at the address modulo 65536. *)
Theorem address_out_of_range (d : Debugger) (c : cmd) (s : string) (v : Z) :
  denotes s v ->
  65536 <= v ->
  addressesFor (symbols d) s = [] ->
  nth_error (arguments c) 0 = Some s ->
  parseUint16 d s = (65535, rangeError) /\
  commandRead d c = Panicked "strconv.ParseUint: value out of range" /\
  commandRead16 d c = Panicked "strconv.ParseUint: value out of range" /\
  commandRead32 d c = Panicked "strconv.ParseUint: value out of range".
Proof.
  intros Hs Hv Ha Harg.
  assert (Hp : parseUint16 d s = (65535, rangeError)).
  { unfold parseUint16.
    replace (String.eqb s ".") with false
      by (symmetry; apply String.eqb_neq; exact (denotes_not_dot s v Hs)).
    rewrite Ha, (ParseUint_denotes 16 s v (or_intror eq_refl) Hs).
    change (2 ^ 16) with 65536.
    destruct (Z.ltb_spec v 65536); [lia|reflexivity]. }
  split; [exact Hp|].
  unfold commandRead, commandRead16, commandRead32, bind, index.
  rewrite Harg, Hp. repeat split.
Qed.

Lemma address_out_of_range_witness :
  parseUint16 (NewDebugger cpu0 [] []) "$10000" = (65535, rangeError) /\
  commandRead (NewDebugger cpu0 [] []) (mkCmd debugCmdRead "read $10000" ["$10000"])
  = Panicked "strconv.ParseUint: value out of range".
Proof.
  pose proof (address_out_of_range (NewDebugger cpu0 [] [])
                (mkCmd debugCmdRead "read $10000" ["$10000"]) "$10000" _
                (denotes_dollar "10000" ltac:(discriminate) eq_refl)
                ltac:(vm_compute; discriminate) eq_refl eq_refl) as (H1 & H2 & _).
  exact (conj H1 H2).
Defined.

(** X20: [break-register] with a register name and a numeral below 256
    arms the breakpoint of that register (A for "A", "a", "AC", "ac"; X
    and Y in either case) with that value and leaves the other
    breakpoints as they were; the check before the next instruction stops
    the debugger if the register holds the value.  Any other register
    name panics before the value is looked at. *)
Theorem break_register_arms (d : Debugger) (c : cmd) (r s : string) (v : Z) :
  nth_error (arguments c) 0 = Some r ->
  nth_error (arguments c) 1 = Some s ->
  denotes s v -> v < 256 ->
  let bi := breakInstruction d in
  let ba := (breakAddress d, breakAddressValue d) in
  let a := (breakRegA d, breakRegAValue d) in
  let x := (breakRegX d, breakRegXValue d) in
  let y := (breakRegY d, breakRegYValue d) in
  (In r ["A"; "a"; "AC"; "ac"] ->
   exists d', commandBreakRegister d c = Returned d' /\
              breakpoints d' = (bi, ba, (true, v), x, y) /\
              forall in_, AC (cpu d) = v -> run (doBreakpoints d' in_) = false) /\
  (In r ["X"; "x"] ->
   exists d', commandBreakRegister d c = Returned d' /\
              breakpoints d' = (bi, ba, a, (true, v), y) /\
              forall in_, X (cpu d) = v -> run (doBreakpoints d' in_) = false) /\
  (In r ["Y"; "y"] ->
   exists d', commandBreakRegister d c = Returned d' /\
              breakpoints d' = (bi, ba, a, x, (true, v)) /\
              forall in_, Y (cpu d) = v -> run (doBreakpoints d' in_) = false) /\
  (~ In r ["A"; "a"; "AC"; "ac"; "X"; "x"; "Y"; "y"] ->
   commandBreakRegister d c = Panicked "Invalid register for break-register").
Proof.
  intros Hr Hs Hd Hv bi ba a x y.
  assert (Hp : forall d0, parseUint8 d0 s = (v, None)).
  { intros d0. rewrite (parseUint8_numerals_aux d0 s v Hd).
    now destruct (Z.ltb_spec v 256); [|lia]. }
  unfold commandBreakRegister, bind, index. rewrite Hr, Hs.
  split; [|split; [|split]].
  - intros Hin.
    assert (E : String.eqb r "A" || String.eqb r "a" || String.eqb r "AC"
                || String.eqb r "ac" = true).
    { destruct Hin as [<- | [<- | [<- | [<- | []]]]]; reflexivity. }
    rewrite E. cbv beta iota. rewrite Hp. cbv beta iota.
    eexists. split; [reflexivity|]. split; [reflexivity|].
    intros in_ Hac.
    match goal with |- run (doBreakpoints ?d' _) = _ =>
      destruct (doBreakpoints_tests d' in_) as (Hrun & _) end.
    rewrite Hrun. apply andb_false_iff. right. apply negb_false_iff.
    unfold breakpointHit. cbn. rewrite Hac, Z.eqb_refl.
    now rewrite !orb_true_r.
  - intros Hin.
    assert (E : String.eqb r "A" || String.eqb r "a" || String.eqb r "AC"
                || String.eqb r "ac" = false).
    { destruct Hin as [<- | [<- | []]]; reflexivity. }
    assert (E' : String.eqb r "X" || String.eqb r "x" = true).
    { destruct Hin as [<- | [<- | []]]; reflexivity. }
    rewrite E, E'. cbv beta iota. rewrite Hp. cbv beta iota.
    eexists. split; [reflexivity|]. split; [reflexivity|].
    intros in_ Hx.
    match goal with |- run (doBreakpoints ?d' _) = _ =>
      destruct (doBreakpoints_tests d' in_) as (Hrun & _) end.
    rewrite Hrun. apply andb_false_iff. right. apply negb_false_iff.
    unfold breakpointHit. cbn. rewrite Hx, Z.eqb_refl.
    now rewrite !orb_true_r.
  - intros Hin.
    assert (E : String.eqb r "A" || String.eqb r "a" || String.eqb r "AC"
                || String.eqb r "ac" = false).
    { destruct Hin as [<- | [<- | []]]; reflexivity. }
    assert (E' : String.eqb r "X" || String.eqb r "x" = false).
    { destruct Hin as [<- | [<- | []]]; reflexivity. }
    assert (E'' : String.eqb r "Y" || String.eqb r "y" = true).
    { destruct Hin as [<- | [<- | []]]; reflexivity. }
    rewrite E, E', E''. cbv beta iota. rewrite Hp. cbv beta iota.
    eexists. split; [reflexivity|]. split; [reflexivity|].
    intros in_ Hy.
    match goal with |- run (doBreakpoints ?d' _) = _ =>
      destruct (doBreakpoints_tests d' in_) as (Hrun & _) end.
    rewrite Hrun. apply andb_false_iff. right. apply negb_false_iff.
    unfold breakpointHit. cbn. rewrite Hy, Z.eqb_refl.
    now rewrite !orb_true_r.
  - intros Hn.
    assert (N : forall t, In t ["A"; "a"; "AC"; "ac"; "X"; "x"; "Y"; "y"] ->
                          String.eqb r t = false).
    { intros t Ht. apply String.eqb_neq. intros ->. exact (Hn Ht). }
    rewrite !N by (cbn; tauto). reflexivity.
Qed.

Lemma break_register_arms_witness :
  exists d',
    commandBreakRegister (NewDebugger cpu0 [] [])
      (mkCmd debugCmdBreakRegister "br x $00" ["x"; "$00"]) = Returned d' /\
    run (doBreakpoints d' nop) = false.
Proof.
  destruct (break_register_arms (NewDebugger cpu0 [] [])
              (mkCmd debugCmdBreakRegister "br x $00" ["x"; "$00"]) "x" "$00" _
              eq_refl eq_refl
              (denotes_dollar "00" ltac:(discriminate) eq_refl) ltac:(reflexivity))
    as (_ & HX & _).
  destruct (HX (or_intror (or_introl eq_refl))) as (d' & E & _ & F).
  exists d'. split; [exact E|exact (F nop eq_refl)].
Defined.





End RangeProperties.

(** ** The two goroutines after an exit status *)

Section RunAfterExit.

Import machine.




Lemma next_blocked (e : event) (w w' : world) (status : Z) :
  loop w = Sending status -> watcher w <> Receiving ->
  next e w = Some w' ->
  loop w' = Sending status /\ watcher w' <> Receiving /\ steps w' = steps w.
Proof.
  unfold next. intros Hl Hw. rewrite Hl.
  destruct e, (watcher w) eqn:Ew; intros E; try discriminate E;
    try (exfalso; apply Hw; reflexivity);
    injection E as <-; simpl; rewrite ?Ew;
    repeat split; (assumption || discriminate || reflexivity).
Qed.

(** X23: the exit channel is received from once.  A Step that sends a
    second exit status, after one has been delivered, blocks for ever:
    whatever happens next the loop is still in that send, no Step is
    called, and Run does not return. *)
Theorem second_exit_blocks_Run (s1 : list event) (w : world) (status : Z) :
  exec s1 start = Some w ->
  delivered w <> None ->
  loop w = Sending status ->
  forall s2 w',
    exec s2 w = Some w' ->
    loop w' = Sending status /\ loop w' <> AfterLoop /\ steps w' = steps w.
Proof.
  intros E Hd Hl.
  destruct (exec_consistent _ _ _ start_consistent E) as (Hr & _).
  assert (Hw : watcher w <> Receiving) by (intros Hw; apply Hd, Hr, Hw).
  clear E Hr Hd. intros s2. revert w Hl Hw.
  induction s2 as [|e rest IH]; intros w Hl Hw w'; simpl.
  - intros E. injection E as <-. rewrite Hl. repeat split. discriminate.
  - destruct (next e w) as [w1|] eqn:E; [|discriminate].
    destruct (next_blocked e w w1 status Hl Hw E) as (Hl1 & Hw1 & Hs1).
    intros E'. destruct (IH w1 Hl1 Hw1 w' E') as (A & B & C).
    repeat split; [assumption|assumption|congruence].
Qed.

Lemma second_exit_blocks_Run_witness :
  loop (mkWorld false (Sending 0) Finished 2 (Some 0) 1) = Sending 0 /\
  loop (mkWorld false (Sending 0) Finished 2 (Some 0) 1) <> AfterLoop /\
  steps (mkWorld false (Sending 0) Finished 2 (Some 0) 1) = 2%nat.
Proof.
  assert (Hd : Some 0 <> @None Z) by discriminate.
  exact (second_exit_blocks_Run
           [TestRunning; StepSends 0; Rendezvous; StepReturns; TestRunning;
            StepSends 0]
           (mkWorld true (Sending 0) (Logging 0) 2 (Some 0) 1) 0
           eq_refl Hd eq_refl
           [WatcherLogs; WatcherClears]
           (mkWorld false (Sending 0) Finished 2 (Some 0) 1) eq_refl).
Defined.

End RunAfterExit.

Section MainExit.

Import main.

(** What the main goroutine holds as exit status: the status delivered,
    or 1 after a signal, when nothing was delivered. *)
Lemma next_status (e : event) (w w' : world) :
  holdsStatus w -> next e w = Some w' -> holdsStatus w'.
Proof.
  unfold holdsStatus, next.
  destruct e, (cpuLoop w), (mainGoroutine w); intros H E;
    try discriminate E; injection E as <-; simpl; auto.
Qed.

(** X24: the status mainReturningStatus exits with is the one a Step
    sent on the exit channel, or 1 when a signal came first and nothing
    was delivered; and once the process has exited nothing runs. *)
Theorem exit_status_of_main (schedule : list event) (w : world) (status : Z) :
  exec schedule start = Some w ->
  mainGoroutine w = Exited status ->
  (delivered w = Some status \/ (delivered w = None /\ status = 1)) /\
  forall e, next e w = None.
Proof.
  intros E Hm.
  assert (H : holdsStatus w).
  { assert (G : forall s w0, holdsStatus w0 -> exec s w0 = Some w -> holdsStatus w).
    { induction s as [|e rest IH]; intros w0 H0; simpl.
      - intros E0. now injection E0 as <-.
      - destruct (next e w0) as [w1|] eqn:E1; [|discriminate].
        apply IH. exact (next_status e w0 w1 H0 E1). }
    apply (G schedule start); [reflexivity|exact E]. }
  unfold holdsStatus in H. rewrite Hm in H. split; [exact H|].
  intros e. unfold next. now rewrite Hm.
Qed.

Lemma exit_status_of_main_witness :
  delivered (mkWorld InStep (Exited 0) 1 (Some 0) 0) = Some 0 \/
  (delivered (mkWorld InStep (Exited 0) 1 (Some 0) 0) = None /\ 0 = 1).
Proof.
  exact (proj1 (exit_status_of_main
                  [CallStep; StepSends 0; Rendezvous; MainPrints; MainDumps;
                   MainExits]
                  (mkWorld InStep (Exited 0) 1 (Some 0) 0) 0 eq_refl eq_refl)).
Defined.

End MainExit.

(** ** Config.Start *)

Section ConfigProperties.

Import machine numeral.

Context {P : Packages}.

Lemma fromHexChar_hex (c : ascii) :
  isHex c = true ->
  hex.fromHexChar (byte c) = Some (digitValue c) /\ 0 <= digitValue c < 16.
Proof.
  destruct c as [[] [] [] [] [] [] [] []]; intros E; vm_compute in E;
    try discriminate E; vm_compute; intuition congruence.
Qed.

Lemma fromHexChar_other (c : ascii) :
  isHex c = false -> hex.fromHexChar (byte c) = None.
Proof.
  destruct c as [[] [] [] [] [] [] [] []]; intros E; vm_compute in E;
    try discriminate E; reflexivity.
Qed.

Lemma string_pairs_ind (Q : string -> Prop) :
  Q "" -> (forall c, Q (String c "")) ->
  (forall c d s, Q s -> Q (String c (String d s))) ->
  forall s, Q s.
Proof.
  intros H0 H1 H2 s.
  assert (G : Q s /\ forall c, Q (String c s)).
  { induction s as [|d s [IH1 IH2]]; [split; [exact H0|exact H1]|].
    split; [apply IH2|]. intros c. now apply H2. }
  exact (proj1 G).
Qed.

(** What DecodeString answers: without error, one byte for every two
    characters of a string of hexadecimal digits; an error for any other
    string. *)
Lemma DecodeString_cases (s : string) :
  match hex.DecodeString s with
  | (bs, None) =>
      allChars isHex s = true /\ String.length s = (2 * List.length bs)%nat
  | (_, Some _) =>
      allChars isHex s = false \/ Nat.odd (String.length s) = true
  end.
Proof.
  induction s as [| c | c d s IH] using string_pairs_ind.
  - now split.
  - cbn [hex.DecodeString]. destruct (isHex c) eqn:Hc.
    + destruct (fromHexChar_hex c Hc) as (-> & _). now right.
    + rewrite (fromHexChar_other c Hc). left. cbn. now rewrite Hc.
  - cbn [hex.DecodeString allChars String.length]. destruct (isHex c) eqn:Hc.
    2:{ rewrite (fromHexChar_other c Hc). now left. }
    destruct (fromHexChar_hex c Hc) as (-> & _). destruct (isHex d) eqn:Hd.
    2:{ rewrite (fromHexChar_other d Hd). now left. }
    destruct (fromHexChar_hex d Hd) as (-> & _).
    destruct (hex.DecodeString s) as [bs [e|]]; cbn [andb].
    + destruct IH as [IH|IH]; [now left|right].
      now rewrite Nat.odd_succ, Nat.even_succ.
    + destruct IH as (IH1 & IH2). split; [assumption|]. cbn [List.length]. lia.
Qed.

Lemma DecodeString_four (c1 c2 c3 c4 : ascii) :
  allChars isHex (String c1 (String c2 (String c3 (String c4 ""))))  = true ->
  exists b0 b1,
    hex.DecodeString (String c1 (String c2 (String c3 (String c4 ""))))
    = ([b0; b1], None) /\
    Z.lor (uint16 (Z.shiftl b0 8)) b1
    = value 16 (String c1 (String c2 (String c3 (String c4 "")))) 0.
Proof.
  cbn [allChars]. rewrite !andb_true_iff. intros (H1 & H2 & H3 & H4 & _).
  destruct (fromHexChar_hex c1 H1) as (E1 & R1).
  destruct (fromHexChar_hex c2 H2) as (E2 & R2).
  destruct (fromHexChar_hex c3 H3) as (E3 & R3).
  destruct (fromHexChar_hex c4 H4) as (E4 & R4).
  cbn [hex.DecodeString]. rewrite E1, E2, E3, E4.
  eexists. eexists. split; [reflexivity|]. cbn [value].
  rewrite !Z.shiftl_mul_pow2 by lia. change (2 ^ 4) with 16.
  change (2 ^ 8) with 256.
  rewrite !(lor_mul_add _ _ 16 4) by (reflexivity || lia).
  unfold uint8. rewrite !Z.mod_small by lia.
  unfold uint16. rewrite Z.mod_small by lia.
  rewrite (lor_mul_add _ _ 256 8) by (reflexivity || lia). lia.
Qed.

Lemma four_chars (s : string) :
  String.length s = 4%nat ->
  exists c1 c2 c3 c4, s = String c1 (String c2 (String c3 (String c4 ""))).
Proof.
  destruct s as [|c1 [|c2 [|c3 [|c4 [|c5 s]]]]]; try discriminate.
  intros _. now exists c1, c2, c3, c4.
Qed.

Lemma StartLoop_app (hs1 hs2 : list Hardware) (c : Config) :
  StartLoop (hs1 ++ hs2) c
  = match StartLoop hs1 c with
    | (c1, None) => StartLoop hs2 c1
    | (c1, Some e) => (c1, Some e)
    end.
Proof.
  revert c. induction hs1 as [|h hs1 IH]; intros c; [reflexivity|].
  cbn [app StartLoop].
  destruct (String.eqb (Address h) ""); [reflexivity|].
  destruct (hex.DecodeString (Address h)) as [b [e|]]; [reflexivity|].
  destruct (negb (Z.of_nat (List.length b) =? 2)); [reflexivity|].
  cbv zeta.
  match goal with |- context [let '(c0, err) := ?t in _] =>
    destruct t as [c1 [e|]] end; [reflexivity|apply IH].
Qed.

Lemma attach_memory {C : Type} `{Chip C} (c : Config) (name : string)
                    (address : Z) (chip : C) :
  let r := attach c name address chip in
  Config_Hardware (fst r) = Config_Hardware c /\
  match snd r with
  | None => exists m, memory (fst r) = memory c ++ [m]
  | Some _ => memory (fst r) = memory c
  end.
Proof.
  unfold attach. destruct (Configure chip) as [m [e|]]; [now split|].
  destruct (bus_Attach (addressBus c) m name address) as [b [e|]];
    cbn; split; eauto.
Qed.

Lemma StartLoop_memory (hs : list Hardware) (c : Config) :
  let r := StartLoop hs c in
  Config_Hardware (fst r) = Config_Hardware c /\
  exists ms,
    memory (fst r) = memory c ++ ms /\
    match snd r with
    | None => List.length ms = List.length hs
    | Some _ => (List.length ms < List.length hs)%nat
    end.
Proof.
  revert c. induction hs as [|h rest IH]; intros c; cbn zeta.
  - split; [reflexivity|]. exists []. now rewrite app_nil_r.
  - assert (Stop : forall e : string,
               Config_Hardware (fst (c, Some e)) = Config_Hardware c /\
               exists ms, memory (fst (c, Some e)) = memory c ++ ms /\
                 match snd (c, Some e) with
                 | None => List.length ms = List.length (h :: rest)
                 | Some _ => (List.length ms < List.length (h :: rest))%nat
                 end).
    { intros e. split; [reflexivity|]. exists []. rewrite app_nil_r.
      split; [reflexivity|]. cbn. lia. }
    cbn [StartLoop].
    destruct (String.eqb (Address h) ""); [apply Stop|].
    destruct (hex.DecodeString (Address h)) as [b [e|]]; [apply Stop|].
    destruct (negb (Z.of_nat (List.length b) =? 2)); [apply Stop|].
    cbv zeta.
    set (address := Z.lor (uint16 (Z.shiftl (nth 0 b 0) 8)) (nth 1 b 0)).
    assert (Hat : forall r : Config * error,
               (Config_Hardware (fst r) = Config_Hardware c /\
                match snd r with
                | None => exists m, memory (fst r) = memory c ++ [m]
                | Some _ => memory (fst r) = memory c
                end) ->
               let r' := (let '(c0, err) := r in
                          match err with
                          | Some e => (c0, Some e)
                          | None => StartLoop rest c0
                          end) in
               Config_Hardware (fst r') = Config_Hardware c /\
               exists ms, memory (fst r') = memory c ++ ms /\
                 match snd r' with
                 | None => List.length ms = List.length (h :: rest)
                 | Some _ => (List.length ms < List.length (h :: rest))%nat
                 end).
    { intros [c1 [e|]] (Hh & Hm); cbn [fst snd] in *; cbv zeta.
      - split; [assumption|]. exists []. rewrite app_nil_r.
        split; [assumption|]. cbn. lia.
      - destruct Hm as (m & Hm). destruct (IH c1) as (Hh1 & ms & Hm1 & Hl).
        unfold error in *.
        split; [exact (eq_trans Hh1 Hh)|]. exists (m :: ms). split.
        + refine (eq_trans Hm1 _). rewrite Hm, <- app_assoc. reflexivity.
        + revert Hl. cbn [List.length].
          match goal with |- match ?x with _ => _ end -> _ => destruct x end; lia. }
    destruct (Ram h), (Rom h), (Acia6551 h), (Via6522 h);
      try (apply Hat; apply attach_memory).
    apply Stop.
Qed.

(** X25: Start takes an address of exactly four hexadecimal digits, with
    no "$" or "0x" before them.  At an entry whose address is anything
    else Start returns an error and has configured and attached nothing
    for that entry or a later one; an empty address gives the error of an
    invalid entry. *)
Theorem address_needs_four_hex_digits (h : Hardware) (rest : list Hardware)
                                      (c : Config) :
  String.length (Address h) <> 4%nat \/ allChars isHex (Address h) = false ->
  (exists e, StartLoop (h :: rest) c = (c, Some e)) /\
  (Address h = "" ->
   StartLoop (h :: rest) c = (c, Some "Invalid Hardware entry, name %s")).
Proof.
  intros Hbad. cbn [StartLoop]. split.
  2:{ intros ->. reflexivity. }
  destruct (String.eqb (Address h) ""); [eauto|].
  pose proof (DecodeString_cases (Address h)) as Hd.
  destruct (hex.DecodeString (Address h)) as [b [e|]]; [eauto|].
  destruct Hd as (Hhex & Hlen).
  destruct (Z.eqb_spec (Z.of_nat (List.length b)) 2) as [E|E]; cbn [negb];
    [|eauto].
  exfalso. destruct Hbad as [Hbad|Hbad]; [apply Hbad; lia|congruence].
Qed.

(** X26: an entry with an address of four hexadecimal digits and a RAM
    chip of at least 1024 bytes attaches fresh RAM to the bus under the
    entry's name at the address the digits denote, the first two the high
    byte; the memory is recorded only when the bus accepts it.  A smaller
    size is an error and nothing reaches the bus. *)
Theorem ram_entry_attaches (h : Hardware) (rest : list Hardware) (c : Config)
                           (chip : RamChip) :
  String.length (Address h) = 4%nat ->
  allChars isHex (Address h) = true ->
  Ram h = Some chip ->
  let m := Some (Memory_of_Ram memory_newRam) in
  let r := bus_Attach (addressBus c) m (Name h) (value 16 (Address h) 0) in
  (1024 <= Size chip -> snd r = None ->
   StartLoop (h :: rest) c
   = StartLoop rest (mkConfig (Config_Hardware c) (fst r) (memory c ++ [m]))) /\
  (1024 <= Size chip -> forall e, snd r = Some e ->
   StartLoop (h :: rest) c
   = (mkConfig (Config_Hardware c) (fst r) (memory c), Some e)) /\
  (Size chip < 1024 ->
   StartLoop (h :: rest) c = (c, Some "Invalid ram size %d")).
Proof.
  intros Hlen Hhex Hram m r.
  destruct (four_chars _ Hlen) as (c1 & c2 & c3 & c4 & Ha).
  rewrite Ha in Hhex. destruct (DecodeString_four c1 c2 c3 c4 Hhex)
    as (b0 & b1 & Hd & Hv).
  assert (Hgo : StartLoop (h :: rest) c
                = let '(c0, err) := attach c (Name h) (value 16 (Address h) 0) chip in
                  match err with
                  | Some e => (c0, Some e)
                  | None => StartLoop rest c0
                  end).
  { cbn [StartLoop]. rewrite Hram, Ha. cbn [String.eqb Ascii.eqb].
    change (String.eqb (String c1 (String c2 (String c3 (String c4 "")))) "")
      with false. cbv iota.
    rewrite Hd. cbv beta iota zeta. cbn [List.length nth]. 
    change (negb (Z.of_nat 2 =? 2)) with false. cbv iota. now rewrite Hv. }
  rewrite Hgo. unfold attach, Configure, RamChip_Chip, RamChip_Configure.
  subst r m. split; [|split].
  - intros Hs Hr. replace (Size chip <? 1024) with false
      by (symmetry; apply Z.ltb_ge; lia).
    cbn [option_map].
    destruct (bus_Attach _ _ _ _) as [b [e|]]; cbn [snd fst] in *;
      [discriminate|reflexivity].
  - intros Hs e Hr. replace (Size chip <? 1024) with false
      by (symmetry; apply Z.ltb_ge; lia).
    cbn [option_map].
    destruct (bus_Attach _ _ _ _) as [b [e'|]]; cbn [snd fst] in *;
      [now injection Hr as ->|discriminate].
  - intros Hs. replace (Size chip <? 1024) with true
      by (symmetry; apply Z.ltb_lt; lia).
    reflexivity.
Qed.

(** X27: of the chips of an entry Start uses one: the RAM if there is
    one, else the ROM, else the serial chip, else the VIA; the others are
    ignored.  An entry with a valid address and no chip at all is an
    error, and nothing is attached. *)
Theorem chip_precedence (h : Hardware) (rest : list Hardware) (c : Config) :
  let only ram rom acia via := mkHardware (Name h) (Address h) ram rom acia via in
  (Ram h <> None ->
   StartLoop (h :: rest) c = StartLoop (only (Ram h) None None None :: rest) c) /\
  (Ram h = None -> Rom h <> None ->
   StartLoop (h :: rest) c = StartLoop (only None (Rom h) None None :: rest) c) /\
  (Ram h = None -> Rom h = None -> Acia6551 h <> None ->
   StartLoop (h :: rest) c
   = StartLoop (only None None (Acia6551 h) None :: rest) c) /\
  (Ram h = None -> Rom h = None -> Acia6551 h = None -> Via6522 h = None ->
   String.length (Address h) = 4%nat -> allChars isHex (Address h) = true ->
   StartLoop (h :: rest) c = (c, Some "No chip defined")).
Proof.
  intros only. subst only. cbn [StartLoop Name Address Ram Rom Acia6551 Via6522].
  split; [|split; [|split]].
  - intros Hn. destruct (Ram h) as [chip|]; [reflexivity|contradiction].
  - intros -> Hn. destruct (Rom h) as [chip|]; [reflexivity|contradiction].
  - intros -> -> Hn. destruct (Acia6551 h) as [chip|]; [reflexivity|contradiction].
  - intros -> -> -> -> Hlen Hhex.
    destruct (four_chars _ Hlen) as (c1 & c2 & c3 & c4 & Ha).
    rewrite Ha in *. destruct (DecodeString_four c1 c2 c3 c4 Hhex)
      as (b0 & b1 & Hd & _).
    change (String.eqb (String c1 (String c2 (String c3 (String c4 "")))) "")
      with false. cbv iota. rewrite Hd. reflexivity.
Qed.

(** X28: Start works through the hardware entries in order and stops at
    the first error: the entries after it are neither configured nor
    attached.  It never drops a memory: the memories recorded before stay,
    one is added for every entry when Start succeeds, and fewer than
    there are entries when it fails; the hardware list is not changed.
    When the bus cannot be created nothing changes at all. *)
Theorem Start_in_order (c c' : Config) (err : error) :
  Start c = (c', err) ->
  Config_Hardware c' = Config_Hardware c /\
  (exists ms,
      memory c' = memory c ++ ms /\
      match err with
      | None => List.length ms = List.length (Config_Hardware c)
      | Some _ => (List.length ms < List.length (Config_Hardware c))%nat
                  \/ snd bus_CreateBus <> None
      end) /\
  (snd bus_CreateBus <> None -> c' = c /\ err = snd bus_CreateBus) /\
  (forall hs1 hs2 c1 e,
      StartLoop hs1 c1 = (c', Some e) ->
      StartLoop (hs1 ++ hs2) c1 = (c', Some e)).
Proof.
  unfold Start. intros E. split; [|split; [|split]].
  - destruct bus_CreateBus as [b [e|]]; [now injection E as <- <-|].
    cbv zeta in E. cbn [Config_Hardware memory] in E.
    match type of E with StartLoop ?hs ?c0 = _ =>
      destruct (StartLoop_memory hs c0) as (Hh & _) end.
    rewrite E in Hh. exact Hh.
  - destruct bus_CreateBus as [b [e|]].
    + injection E as <- <-. exists []. rewrite app_nil_r.
      split; [reflexivity|]. right. discriminate.
    + cbv zeta in E. cbn [Config_Hardware memory] in E.
      match type of E with StartLoop ?hs ?c0 = _ =>
        destruct (StartLoop_memory hs c0) as (_ & ms & Hm & Hl) end.
      rewrite E in Hm, Hl. cbn [fst snd memory] in Hm, Hl.
      exists ms. split; [exact Hm|]. destruct err; [left|]; exact Hl.
  - destruct bus_CreateBus as [b [e|]]; cbn [snd]; [|congruence].
    intros _. now injection E as <- <-.
  - intros hs1 hs2 c1 e E1. now rewrite StartLoop_app, E1.
Qed.

End ConfigProperties.

Section ConfigWitnesses.

Import machine numeral sample.

Lemma address_needs_four_hex_digits_witness :
  exists e,
    StartLoop (P := packages0)
      [mkHardware "ram" "$0000" (Some (mkRamChip 32768)) None None None]
      (mkConfig (P := packages0) [] [] [])
    = (mkConfig (P := packages0) [] [] [], Some e).
Proof.
  assert (H : String.length "$0000" <> 4%nat \/ allChars isHex "$0000" = false)
    by (left; cbn; discriminate).
  exact (proj1 (address_needs_four_hex_digits (P := packages0)
                  (mkHardware "ram" "$0000" (Some (mkRamChip 32768)) None None None)
                  [] (mkConfig (P := packages0) [] [] []) H)).
Defined.

Lemma ram_entry_attaches_witness :
  StartLoop (P := packages0)
    [mkHardware "ram" "9F10" (Some (mkRamChip 32768)) None None None]
    (mkConfig (P := packages0) [] [] [])
  = (mkConfig (P := packages0) [] [("ram", 40720)] [Some "ram"], None).
Proof.
  assert (H : 1024 <= 32768) by lia.
  pose proof (ram_entry_attaches (P := packages0)
                (mkHardware "ram" "9F10" (Some (mkRamChip 32768)) None None None)
                [] (mkConfig (P := packages0) [] [] []) (mkRamChip 32768)
                eq_refl eq_refl eq_refl) as (G & _).
  exact (G H eq_refl).
Defined.

Lemma chip_precedence_witness :
  StartLoop (P := packages0)
    [mkHardware "io" "9000" None None None None]
    (mkConfig (P := packages0) [] [] [])
  = (mkConfig (P := packages0) [] [] [], Some "No chip defined").
Proof.
  pose proof (chip_precedence (P := packages0)
                (mkHardware "io" "9000" None None None None)
                [] (mkConfig (P := packages0) [] [] [])) as (_ & _ & _ & G).
  exact (G eq_refl eq_refl eq_refl eq_refl eq_refl eq_refl).
Defined.

Lemma Start_in_order_witness :
  exists ms,
    memory (fst (Start (P := packages0) (mkConfig (P := packages0) hardware0 [] [])))
    = [] ++ ms /\
    List.length ms = 3%nat.
Proof.
  destruct (Start_in_order (P := packages0)
              (mkConfig (P := packages0) hardware0 [] [])
              (mkConfig (P := packages0) hardware0
                 [("ram", 0); ("console", 36880); ("kernel", 61440)]
                 [Some "ram"; Some "acia"; Some "rom kernel.rom"])
              None eq_refl) as (_ & (ms & E & L) & _).
  exists ms. split; [exact E|exact L].
Defined.

End ConfigWitnesses.
